(** * The business-card OCR pipeline of [main.py], embedded and verified

    The development follows the source file top to bottom:

    - Python values as [json.loads] produces them ([value]), with the
      dictionaries as finite maps;
    - the string helpers the code relies on ([in], [str.split],
      [str.strip], [str.startswith]);
    - exceptions and the handler's effects: every call to the generation
      capability, to the search capability and to the submission sink is
      recorded, with its answer, in a trace;
    - [search_google], [parse_openai_json] and [perform_ocr], split at the
      numbered steps of the source;
    - the properties of the pipeline.

    Text is modelled by [string]; a character is a code point below 256. *)

From Stdlib Require Import ZArith String Ascii Bool Lia.
From Stdlib Require Import Floats.SpecFloat.
From Stdlib Require Import Sorting.Sorted.
From stdpp Require Import base option list gmap strings pretty.

Set Warnings "-register-all".
Open Scope Z_scope.
Open Scope string_scope.

(** ** Python values *)

(** What [json.loads] can return: [None], [bool], [int], [float], [str],
    [list] and [dict] (whose keys are always [str]). A dict is a finite
    map: the order of its keys, which only [json.dumps] could show, is not
    kept. *)
Inductive value :=
| VNone
| VBool (b : bool)
| VInt (z : Z)
| VFloat (f : spec_float)
| VStr (s : string)
| VList (l : list value)
| VDict (d : gmap string value).

(** [type(v).__name__], as it appears in error messages. *)
Definition type_name (v : value) : string :=
  match v with
  | VNone => "NoneType"
  | VBool _ => "bool"
  | VInt _ => "int"
  | VFloat _ => "float"
  | VStr _ => "str"
  | VList _ => "list"
  | VDict _ => "dict"
  end.

(** Truth value testing: [None], [False], zero, and every empty string,
    list or dict are false. A NaN is true. *)
Definition py_truthy (v : value) : bool :=
  match v with
  | VNone => false
  | VBool b => b
  | VInt z => negb (Z.eqb z 0)
  | VFloat (S754_zero _) => false
  | VFloat _ => true
  | VStr EmptyString => false
  | VStr (String _ _) => true
  | VList [] => false
  | VList (_ :: _) => true
  | VDict d => negb (Nat.eqb (size d) 0)
  end.

(** ** Strings *)

Module Str.

(** [s.startswith(p)] *)
Fixpoint startswith (p s : string) : bool :=
  match p, s with
  | EmptyString, _ => true
  | String _ _, EmptyString => false
  | String a p', String b s' => if Ascii.eqb a b then startswith p' s' else false
  end.

(** [sub in s] *)
Fixpoint contains (sub s : string) : bool :=
  startswith sub s ||
  match s with
  | EmptyString => false
  | String _ s' => contains sub s'
  end.

(** [s[n:]] *)
Fixpoint drop (n : nat) (s : string) : string :=
  match n, s with
  | O, _ => s
  | S _, EmptyString => EmptyString
  | S n', String _ s' => drop n' s'
  end.

(** The text before and after the leftmost occurrence of [sep], when there
    is one (the outer parts of [s.partition(sep)]). *)
Fixpoint cut (sep s : string) : option (string * string) :=
  if startswith sep s then Some (EmptyString, drop (String.length sep) s)
  else match s with
       | EmptyString => None
       | String c s' =>
           match cut sep s' with
           | Some (a, b) => Some (String c a, b)
           | None => None
           end
       end.

Fixpoint split_fuel (fuel : nat) (sep s : string) : list string :=
  match fuel with
  | O => [s]
  | S fuel' =>
      match cut sep s with
      | None => [s]
      | Some (a, b) => a :: split_fuel fuel' sep b
      end
  end.

(** [s.split(sep)] for a non-empty [sep]: the pieces between the
    occurrences of [sep], found from the left and not overlapping. Every
    cut consumes at least one character, so [length s] cuts suffice. (On an
    empty separator Python raises [ValueError]; the program only ever
    passes the literals [","], the JSON fence and the bare fence.) *)
Definition split (sep s : string) : list string :=
  split_fuel (String.length s) sep s.

(** [c.isspace()] for a code point below 256: tab, line feed, vertical tab,
    form feed, carriage return, the four separators 28 to 31, space, next
    line (133) and no-break space (160). *)
Definition isspace (c : ascii) : bool :=
  let n := nat_of_ascii c in
  ((9 <=? n) && (n <=? 13) || (28 <=? n) && (n <=? 32)
   || (n =? 133) || (n =? 160))%nat.

Fixpoint lstrip (s : string) : string :=
  match s with
  | EmptyString => EmptyString
  | String c s' => if isspace c then lstrip s' else s
  end.

Fixpoint rstrip (s : string) : string :=
  match s with
  | EmptyString => EmptyString
  | String c s' =>
      match rstrip s' with
      | EmptyString => if isspace c then EmptyString else String c EmptyString
      | r => String c r
      end
  end.

(** [s.strip()] *)
Definition strip (s : string) : string := rstrip (lstrip s).

(** The first piece of [split sep s]. *)
Definition head_split (sep s : string) : string :=
  match cut sep s with
  | None => s
  | Some (a, _) => a
  end.

(** All of [s] but its last character. *)
Fixpoint butlast (s : string) : string :=
  match s with
  | EmptyString => EmptyString
  | String c EmptyString => EmptyString
  | String c s' => String c (butlast s')
  end.

(** The leftmost occurrence of [sep] in [pre ++ sep ++ rest] is the one
    after [pre], whatever [rest] is: no occurrence of [sep] starts inside
    [pre], not even one that runs into the separator that follows. *)
Definition first_at (sep pre : string) : Prop :=
  contains sep (pre ++ butlast sep) = false.

End Str.

(** The double quote, which a string literal cannot hold. *)
Definition dq : string := String (ascii_of_nat 34) EmptyString.

(** The newline of the multi-line literals. *)
Definition nl : string := String (ascii_of_nat 10) EmptyString.

(** ** Exceptions *)

(** Any exception other than [HTTPException]: its class and [str(e)]. *)
Record pyerror := PyError { exc_class : string; exc_msg : string }.

Inductive exn :=
| Exc (e : pyerror)
| HTTPException (status_code : Z) (detail : string).

Inductive result (A : Type) :=
| Ok (a : A)
| Raise (e : exn).
Arguments Ok {A} a.
Arguments Raise {A} e.

Definition AttributeError (v : value) (attr : string) : exn :=
  Exc (PyError "AttributeError"
         ("'" ++ type_name v ++ "' object has no attribute '" ++ attr ++ "'")).

Definition IndexError : exn :=
  Exc (PyError "IndexError" "list index out of range").

(** [l[i]] on a list *)
Definition list_index {A} (l : list A) (i : nat) : result A :=
  match l !! i with
  | Some x => Ok x
  | None => Raise IndexError
  end.

Definition TypeError (msg : string) : exn := Exc (PyError "TypeError" msg).

Definition KeyError (key : string) : exn :=
  Exc (PyError "KeyError" ("'" ++ key ++ "'")).

Definition bind_result {A B} (c : result A) (k : A -> result B) : result B :=
  match c with
  | Ok a => k a
  | Raise e => Raise e
  end.

Notation "x <-? c ;; k" := (bind_result c (fun x => k))
  (at level 100, c at next level, right associativity).

(** ** Operations on values *)

(** [v.get(key, default)]: only a dict has the method. *)
Definition py_get (v : value) (key : string) (default : value) : result value :=
  match v with
  | VDict d =>
      match d !! key with
      | Some x => Ok x
      | None => Ok default
      end
  | _ => Raise (AttributeError v "get")
  end.

(** [key in v], for a [str] key: a key of a dict, an element of a list (a
    [str] equals no value of another type), a substring of a string. *)
Definition py_in (key : string) (v : value) : result bool :=
  match v with
  | VDict d => Ok (bool_decide (is_Some (d !! key)))
  | VList l =>
      Ok (existsb (fun x => match x with
                            | VStr s => String.eqb key s
                            | _ => false
                            end) l)
  | VStr s => Ok (Str.contains key s)
  | _ => Raise (TypeError ("argument of type '" ++ type_name v
                           ++ "' is not iterable"))
  end.

(** [v[key]], for a [str] key. *)
Definition py_getitem (v : value) (key : string) : result value :=
  match v with
  | VDict d =>
      match d !! key with
      | Some x => Ok x
      | None => Raise (KeyError key)
      end
  | VList _ =>
      Raise (TypeError "list indices must be integers or slices, not str")
  | VStr _ => Raise (TypeError "string indices must be integers, not 'str'")
  | _ => Raise (TypeError ("'" ++ type_name v
                           ++ "' object is not subscriptable"))
  end.

(** [len(v)] *)
Definition py_len (v : value) : result Z :=
  match v with
  | VStr s => Ok (Z.of_nat (String.length s))
  | VList l => Ok (Z.of_nat (length l))
  | VDict d => Ok (Z.of_nat (size d))
  | _ => Raise (TypeError ("object of type '" ++ type_name v
                           ++ "' has no len()"))
  end.

(** ** The libraries and the outside world *)

(** An HTTP response as [requests] hands it over. *)
Record response := Response { resp_status : Z; resp_text : string }.

(** What the Python libraries compute. Their code is not part of the
    repository, so they are taken as they come:
    - [json.loads] and [json.dumps];
    - [str(v)] on a number, a list or a dict;
    - [str(e)] on an [HTTPException];
    - the [HTTPError] that [raise_for_status] raises on a status;
    - the validation [pydantic] applies to a [str] field and to a [bool]
      field, and the error it raises for a rejected mapping. *)
Record Runtime := {
  json_loads : string -> pyerror + value;
  json_dumps : value -> string;
  py_repr : value -> string;
  http_exception_str : Z -> string -> string;
  http_error : response -> pyerror;
  pydantic_str : value -> option string;
  pydantic_bool : value -> option bool;
  validation_error : gmap string value -> pyerror
}.

(** The environment variables read at start-up. *)
Record Config := {
  GOOGLE_API_KEY : option string;
  GOOGLE_CSE_ID : option string;
  APPS_SCRIPT_URL : string
}.

(** One part of a multi-part chat message. *)
Inductive content_part :=
| TextPart (text : string)
| ImageUrlPart (url : string).

Inductive message_content :=
| PartsContent (parts : list content_part)
| TextContent (text : string).

(** The arguments of [openai.chat.completions.create]: one user message. *)
Record chat_request := ChatRequest {
  chat_model : string;
  chat_content : message_content;
  chat_max_tokens : option Z;
  chat_json_object : bool
}.

(** The three places that call the generation capability, and the two that
    call [search_google]. They label the trace and change nothing else. *)
Inductive chat_site := Extraction | Validation | Enrichment.
Inductive search_site := ValidationSearch | EnrichmentSearch.

(** What the handler does to the outside world, each with the answer it
    got. A search whose credentials are missing issues no HTTP request. *)
Inductive event :=
| EvChat (site : chat_site) (req : chat_request) (reply : pyerror + option string)
| EvSearch (site : search_site) (query : value) (num_results : Z)
           (http : option (pyerror + response))
| EvSink (url : string) (data : string) (http : pyerror + response).

(** The outside world: what each call answers, given everything that
    happened before it. A call either raises or returns; a chat completion
    returns the content of its first choice, which may be [None]. *)
Record World := {
  openai_create : list event -> chat_request -> pyerror + option string;
  requests_get : list event -> string -> string -> value -> Z -> pyerror + response;
  requests_post : list event -> string -> string -> pyerror + response
}.

(** ** Computations with a trace *)

Definition M (A : Type) : Type := list event -> result A * list event.

Definition ret {A} (a : A) : M A := fun tr => (Ok a, tr).

Definition bind {A B} (c : M A) (k : A -> M B) : M B :=
  fun tr =>
    match c tr with
    | (Ok a, tr') => k a tr'
    | (Raise e, tr') => (Raise e, tr')
    end.

Definition lift {A} (r : result A) : M A := fun tr => (r, tr).

Notation "x <- c ;; k" := (bind c (fun x => k))
  (at level 100, c at next level, right associativity).

(** The outcome of a call to the outside world as a result. *)
Definition returned {A} (reply : pyerror + A) : result A :=
  match reply with
  | inl e => Raise (Exc e)
  | inr a => Ok a
  end.

Definition option_truthy (o : option string) : bool :=
  match o with
  | Some (String _ _) => true
  | _ => false
  end.

(** The statuses that [requests] takes for errors. *)
Definition error_status (status : Z) : bool :=
  ((400 <=? status) && (status <? 600))%Z.

Definition JSON_FENCE : string := "```json".
Definition FENCE : string := "```".

Section Program.

Context (rt : Runtime) (cfg : Config) (w : World).

(** [response.raise_for_status()]: [requests] raises its [HTTPError] for a
    client error (400 to 499) and for a server error (500 to 599), and for
    no other status. *)
Definition raise_for_status (r : response) : result unit :=
  if error_status (resp_status r)
  then Raise (Exc (http_error rt r))
  else Ok tt.

(** [json.loads(s)] and [response.json()] *)
Definition loads (s : string) : result value :=
  match json_loads rt s with
  | inl e => Raise (Exc e)
  | inr v => Ok v
  end.

(** The formatting of [{v}] in an f-string. *)
Definition py_format (v : value) : string :=
  match v with
  | VStr s => s
  | VNone => "None"
  | VBool true => "True"
  | VBool false => "False"
  | _ => py_repr rt v
  end.

(** [str(e)] *)
Definition exn_str (e : exn) : string :=
  match e with
  | Exc e => exc_msg e
  | HTTPException c d => http_exception_str rt c d
  end.

(** *** [search_google] (lines 64-82) *)

(** The body of the [try], lines 72-79, given the response. *)
Definition search_items (r : response) : result (option value) :=
  _ <-? raise_for_status r ;;
  results <-? loads (resp_text r) ;;
  has_items <-? py_in "items" results ;;
  if (has_items : bool) then
    items <-? py_getitem results "items" ;;
    n <-? py_len items ;;
    if (n >? 0)%Z then Ok (Some items) else Ok None
  else Ok None.

(** What [search_google] returns for the outcome of its HTTP request:
    every exception of the [try] is logged and becomes [None]. *)
Definition search_outcome (http : pyerror + response) : option value :=
  match http with
  | inl _ => None
  | inr r =>
      match search_items r with
      | Ok items => items
      | Raise _ => None
      end
  end.

Definition search_google (site : search_site) (query : value)
    (num_results : Z) : M (option value) :=
  fun tr =>
    if negb (option_truthy (GOOGLE_API_KEY cfg))
       || negb (option_truthy (GOOGLE_CSE_ID cfg))
    then (Ok None, (tr ++ [EvSearch site query num_results None])%list)
    else
      let http := requests_get w tr (default "" (GOOGLE_API_KEY cfg))
                    (default "" (GOOGLE_CSE_ID cfg)) query num_results in
      (Ok (search_outcome http),
       (tr ++ [EvSearch site query num_results (Some http)])%list).

(** *** [parse_openai_json] (lines 85-88) *)

(** Lines 86-87: the text handed to [json.loads]. *)
Definition unfence (response_content : string) : result string :=
  if Str.contains JSON_FENCE response_content then
    after <-? list_index (Str.split JSON_FENCE response_content) 1 ;;
    inner <-? list_index (Str.split FENCE after) 0 ;;
    Ok (Str.strip inner)
  else Ok response_content.

Definition parse_openai_json (response_content : option string) : result value :=
  match response_content with
  | None => Raise (TypeError "argument of type 'NoneType' is not iterable")
  | Some s =>
      text <-? unfence s ;;
      loads text
  end.

(** *** The request and the response (lines 46-61) *)

Record OCRRequest := {
  base64Image1 : string;
  base64Image2 : option string
}.

Record OCRResponse := {
  company : string;
  name : string;
  title : string;
  phone : string;
  email : string;
  address : string;
  website : string;
  validation_source : string;
  is_validated : bool;
  about_the_company : string;
  location : string
}.

(** A [str] field of the response model: its default when the key is
    missing, what [pydantic] makes of the value otherwise. *)
Definition str_field (d : gmap string value) (key : string) : option string :=
  match d !! key with
  | None => Some ""
  | Some v => pydantic_str rt v
  end.

Definition bool_field (d : gmap string value) (key : string) : option bool :=
  match d !! key with
  | None => Some false
  | Some v => pydantic_bool rt v
  end.

(** The model built from the unpacked [final_data] (line 286); keys that are
    not fields of the model are ignored. *)
Definition OCRResponse_init (final_data : value) : result OCRResponse :=
  match final_data with
  | VDict d =>
      let built :=
        c ← str_field d "company";
        n ← str_field d "name";
        t ← str_field d "title";
        p ← str_field d "phone";
        e ← str_field d "email";
        a ← str_field d "address";
        ws ← str_field d "website";
        vs ← str_field d "validation_source";
        iv ← bool_field d "is_validated";
        ab ← str_field d "about_the_company";
        l ← str_field d "location";
        Some {| company := c; name := n; title := t; phone := p; email := e;
                address := a; website := ws; validation_source := vs;
                is_validated := iv; about_the_company := ab; location := l |} in
      match built with
      | Some r => Ok r
      | None => Raise (Exc (validation_error rt d))
      end
  | _ => Raise (TypeError ("argument after ** must be a mapping, not "
                           ++ type_name final_data))
  end.

(** The JSON object sent back for a response ([response_model], line 107):
    every field of the model, by name. *)
Definition response_body (r : OCRResponse) : gmap string value :=
  <["company" := VStr (company r)]>
  (<["name" := VStr (name r)]>
  (<["title" := VStr (title r)]>
  (<["phone" := VStr (phone r)]>
  (<["email" := VStr (email r)]>
  (<["address" := VStr (address r)]>
  (<["website" := VStr (website r)]>
  (<["validation_source" := VStr (validation_source r)]>
  (<["is_validated" := VBool (is_validated r)]>
  (<["about_the_company" := VStr (about_the_company r)]>
  (<["location" := VStr (location r)]> ∅)))))))))).

(** *** [perform_ocr] (lines 108-292) *)

(** Lines 113-114: the front image. *)
Definition clean_image1 (base64_image1 : string) : result string :=
  if Str.contains "," base64_image1
  then list_index (Str.split "," base64_image1) 1
  else Ok base64_image1.

(** Lines 116-121: the back image, empty when there is none. *)
Definition clean_image2 (base64_image2 : option string) : result string :=
  match base64_image2 with
  | Some (String _ _ as s) =>
      if Str.contains "," s
      then list_index (Str.split "," s) 1
      else Ok s
  | _ => Ok ""
  end.

(** The instruction of the extraction call (lines 125-130). *)
Definition extract_prompt : string :=
  "Analyze the image(s) of the business card and extract all key information.
        There may be a front and a back image. Look at BOTH images to find all details.
        **Pay extremely close attention to stylized logos, gradients, shadows, or complex animations.** Use context (like slogans or other text) to determine the most likely correct spelling.
        Return the data as a clean JSON object with the following keys:
        'company', 'name', 'title', 'phone', 'email', 'address', 'slogan', 'location'
        If a piece of information is not found, return an empty string for that key.".

Definition image_part (b64 : string) : content_part :=
  ImageUrlPart ("data:image/jpeg;base64," ++ b64).

(** Lines 132-144. *)
Definition extract_request (base64_image1 base64_image2_cleaned : string)
    : chat_request :=
  ChatRequest "gpt-4o"
    (PartsContent
       ([TextPart extract_prompt; image_part base64_image1]
        ++ match base64_image2_cleaned with
           | String _ _ => [image_part base64_image2_cleaned]
           | EmptyString => []
           end)%list)
    (Some 500%Z) false.

(** One call of [openai.chat.completions.create], and the content of its
    first choice. *)
Definition chat (site : chat_site) (req : chat_request) : M (option string) :=
  fun tr =>
    let reply := openai_create w tr req in
    (returned reply, (tr ++ [EvChat site req reply])%list).

(** Step 1, lines 123-147. *)
Definition extraction_stage (base64_image1 base64_image2_cleaned : string)
    : M value :=
  ocr_data_str <- chat Extraction
                    (extract_request base64_image1 base64_image2_cleaned) ;;
  lift (parse_openai_json ocr_data_str).

(** Lines 150-163: the query of the validation search; the empty string
    when nothing was extracted to search for. *)
Definition build_search_query (ocr_data : value) : result value :=
  company <-? py_get ocr_data "company" (VStr "") ;;
  name <-? py_get ocr_data "name" (VStr "") ;;
  slogan <-? py_get ocr_data "slogan" (VStr "") ;;
  Ok (if py_truthy company && py_truthy slogan
      then VStr (py_format company ++ " " ++ py_format slogan)
      else if py_truthy company && py_truthy name
      then VStr (py_format name ++ " " ++ py_format company)
      else if py_truthy company then company
      else if py_truthy slogan then slogan
      else if py_truthy name then name
      else VStr "").

(** Step 2, lines 149-167. *)
Definition validation_search (ocr_data : value) : M (option value) :=
  search_query <- lift (build_search_query ocr_data) ;;
  if py_truthy search_query
  then search_google ValidationSearch search_query 3%Z
  else ret None.

Definition option_value_truthy (o : option value) : bool :=
  match o with
  | Some v => py_truthy v
  | None => false
  end.

(** Lines 171-188. *)
Definition validation_prompt (ocr_data : value)
    (google_results_list : option value) : string :=
  "
        You are a data validation expert. I have OCR data and a list of Google results.
        Your job is to find the **single best match** from the results and use it to **correct** the OCR data.
        Here is the data from OCR: "
  ++ json_dumps rt ocr_data ++
  "
        Here is the list of top 3 Google search results: "
  ++ (if option_value_truthy google_results_list
      then json_dumps rt (default VNone google_results_list)
      else "No results found.") ++
  "
        **Instructions:**
        1.  **Find Best Match:** Find the one result (e.g., a company website or LinkedIn) that is the most likely match.
        2.  **If a Genuine Match is Found:**
            - Set 'is_validated' to true.
            - **Correct Data:** Correct any misspellings in the OCR 'company' or 'name' using the Google result.
            - **Enrich Website:** Fill in the 'website' field using the Google 'link'.
            - **Set 'validation_source' to the Google 'link'.**
            - **Return all other OCR fields as-is** (we will search for more in the next step).
        3.  **If NO Genuine Match is Found:**
            - Set 'is_validated' to false.
            - Return *only* the original OCR data.
        Return a single, final JSON object with all keys from the OCR data, plus 'website', 'validation_source', 'is_validated'.
        ".

(** Lines 214-237. *)
Definition final_merge_prompt (validated_data enrichment_search_results : value)
    : string :=
  "
            You are a data enrichment assistant. I have partially validated data from a business card.
            I have performed a *second* Google search to find missing company details like 'about', 'location', and contact info.
            Your job is to merge this new information reliably.

            Here is the data we have so far (after Step 3 validation):
            "
  ++ json_dumps rt validated_data ++
  "

            Here is the list of results from the *new* enrichment search:
            "
  ++ json_dumps rt enrichment_search_results ++
  "

            **Instructions:**
            1.  **Review Snippets Carefully:** Look through the 'snippet' and 'title' of **all** search results.
            2.  **Extract Key Details:**
                * `about_the_company`: Find a concise (1-2 sentence) description of what the company does.
                * `location`: Find the city, state, or general region mentioned. If an address exists, extract the city/state from it.
                * `phone`, `email`, `address`: Find the first credible contact details.
            3.  **Merge Data:** Return a final JSON object. Use the data from " ++ dq ++ "data we have so far" ++ dq ++ " as the base.
            4.  **Fill Empty Fields:** Use the details extracted in step 2 to fill ONLY the fields that are currently empty or contain just placeholder text.
            5.  **Prioritize:** If multiple sources provide information for the same empty field, prioritize the most official-looking source (e.g., the company's own website snippet over a directory listing).
            6.  **Do not overwrite** data that already exists unless the existing data is clearly wrong or a placeholder. Keep `validation_source` as it is.

            Return a single, final JSON object including 'about_the_company' and 'location'.
            ".

(** [json.loads] on the content of a reply. *)
Definition loads_content (content : option string) : result value :=
  match content with
  | Some s => loads s
  | None =>
      Raise (TypeError
               "the JSON object must be str, bytes or bytearray, not NoneType")
  end.

Definition json_chat_request (prompt : string) : chat_request :=
  ChatRequest "gpt-4o" (TextContent prompt) None true.

(** Step 3, lines 169-196. *)
Definition validation_stage (ocr_data : value)
    (google_results_list : option value) : M value :=
  validated_data_str <-
    chat Validation
      (json_chat_request (validation_prompt ocr_data google_results_list)) ;;
  lift (loads_content validated_data_str).

(** Line 203. *)
Definition contact_query (validated_company : value) : string :=
  dq ++ py_format validated_company ++ dq
  ++ " about description location contact info email phone address".

(** Step 4, lines 198-208. *)
Definition enrichment_search (validated_data : value) : M (option value) :=
  is_validated <- lift (py_get validated_data "is_validated" VNone) ;;
  if py_truthy is_validated then
    validated_company <- lift (py_get validated_data "company" VNone) ;;
    search_google EnrichmentSearch (VStr (contact_query validated_company)) 3%Z
  else ret None.

(** Step 5, lines 210-250. *)
Definition merge_stage (validated_data : value)
    (enrichment_search_results : option value) : M value :=
  if option_value_truthy enrichment_search_results then
    final_data_str <-
      chat Enrichment
        (json_chat_request
           (final_merge_prompt validated_data
              (default VNone enrichment_search_results))) ;;
    lift (loads_content final_data_str)
  else ret validated_data.

(** [v[key] = x] *)
Definition py_setitem (v : value) (key : string) (x : value) : result value :=
  match v with
  | VDict d => Ok (VDict (<[key := x]> d))
  | _ => Raise (TypeError ("'" ++ type_name v
                           ++ "' object does not support item assignment"))
  end.

(** [del v[key]] *)
Definition py_delitem (v : value) (key : string) : result value :=
  match v with
  | VDict d =>
      match d !! key with
      | Some _ => Ok (VDict (delete key d))
      | None => Raise (KeyError key)
      end
  | _ => Raise (TypeError ("'" ++ type_name v
                           ++ "' object does not support item deletion"))
  end.

(** Lines 252-254: the phone rule. Only a [str] has [startswith]. *)
Definition escape_phone (final_data : value) : result value :=
  phone_number <-? py_get final_data "phone" (VStr "") ;;
  if py_truthy phone_number then
    match phone_number with
    | VStr s =>
        if Str.startswith "+" s
        then py_setitem final_data "phone" (VStr ("'" ++ s))
        else Ok final_data
    | _ => Raise (AttributeError phone_number "startswith")
    end
  else Ok final_data.

(** Lines 255-256. *)
Definition drop_slogan (final_data : value) : result value :=
  has_slogan <-? py_in "slogan" final_data ;;
  if (has_slogan : bool)
  then py_delitem final_data "slogan"
  else Ok final_data.

(** Lines 252-256. *)
Definition finalize (final_data : value) : result value :=
  escaped <-? escape_phone final_data ;;
  drop_slogan escaped.

(** Lines 261-266. *)
Definition apps_script_payload (base64_image1 base64_image2_cleaned : string)
    (final_data : value) : value :=
  VDict
    (<["action" := VStr "save"]>
     (<["photo1Base64" := VStr base64_image1]>
     (<["photo2Base64" := VStr match base64_image2_cleaned with
                               | String _ _ => base64_image2_cleaned
                               | EmptyString => ""
                               end]>
     (<["extractedData" := final_data]> ∅)))).

(** Lines 275-280, given the response of the sink. *)
Definition save_check (r : response) : result unit :=
  _ <-? raise_for_status r ;;
  save_result <-? loads (resp_text r) ;;
  success <-? py_get save_result "success" VNone ;;
  if py_truthy success then Ok tt
  else
    message <-? py_get save_result "message" VNone ;;
    Raise (HTTPException 500 ("Google Script Error: " ++ py_format message)).

(** Line 284: every exception of the [try], the one of line 279 included,
    is raised again as a 502. *)
Definition submission_failed {A} (r : result A) : result A :=
  match r with
  | Ok a => Ok a
  | Raise e =>
      Raise (HTTPException 502 ("Apps Script Submission Failed: " ++ exn_str e))
  end.

(** Step 6, lines 258-284: one POST, of content type
    [text/plain;charset=utf-8]. *)
Definition submit (base64_image1 base64_image2_cleaned : string)
    (final_data : value) : M unit :=
  fun tr =>
    let data :=
      json_dumps rt
        (apps_script_payload base64_image1 base64_image2_cleaned final_data) in
    let http := requests_post w tr (APPS_SCRIPT_URL cfg) data in
    (submission_failed (r <-? returned http ;; save_check r),
     (tr ++ [EvSink (APPS_SCRIPT_URL cfg) data http])%list).

(** Lines 198-256: from the validated mapping to the finalized one. *)
Definition enrichment (validated_data : value) : M value :=
  enrichment_search_results <- enrichment_search validated_data ;;
  final_data <- merge_stage validated_data enrichment_search_results ;;
  lift (finalize final_data).

(** Lines 123-256: everything up to the finalized mapping. *)
Definition pipeline (base64_image1 base64_image2_cleaned : string) : M value :=
  ocr_data <- extraction_stage base64_image1 base64_image2_cleaned ;;
  google_results_list <- validation_search ocr_data ;;
  validated_data <- validation_stage ocr_data google_results_list ;;
  enrichment validated_data.

(** The body of the outer [try], lines 110-286. *)
Definition perform_ocr_body (request_data : OCRRequest) : M OCRResponse :=
  base64_image1 <- lift (clean_image1 (base64Image1 request_data)) ;;
  base64_image2_cleaned <- lift (clean_image2 (base64Image2 request_data)) ;;
  final_data <- pipeline base64_image1 base64_image2_cleaned ;;
  _ <- submit base64_image1 base64_image2_cleaned final_data ;;
  lift (OCRResponse_init final_data).

(** Lines 288-292: an [HTTPException] goes through, anything else becomes
    a 500 whose detail is [str(e)]. *)
Definition to_http_exception {A} (r : result A) : result A :=
  match r with
  | Raise (Exc e) => Raise (HTTPException 500 (exc_msg e))
  | other => other
  end.

Definition perform_ocr (request_data : OCRRequest) : M OCRResponse :=
  fun tr =>
    let (r, tr') := perform_ocr_body request_data tr in
    (to_http_exception r, tr').

End Program.

Arguments search_google rt cfg w site query num_results tr : simpl never.
Arguments chat w site req tr : simpl never.

(** ** Reading a trace

    A request is run from the empty trace; what the world answered to
    earlier requests is part of the world. *)

Definition is_sink (e : event) : bool :=
  match e with EvSink _ _ _ => true | _ => false end.

(** The calls that come before the validation call: the extraction call
    and the validation search. *)
Definition before_validation (e : event) : bool :=
  match e with
  | EvChat Extraction _ _ => true
  | EvSearch ValidationSearch _ _ _ => true
  | _ => false
  end.

(** The calls that come after it, the sink apart: the enrichment search
    and the enrichment call. *)
Definition after_validation (e : event) : bool :=
  match e with
  | EvChat Enrichment _ _ => true
  | EvSearch EnrichmentSearch _ _ _ => true
  | _ => false
  end.


(** The sink answered, with no error status and with a JSON object whose
    [success] is truthy: what the handler takes for a saved record. *)
Definition sink_saved (rt : Runtime) (http : pyerror + response) : Prop :=
  exists rsp (save_result : gmap string value) success,
    http = inr rsp /\
    error_status (resp_status rsp) = false /\
    json_loads rt (resp_text rsp) = inr (VDict save_result) /\
    save_result !! "success" = Some success /\
    py_truthy success = true.

(** A result that is no [HTTPException]. *)
Definition plain {A} (r : result A) : Prop :=
  match r with
  | Raise (HTTPException _ _) => False
  | _ => True
  end.

(** ** The shape of a response *)

(** The ten text fields of a contact record; [is_validated] is the
    eleventh field. *)
Definition str_fields : list string :=
  ["company"; "name"; "title"; "phone"; "email"; "address"; "website";
   "validation_source"; "about_the_company"; "location"].

Definition record_fields : gset string :=
  list_to_set ("is_validated" :: str_fields).

(** A JSON object with exactly the eleven fields, each text field a
    string and [is_validated] a boolean: no field is missing or null, and
    there is no [slogan]. *)
Definition complete_record (body : gmap string value) : Prop :=
  dom body = record_fields /\
  (forall k, k ∈ str_fields -> exists s, body !! k = Some (VStr s)) /\
  (exists b, body !! "is_validated" = Some (VBool b)) /\
  body !! "slogan" = None.

(** The fields that the final mapping lacks hold their defaults in the
    response: the empty string, and [False] for [is_validated]. *)
Definition backfilled (final_data body : gmap string value) : Prop :=
  (forall k, k ∈ str_fields -> final_data !! k = None ->
             body !! k = Some (VStr "")) /\
  (final_data !! "is_validated" = None ->
   body !! "is_validated" = Some (VBool false)).

(** What a search gave back to the handler, read off its event. *)
Definition search_returned (rt : Runtime) (http : option (pyerror + response))
    : option value :=
  match http with
  | None => None
  | Some reply => search_outcome rt reply
  end.

(** ** A sample deployment

    A runtime, a configuration and scripted worlds on which the handler can
    be run: the examples of the properties below are evaluated on them. *)

Module Sample.

Definition jstr (s : string) : string := dq ++ s ++ dq.

(** JSON text of an atom; the sample texts hold nothing else. *)
Definition render_atom (v : value) : string :=
  match v with
  | VStr s => jstr s
  | VBool true => "true"
  | VBool false => "false"
  | _ => "null"
  end.

Fixpoint render_fields (l : list (string * value)) : string :=
  match l with
  | [] => ""
  | [(k, v)] => jstr k ++ ": " ++ render_atom v
  | (k, v) :: rest => jstr k ++ ": " ++ render_atom v ++ ", " ++ render_fields rest
  end.

(** The JSON text of a flat object, and the dict it parses to. *)
Definition render_object (l : list (string * value)) : string :=
  "{" ++ render_fields l ++ "}".

Definition dict_of (l : list (string * value)) : value :=
  VDict (list_to_map l).

(** What the card says. *)
Definition card_fields : list (string * value) :=
  [("company", VStr "Acme"); ("name", VStr ""); ("title", VStr "");
   ("phone", VStr "+14155551234"); ("email", VStr "info@acme.example");
   ("address", VStr ""); ("slogan", VStr "Build the future")].

Definition ocr_fields : list (string * value) :=
  card_fields ++ [("location", VStr "")].

(** The reply of the extraction call, in a fenced block. *)
Definition ocr_reply : string :=
  JSON_FENCE ++ nl ++ render_object ocr_fields ++ nl ++ FENCE.

Definition match_fields : list (string * value) :=
  [("website", VStr "https://acme.example");
   ("validation_source", VStr "https://acme.example");
   ("is_validated", VBool true)].

(** A validation reply that found a match, ... *)
Definition validated_fields : list (string * value) :=
  ocr_fields ++ match_fields.

(** ... one that found none, ... *)
Definition unvalidated_fields : list (string * value) :=
  ocr_fields ++
  [("website", VStr ""); ("validation_source", VStr "");
   ("is_validated", VBool false)].

(** ... and one that found none and names a source all the same. *)
Definition unvalidated_with_source_fields : list (string * value) :=
  ocr_fields ++
  [("website", VStr ""); ("validation_source", VStr "https://acme.example");
   ("is_validated", VBool false)].

(** An enrichment reply. *)
Definition merged_fields : list (string * value) :=
  card_fields ++ [("location", VStr "Springfield")] ++ match_fields ++
  [("about_the_company", VStr "Acme builds things.")].

Definition search_item : list (string * value) :=
  [("title", VStr "Acme"); ("link", VStr "https://acme.example");
   ("snippet", VStr "Acme builds things in Springfield.")].

(** A search response with one item, and one with none. *)
Definition items_text : string :=
  "{" ++ jstr "items" ++ ": [" ++ render_object search_item ++ "]}".

(** What a search with items gives back to the handler. *)
Definition items_found : value := VList [dict_of search_item].

Definition items_value : value := VDict {[ "items" := items_found ]}.

Definition no_items_text : string := "{}".

Definition saved_fields : list (string * value) := [("success", VBool true)].

Definition rejected_fields : list (string * value) :=
  [("success", VBool false); ("message", VStr "sheet is full")].

Definition JSONDecodeError : pyerror :=
  PyError "JSONDecodeError" "Expecting value: line 1 column 1 (char 0)".

(** [json.loads] on the sample texts; it rejects every other text. *)
Definition sample_table : list (string * value) :=
  [(render_object ocr_fields, dict_of ocr_fields);
   (render_object validated_fields, dict_of validated_fields);
   (render_object unvalidated_fields, dict_of unvalidated_fields);
   (render_object unvalidated_with_source_fields,
    dict_of unvalidated_with_source_fields);
   (render_object merged_fields, dict_of merged_fields);
   (items_text, items_value);
   (no_items_text, VDict ∅);
   (render_object saved_fields, dict_of saved_fields);
   (render_object rejected_fields, dict_of rejected_fields)].

Fixpoint lookup_text (table : list (string * value)) (s : string)
    : pyerror + value :=
  match table with
  | [] => inl JSONDecodeError
  | (text, v) :: rest => if String.eqb text s then inr v else lookup_text rest s
  end.

(** [str.lower], on the letters A to Z. *)
Definition lower_ascii (c : ascii) : ascii :=
  let n := nat_of_ascii c in
  if ((65 <=? n) && (n <=? 90))%nat then ascii_of_nat (n + 32) else c.

Fixpoint lower (s : string) : string :=
  match s with
  | EmptyString => EmptyString
  | String c rest => String (lower_ascii c) (lower rest)
  end.

(** What [pydantic] takes for a [bool] field: a [bool], the numbers 0 and 1
    (a float in its binary64 form), and the words it reads as a boolean, in
    any case. *)
Definition coerce_bool (v : value) : option bool :=
  match v with
  | VBool b => Some b
  | VInt z =>
      if Z.eqb z 0 then Some false
      else if Z.eqb z 1 then Some true
      else None
  | VFloat f =>
      if SFeqb f (S754_zero false) then Some false
      else if SFeqb f (S754_finite false 4503599627370496 (-52)) then Some true
      else None
  | VStr s =>
      if bool_decide (lower s ∈ ["0"; "off"; "f"; "false"; "n"; "no"])
      then Some false
      else if bool_decide (lower s ∈ ["1"; "on"; "t"; "true"; "y"; "yes"])
      then Some true
      else None
  | _ => None
  end.

(** A runtime: [pydantic] takes a [str] for a text field and what
    [coerce_bool] reads for a [bool] field; [str] of an [HTTPException] is
    the status, a colon and the detail; the texts of [json.dumps], of [str]
    on a number or a container and of the libraries' error messages play no
    part in what the handler does and are placeholders. *)
Definition rt : Runtime := {|
  json_loads := lookup_text sample_table;
  json_dumps := fun _ => "{}";
  py_repr := fun _ => "?";
  http_exception_str := fun status detail => pretty status ++ ": " ++ detail;
  http_error := fun _ => PyError "HTTPError" "error status";
  pydantic_str := fun v => match v with VStr s => Some s | _ => None end;
  pydantic_bool := coerce_bool;
  validation_error := fun _ => PyError "ValidationError" "validation error"
|}.

Definition cfg : Config := {|
  GOOGLE_API_KEY := Some "key";
  GOOGLE_CSE_ID := Some "cx";
  APPS_SCRIPT_URL := "https://script.example/exec"
|}.

Definition is_chat (e : event) : bool :=
  match e with EvChat _ _ _ => true | _ => false end.

Definition is_search (e : event) : bool :=
  match e with EvSearch _ _ _ _ => true | _ => false end.

Definition Timeout : pyerror := PyError "Timeout" "timed out".

(** A world that plays a script: the n-th chat call gets the n-th reply,
    the n-th search request the n-th response, the sink its one response;
    past the script every call times out. *)
Definition scripted (chats : list (pyerror + option string))
    (gets : list (pyerror + response)) (post : pyerror + response) : World := {|
  openai_create := fun tr _ =>
    nth (length (filter is_chat tr)) chats (inl Timeout);
  requests_get := fun tr _ _ _ _ =>
    nth (length (filter is_search tr)) gets (inl Timeout);
  requests_post := fun _ _ _ => post
|}.

Definition ok (text : string) : pyerror + response := inr (Response 200 text).

Definition says (text : string) : pyerror + option string := inr (Some text).

(** Match found, enrichment found, record saved. *)
Definition world_full : World :=
  scripted [says ocr_reply; says (render_object validated_fields);
            says (render_object merged_fields)]
           [ok items_text; ok items_text]
           (ok (render_object saved_fields)).

(** No match. *)
Definition world_unvalidated : World :=
  scripted [says ocr_reply; says (render_object unvalidated_fields)]
           [ok no_items_text]
           (ok (render_object saved_fields)).

(** No match, and a validation reply that fills [validation_source]. *)
Definition world_unvalidated_with_source : World :=
  scripted [says ocr_reply; says (render_object unvalidated_with_source_fields)]
           [ok items_text]
           (ok (render_object saved_fields)).

(** Match found, nothing found by the second search. *)
Definition world_no_enrichment : World :=
  scripted [says ocr_reply; says (render_object validated_fields)]
           [ok items_text; ok no_items_text]
           (ok (render_object saved_fields)).


(** The sink rejects the record. *)
Definition world_rejected : World :=
  scripted [says ocr_reply; says (render_object unvalidated_fields)]
           [ok no_items_text]
           (ok (render_object rejected_fields)).

(** The sink accepts the record under a status 300. *)
Definition world_saved_300 : World :=
  scripted [says ocr_reply; says (render_object unvalidated_fields)]
           [ok no_items_text]
           (inr (Response 300 (render_object saved_fields))).

(** The search answers with items under a status 300. *)
Definition world_search_300 : World :=
  scripted [] [inr (Response 300 items_text)] (ok (render_object saved_fields)).

(** The validation call of the sample runs, by what the first search
    gave. *)
Definition validation_request (found : option value) : chat_request :=
  json_chat_request (validation_prompt rt (dict_of ocr_fields) found).

(** The response to the sample request in [world_full]. *)
Definition response_full : OCRResponse := {|
  company := "Acme";
  name := "";
  title := "";
  phone := "'+14155551234";
  email := "info@acme.example";
  address := "";
  website := "https://acme.example";
  validation_source := "https://acme.example";
  is_validated := true;
  about_the_company := "Acme builds things.";
  location := "Springfield"
|}.

Definition request : OCRRequest := {|
  base64Image1 := "data:image/jpeg;base64,AAAA";
  base64Image2 := None
|}.

End Sample.

(** ** Start-up (lines 15-28) *)

(** The process environment as [os.getenv] reads it once [load_dotenv] has
    run: a variable is a string or is not set. *)
Record Environ := {
  env_OPENAI_API_KEY : option string;
  env_GOOGLE_API_KEY : option string;
  env_GOOGLE_CSE_ID : option string;
  env_APPS_SCRIPT_URL : option string
}.

Definition ValueError (msg : string) : exn := Exc (PyError "ValueError" msg).

Definition GOOGLE_WARNING : string :=
  "WARNING: Google API Key or CSE ID not found. Validation search will be skipped.".

(** Lines 16-28: what importing the module prints, and either the
    configuration the handler will run with or the [ValueError] that keeps
    the module from loading. *)
Definition startup (env : Environ) : list string * result Config :=
  if negb (option_truthy (env_OPENAI_API_KEY env))
  then ([], Raise (ValueError "No OpenAI API key found."))
  else
    let printed :=
      if negb (option_truthy (env_GOOGLE_API_KEY env))
         || negb (option_truthy (env_GOOGLE_CSE_ID env))
      then [GOOGLE_WARNING]
      else [] in
    if negb (option_truthy (env_APPS_SCRIPT_URL env))
    then (printed,
          Raise (ValueError
                   "No APPS_SCRIPT_URL found in .env file. Cannot submit data."))
    else (printed,
          Ok {| GOOGLE_API_KEY := env_GOOGLE_API_KEY env;
                GOOGLE_CSE_ID := env_GOOGLE_CSE_ID env;
                APPS_SCRIPT_URL := default "" (env_APPS_SCRIPT_URL env) |}).

(** ** More on traces *)

(** Both search credentials are set. *)
Definition search_configured (cfg : Config) : bool :=
  option_truthy (GOOGLE_API_KEY cfg) && option_truthy (GOOGLE_CSE_ID cfg).

(** The place of a call in the handler: extraction, validation search,
    validation, enrichment search, enrichment, sink. *)
Definition phase (e : event) : nat :=
  match e with
  | EvChat Extraction _ _ => 0
  | EvSearch ValidationSearch _ _ _ => 1
  | EvChat Validation _ _ => 2
  | EvSearch EnrichmentSearch _ _ _ => 3
  | EvChat Enrichment _ _ => 4
  | EvSink _ _ _ => 5
  end.

(** A computation only adds events to the trace, all of them in [P]. *)
Definition emits {A} (P : event -> Prop) (c : M A) : Prop :=
  forall tr r tr',
    c tr = (r, tr') -> exists evs, tr' = (tr ++ evs)%list /\ Forall P evs.

(** How a run ends once its pipeline has stopped after the calls [ptr] with
    the result [pr] (lines 258-292): an error goes to the caller, a final
    mapping goes to the sink and then, if saved, into the response. *)
Definition finishes (rt : Runtime) (cfg : Config) (w : World)
    (i1 i2 : string) (ptr : list event) (pr : result value)
    (r : result OCRResponse) (tr : list event) : Prop :=
  match pr with
  | Raise e => tr = ptr /\ r = to_http_exception (Raise e)
  | Ok final_data =>
      let data := json_dumps rt (apps_script_payload i1 i2 final_data) in
      let http := requests_post w ptr (APPS_SCRIPT_URL cfg) data in
      tr = (ptr ++ [EvSink (APPS_SCRIPT_URL cfg) data http])%list /\
      r = to_http_exception
            (_ <-? submission_failed rt (x <-? returned http ;; save_check rt x) ;;
             OCRResponse_init rt final_data)
  end.

(** ** A second sample: a card with no company *)

Module Edge.

(** The extraction reply gives [null] for the company. *)
Definition ocr_fields : list (string * value) :=
  [("company", VNone); ("name", VStr "Ada Lovelace"); ("title", VStr "");
   ("phone", VStr "4155551234"); ("email", VStr ""); ("address", VStr "");
   ("slogan", VStr ""); ("location", VStr "")].

(** A validation reply that found a match and still has no company. *)
Definition validated_fields : list (string * value) :=
  [("name", VStr "Ada Lovelace"); ("title", VStr "");
   ("phone", VStr "4155551234"); ("email", VStr ""); ("address", VStr "");
   ("slogan", VStr ""); ("location", VStr "");
   ("website", VStr "https://ada.example");
   ("validation_source", VStr "https://ada.example");
   ("is_validated", VBool true)].

(** A validation reply that found none and passes the [null] on. *)
Definition unvalidated_fields : list (string * value) :=
  ocr_fields ++
  [("website", VStr ""); ("validation_source", VStr "");
   ("is_validated", VBool false)].

(** A card of which only a name and a phone were read; the validation
    reply hands the two back and says nothing else. *)
Definition sparse_fields : list (string * value) :=
  [("name", VStr "Ada Lovelace"); ("phone", VStr "+14155551234")].

(** The final mapping of that card. *)
Definition sparse_final_fields : list (string * value) :=
  [("name", VStr "Ada Lovelace"); ("phone", VStr "'+14155551234")].

Definition table : list (string * value) :=
  [(Sample.render_object ocr_fields, Sample.dict_of ocr_fields);
   (Sample.render_object sparse_fields, Sample.dict_of sparse_fields);
   (Sample.render_object validated_fields, Sample.dict_of validated_fields);
   (Sample.render_object unvalidated_fields, Sample.dict_of unvalidated_fields);
   (Sample.items_text, Sample.items_value);
   (Sample.no_items_text, VDict ∅);
   (Sample.render_object Sample.saved_fields,
    Sample.dict_of Sample.saved_fields);
   ("[]", VList [])].

(** The sample runtime, reading the texts of this card. *)
Definition rt : Runtime := {|
  json_loads := Sample.lookup_text table;
  json_dumps := json_dumps Sample.rt;
  py_repr := py_repr Sample.rt;
  http_exception_str := http_exception_str Sample.rt;
  http_error := http_error Sample.rt;
  pydantic_str := pydantic_str Sample.rt;
  pydantic_bool := pydantic_bool Sample.rt;
  validation_error := validation_error Sample.rt
|}.

(** No match; the sink saves the record. *)
Definition world_null_company : World :=
  Sample.scripted
    [Sample.says (Sample.render_object ocr_fields);
     Sample.says (Sample.render_object unvalidated_fields)]
    [Sample.ok Sample.no_items_text]
    (Sample.ok (Sample.render_object Sample.saved_fields)).

(** A match for a card without company. *)
Definition world_validated_no_company : World :=
  Sample.scripted
    [Sample.says (Sample.render_object ocr_fields);
     Sample.says (Sample.render_object validated_fields)]
    [Sample.ok Sample.items_text; Sample.ok Sample.no_items_text]
    (Sample.ok (Sample.render_object Sample.saved_fields)).

(** Two fields only, no match; the sink saves the record. *)
Definition world_sparse : World :=
  Sample.scripted
    [Sample.says (Sample.render_object sparse_fields);
     Sample.says (Sample.render_object sparse_fields)]
    [Sample.ok Sample.no_items_text]
    (Sample.ok (Sample.render_object Sample.saved_fields)).

(** The validation reply is a JSON list. *)
Definition world_list_reply : World :=
  Sample.scripted
    [Sample.says (Sample.render_object ocr_fields); Sample.says "[]"]
    [Sample.ok Sample.no_items_text]
    (Sample.ok (Sample.render_object Sample.saved_fields)).

(** An environment without one of the search credentials, and the
    configuration it gives. *)
Definition env_no_search : Environ := {|
  env_OPENAI_API_KEY := Some "sk-sample";
  env_GOOGLE_API_KEY := None;
  env_GOOGLE_CSE_ID := Some "cx";
  env_APPS_SCRIPT_URL := Some "https://script.example/exec"
|}.

Definition cfg_no_search : Config := {|
  GOOGLE_API_KEY := None;
  GOOGLE_CSE_ID := Some "cx";
  APPS_SCRIPT_URL := "https://script.example/exec"
|}.

End Edge.

(** * Properties *)

(** ** Strings *)

Module StrFacts.
Import Str.

Lemma app_nil_l (s : string) : "" ++ s = s.
Proof. reflexivity. Qed.

Lemma app_cons (c : ascii) (s t : string) : String c s ++ t = String c (s ++ t).
Proof. reflexivity. Qed.

Lemma app_empty_r (s : string) : s ++ "" = s.
Proof. induction s as [|c s IH]; [done | by rewrite app_cons, IH]. Qed.

Lemma app_assoc (a b c : string) : (a ++ b) ++ c = a ++ b ++ c.
Proof. induction a as [|x a IH]; [done | by rewrite !app_cons, IH]. Qed.

Lemma length_app (a b : string) :
  String.length (a ++ b) = (String.length a + String.length b)%nat.
Proof. induction a as [|x a IH]; [done | rewrite app_cons; simpl; by rewrite IH]. Qed.

Lemma startswith_self_app (p s : string) : startswith p (p ++ s) = true.
Proof.
  induction p as [|c p IH]; [done |].
  rewrite app_cons. simpl. by rewrite Ascii.eqb_refl.
Qed.

Lemma startswith_length (p s : string) :
  startswith p s = true -> (String.length p <= String.length s)%nat.
Proof.
  revert s. induction p as [|c p IH]; intros [|d s]; simpl; try lia; try done.
  destruct (Ascii.eqb c d); [| done]. intros H. apply IH in H. lia.
Qed.

(** A prefix that fits in the first part does not look at the second. *)
Lemma startswith_app_short (p u v : string) :
  (String.length p <= String.length u)%nat ->
  startswith p (u ++ v) = startswith p u.
Proof.
  revert u. induction p as [|c p IH]; intros [|d u];
    rewrite ?app_cons, ?app_nil_l; simpl; try done; try lia.
  intros H. destruct (Ascii.eqb c d); [| done]. apply IH. lia.
Qed.

Lemma drop_length_app (p s : string) : drop (String.length p) (p ++ s) = s.
Proof. induction p as [|c p IH]; [done | by rewrite app_cons]. Qed.

Lemma length_drop (n : nat) (s : string) :
  String.length (drop n s) = (String.length s - n)%nat.
Proof.
  revert s. induction n as [|n IH]; intros [|c s]; simpl; try done.
Qed.

Lemma butlast_snoc (s : string) :
  s <> "" -> exists c, s = butlast s ++ String c "".
Proof.
  induction s as [|c s IH]; [done |]. intros _.
  destruct s as [|d s]; [by exists c |].
  destruct IH as [x Hx]; [done |]. exists x.
  change (butlast (String c (String d s))) with (String c (butlast (String d s))).
  by rewrite app_cons, <- Hx.
Qed.

Lemma length_butlast (s : string) :
  s <> "" -> String.length s = S (String.length (butlast s)).
Proof.
  intros H. destruct (butlast_snoc s H) as [c Hc].
  rewrite Hc at 1. rewrite length_app. simpl. lia.
Qed.

Lemma contains_cons_false (sep : string) (c : ascii) (s : string) :
  contains sep (String c s) = false ->
  startswith sep (String c s) = false /\ contains sep s = false.
Proof. simpl contains. intros H. by apply orb_false_elim in H. Qed.

Lemma cut_here (sep s : string) :
  startswith sep s = true -> cut sep s = Some ("", drop (String.length sep) s).
Proof. intros H. destruct s; simpl; by rewrite H. Qed.

Lemma cut_later (sep : string) (c : ascii) (s : string) :
  startswith sep (String c s) = false ->
  cut sep (String c s) = match cut sep s with
                         | Some (a, b) => Some (String c a, b)
                         | None => None
                         end.
Proof. intros H. simpl. by rewrite H. Qed.

Lemma cut_first_at (sep a b : string) :
  sep <> "" -> first_at sep a -> cut sep (a ++ sep ++ b) = Some (a, b).
Proof.
  intros Hsep. unfold first_at. induction a as [|c a IH]; intros Hfirst.
  - rewrite app_nil_l. destruct sep as [|x sep]; [done |].
    rewrite cut_here; [by rewrite drop_length_app |].
    apply startswith_self_app.
  - rewrite app_cons in Hfirst.
    apply contains_cons_false in Hfirst as [Hhere Hlater].
    rewrite app_cons, cut_later, IH; [done | done |].
    destruct (butlast_snoc sep Hsep) as [l Hl].
    rewrite Hl at 2. rewrite app_assoc, <- (app_assoc a), <- app_cons.
    rewrite startswith_app_short; [done |].
    simpl. rewrite length_app, (length_butlast sep Hsep). lia.
Qed.

Lemma cut_some (sep s : string) :
  contains sep s = true -> exists a b, cut sep s = Some (a, b).
Proof.
  induction s as [|c s IH]; simpl.
  - destruct (startswith sep ""); [eauto | done].
  - destruct (startswith sep (String c s)); [eauto |]. simpl.
    intros H. destruct (IH H) as (a & b & ->). eauto.
Qed.

Lemma cut_none (sep s : string) : contains sep s = false -> cut sep s = None.
Proof.
  induction s as [|c s IH]; simpl; intros H.
  - apply orb_false_elim in H as [-> _]. done.
  - apply orb_false_elim in H as [-> H]. by rewrite IH.
Qed.

Lemma cut_length (sep s a b : string) :
  cut sep s = Some (a, b) ->
  String.length s = (String.length a + String.length sep + String.length b)%nat.
Proof.
  revert a. induction s as [|c s IH]; intros a; simpl.
  - destruct (startswith sep "") eqn:Hs; [| done].
    intros [= <- <-]. apply startswith_length in Hs. rewrite length_drop.
    simpl in *. lia.
  - destruct (startswith sep (String c s)) eqn:Hs.
    + intros [= <- <-]. apply startswith_length in Hs. rewrite length_drop.
      simpl in *. lia.
    + destruct (cut sep s) as [[a' b']|]; [| done].
      intros [= <- <-]. simpl. rewrite (IH a' eq_refl). lia.
Qed.

Lemma contains_app_sep (sep a b : string) : contains sep (a ++ sep ++ b) = true.
Proof.
  induction a as [|c a IH].
  - rewrite app_nil_l.
    assert (startswith sep (sep ++ b) = true) as H by apply startswith_self_app.
    destruct (sep ++ b); simpl in *; by rewrite H.
  - rewrite app_cons. simpl. rewrite IH. apply orb_true_r.
Qed.

(** Any fuel from the length of the text on gives the same pieces. *)
Lemma split_fuel_enough (sep : string) (f1 f2 : nat) (s : string) :
  sep <> "" ->
  (String.length s <= f1)%nat -> (String.length s <= f2)%nat ->
  split_fuel f1 sep s = split_fuel f2 sep s.
Proof.
  intros Hsep. revert f2 s.
  assert (forall s, String.length s = O -> cut sep s = None) as Hempty.
  { intros [|c s]; [| done]. intros _. destruct sep; done. }
  induction f1 as [|f1 IH]; intros [|f2] s H1 H2; simpl; try done.
  - rewrite Hempty; [done | lia].
  - rewrite Hempty; [done | lia].
  - destruct (cut sep s) as [[a b]|] eqn:Hcut; [| done].
    apply cut_length in Hcut. f_equal. apply IH.
    + destruct sep; [done |]. simpl in Hcut. lia.
    + destruct sep; [done |]. simpl in Hcut. lia.
Qed.

Lemma split_fuel_S (fuel : nat) (sep s : string) :
  split_fuel (S fuel) sep s = match cut sep s with
                              | None => [s]
                              | Some (a, b) => a :: split_fuel fuel sep b
                              end.
Proof. reflexivity. Qed.

(** The pieces of a text, one cut at a time. *)
Lemma split_unfold (sep s : string) :
  sep <> "" ->
  split sep s = match cut sep s with
                | None => [s]
                | Some (a, b) => a :: split sep b
                end.
Proof.
  intros Hsep. unfold split. destruct s as [|c s].
  - simpl. destruct sep; done.
  - change (String.length (String c s)) with (S (String.length s)).
    rewrite split_fuel_S.
    destruct (cut sep (String c s)) as [[a b]|] eqn:Hcut; [| done].
    f_equal. apply cut_length in Hcut. apply split_fuel_enough; [done | | done].
    destruct sep; [done |]. simpl in Hcut. lia.
Qed.

Lemma split_first_at (sep a b : string) :
  sep <> "" -> first_at sep a ->
  split sep (a ++ sep ++ b) = a :: split sep b.
Proof.
  intros Hsep Ha. by rewrite split_unfold, cut_first_at.
Qed.

Lemma split_none (sep s : string) :
  sep <> "" -> contains sep s = false -> split sep s = [s].
Proof.
  intros Hsep Hs. by rewrite split_unfold, cut_none.
Qed.

(** The first piece of a text that holds no separator before its end. *)
Lemma split_head (sep s : string) :
  sep <> "" -> exists piece rest, split sep s = piece :: rest.
Proof.
  intros Hsep. rewrite split_unfold by done.
  destruct (cut sep s) as [[a b]|]; eauto.
Qed.

Lemma first_at_single (c : ascii) (a : string) :
  contains (String c "") a = false -> first_at (String c "") a.
Proof. unfold first_at. simpl butlast. by rewrite app_empty_r. Qed.

End StrFacts.

(** ** Input normalization *)

Lemma comma_nonempty : "," <> "".
Proof. done. Qed.

(** The second piece of a text with a comma. *)
Lemma clean_image1_comma (a rest : string) :
  Str.contains "," a = false ->
  clean_image1 (a ++ "," ++ rest) =
  list_index (Str.split "," rest) 0.
Proof.
  intros Ha. unfold clean_image1.
  rewrite StrFacts.contains_app_sep.
  rewrite StrFacts.split_first_at;
    [done | done | by apply StrFacts.first_at_single].
Qed.

Lemma clean_image2_nonempty (s : string) :
  s <> "" -> clean_image2 (Some s) = clean_image1 s.
Proof. destruct s; done. Qed.

Lemma app_sep_nonempty (a sep rest : string) :
  sep <> "" -> a ++ sep ++ rest <> "".
Proof. destruct a, sep; done. Qed.

(** C10. Whatever stands before the first comma of an image payload is
    dropped, and so is whatever follows a second comma: of
    [a,b,c] and of [a,b] (with no comma inside [a] and [b]) the handler
    keeps [b], for the front image and for the back image alike; a
    payload without a comma is used as it is. *)
Theorem clean_image_keeps_second_piece (a b c : string) :
  Str.contains "," a = false ->
  Str.contains "," b = false ->
  clean_image1 (a ++ "," ++ b ++ "," ++ c) = Ok b /\
  clean_image1 (a ++ "," ++ b) = Ok b /\
  clean_image1 a = Ok a /\
  clean_image2 (Some (a ++ "," ++ b ++ "," ++ c)) = Ok b /\
  clean_image2 (Some (a ++ "," ++ b)) = Ok b /\
  clean_image2 (Some a) = Ok a.
Proof.
  intros Ha Hb.
  assert (clean_image1 (a ++ "," ++ b ++ "," ++ c) = Ok b) as H2.
  { rewrite clean_image1_comma by done.
    rewrite StrFacts.split_first_at;
      [done | done | by apply StrFacts.first_at_single]. }
  assert (clean_image1 (a ++ "," ++ b) = Ok b) as H1.
  { rewrite clean_image1_comma by done.
    by rewrite StrFacts.split_none. }
  assert (clean_image1 a = Ok a) as H0.
  { unfold clean_image1. by rewrite Ha. }
  repeat split; try done.
  - rewrite clean_image2_nonempty; [done | by apply app_sep_nonempty].
  - rewrite clean_image2_nonempty; [done | by apply app_sep_nonempty].
  - destruct a as [|x a]; [done |].
    rewrite clean_image2_nonempty; done.
Qed.

Lemma clean_image_keeps_second_piece_witness :
  clean_image1 ("data:image/png;base64" ++ "," ++ "AAAA" ++ "," ++ "BBBB")
    = Ok "AAAA" /\
  clean_image1 ("data:image/png;base64" ++ "," ++ "AAAA") = Ok "AAAA" /\
  clean_image1 "data:image/png;base64" = Ok "data:image/png;base64" /\
  clean_image2 (Some ("data:image/png;base64" ++ "," ++ "AAAA" ++ "," ++ "BBBB"))
    = Ok "AAAA" /\
  clean_image2 (Some ("data:image/png;base64" ++ "," ++ "AAAA")) = Ok "AAAA" /\
  clean_image2 (Some "data:image/png;base64") = Ok "data:image/png;base64".
Proof.
  apply (clean_image_keeps_second_piece "data:image/png;base64" "AAAA" "BBBB");
    reflexivity.
Defined.

(** ** The fenced reply *)

Module FenceFacts.
Import Str StrFacts.

Lemma index0_split (sep s : string) :
  sep <> "" -> list_index (split sep s) 0 = Ok (head_split sep s).
Proof.
  intros Hsep. rewrite split_unfold by done. unfold head_split.
  by destruct (cut sep s) as [[a b]|].
Qed.

Lemma head_split_here (sep s : string) :
  startswith sep s = true -> head_split sep s = "".
Proof. intros H. unfold head_split. by rewrite cut_here. Qed.

Lemma head_split_later (sep : string) (c : ascii) (s : string) :
  startswith sep (String c s) = false ->
  head_split sep (String c s) = String c (head_split sep s).
Proof.
  intros H. unfold head_split. rewrite cut_later by done.
  by destruct (cut sep s) as [[a b]|].
Qed.

Lemma head_split_prefix (sep s : string) :
  exists rest, s = head_split sep s ++ rest.
Proof.
  unfold head_split. induction s as [|c s [rest IH]].
  - simpl. destruct (startswith sep ""); by exists "".
  - destruct (startswith sep (String c s)) eqn:Hs.
    + rewrite cut_here by done. by exists (String c s).
    + rewrite cut_later by done.
      destruct (cut sep s) as [[a b]|].
      * exists rest. by rewrite app_cons, <- IH.
      * exists "". by rewrite app_empty_r.
Qed.

Lemma startswith_app_mono (p u v : string) :
  startswith p u = true -> startswith p (u ++ v) = true.
Proof.
  intros H. rewrite startswith_app_short; [done |].
  by apply startswith_length.
Qed.

Lemma startswith_app_l (p q s : string) :
  startswith (p ++ q) s = true -> startswith p s = true.
Proof.
  revert s. induction p as [|c p IH]; intros [|d s]; try done.
  rewrite app_cons. simpl. destruct (Ascii.eqb c d); [apply IH | done].
Qed.





(** The first piece holds no separator. *)
Lemma head_split_clean (sep s : string) :
  sep <> "" -> contains sep (head_split sep s) = false.
Proof.
  intros Hsep.
  assert (contains sep "" = false) as Hnil by (by destruct sep).
  induction s as [|c s IH].
  - unfold head_split. simpl. by destruct (startswith sep "").
  - destruct (startswith sep (String c s)) eqn:Hs.
    + by rewrite head_split_here.
    + rewrite head_split_later by done.
      change (contains sep (String c (head_split sep s)))
        with (startswith sep (String c (head_split sep s))
              || contains sep (head_split sep s)).
      rewrite IH, orb_false_r.
      destruct (head_split_prefix sep s) as [rest Hrest].
      destruct (startswith sep (String c (head_split sep s))) eqn:Hh; [| done].
      apply (startswith_app_mono _ _ rest) in Hh.
      rewrite app_cons, <- Hrest in Hh. congruence.
Qed.

Lemma contains_app_mono (sep u v : string) :
  contains sep u = true -> contains sep (u ++ v) = true.
Proof.
  induction u as [|c u IH].
  - destruct sep; [by destruct v | done].
  - rewrite app_cons.
    change (contains sep (String c u))
      with (startswith sep (String c u) || contains sep u).
    change (contains sep (String c (u ++ v)))
      with (startswith sep (String c (u ++ v)) || contains sep (u ++ v)).
    intros H. apply orb_true_iff in H as [H|H].
    + apply (startswith_app_mono _ _ v) in H. rewrite app_cons in H.
      by rewrite H.
    + rewrite (IH H). apply orb_true_r.
Qed.

Lemma lstrip_clean (sep s : string) :
  contains sep s = false -> contains sep (lstrip s) = false.
Proof.
  induction s as [|c s IH]; [done |]. intros H.
  change (lstrip (String c s)) with (if isspace c then lstrip s else String c s).
  destruct (isspace c); [| done].
  apply contains_cons_false in H as [_ H]. by apply IH.
Qed.

Lemma rstrip_prefix (s : string) : exists rest, s = rstrip s ++ rest.
Proof.
  induction s as [|c s [rest IH]]; [by exists "" |].
  change (rstrip (String c s))
    with (match rstrip s with
          | EmptyString => if isspace c then EmptyString else String c EmptyString
          | r => String c r
          end).
  destruct (rstrip s) as [|d r].
  - destruct (isspace c); [by exists (String c s) |].
    exists s. by rewrite app_cons.
  - exists rest. by rewrite app_cons, <- IH.
Qed.

Lemma rstrip_clean (sep s : string) :
  contains sep s = false -> contains sep (rstrip s) = false.
Proof.
  intros H. destruct (rstrip_prefix s) as [rest Hrest].
  destruct (contains sep (rstrip s)) eqn:Hr; [| done].
  apply (contains_app_mono _ _ rest) in Hr. rewrite <- Hrest in Hr. congruence.
Qed.

Lemma fence_nonempty : FENCE <> "".
Proof. done. Qed.

Lemma json_fence_nonempty : JSON_FENCE <> "".
Proof. done. Qed.


(** Lines 86-87 on any reply with a JSON fence: a text is always found,
    and it holds no fence. *)
Lemma unfence_clean (reply : string) :
  contains JSON_FENCE reply = true ->
  exists text, unfence reply = Ok text /\ contains FENCE text = false.
Proof.
  intros Hreply. unfold unfence. rewrite Hreply.
  destruct (cut_some JSON_FENCE reply Hreply) as (a & b & Hcut).
  rewrite split_unfold, Hcut by done.
  change (list_index (a :: ?l) 1) with (list_index l 0).
  rewrite index0_split by done. cbn [bind_result].
  rewrite index0_split by done. cbn [bind_result].
  eexists. split; [done |].
  apply rstrip_clean, lstrip_clean, head_split_clean. done.
Qed.

End FenceFacts.

(** ** The stages, one at a time *)

Section Stages.

Context (rt : Runtime) (cfg : Config) (w : World).

Lemma bind_inv {A B} (c : M A) (k : A -> M B) tr r tr' :
  bind c k tr = (r, tr') ->
  (exists a tr1, c tr = (Ok a, tr1) /\ k a tr1 = (r, tr')) \/
  (exists e, c tr = (Raise e, tr') /\ r = Raise e).
Proof.
  unfold bind. destruct (c tr) as [[a|e] tr1]; [by eauto |].
  intros [= <- <-]. eauto.
Qed.

Lemma lift_inv {A} (x : result A) tr r tr' :
  lift x tr = (r, tr') -> r = x /\ tr' = tr.
Proof. by intros [= <- <-]. Qed.

Lemma plain_bind {A B} (c : result A) (k : A -> result B) :
  plain c -> (forall a, plain (k a)) -> plain (bind_result c k).
Proof. destruct c as [a|e]; simpl; eauto. Qed.

Lemma plain_returned {A} (reply : pyerror + A) : plain (returned reply).
Proof. by destruct reply. Qed.

Lemma plain_loads s : plain (loads rt s).
Proof. unfold loads. by destruct (json_loads rt s). Qed.

Lemma plain_loads_content c : plain (loads_content rt c).
Proof. destruct c; [apply plain_loads | done]. Qed.

Lemma plain_list_index {A} (l : list A) i : plain (list_index l i).
Proof. unfold list_index. by destruct (l !! i). Qed.

Lemma plain_unfence s : plain (unfence s).
Proof.
  unfold unfence. destruct (Str.contains _ _); [| done].
  repeat (apply plain_bind; [apply plain_list_index | intros ?]). done.
Qed.

Lemma plain_parse c : plain (parse_openai_json rt c).
Proof.
  destruct c; [| done]. simpl.
  apply plain_bind; [apply plain_unfence | intros ?; apply plain_loads].
Qed.

Lemma plain_py_get v k d : plain (py_get v k d).
Proof. destruct v; simpl; try done. by destruct (_ !! _). Qed.

Lemma plain_build_search_query ocr : plain (build_search_query rt ocr).
Proof.
  unfold build_search_query.
  repeat (apply plain_bind; [apply plain_py_get | intros ?]). done.
Qed.

Lemma plain_py_setitem v k x : plain (py_setitem v k x).
Proof. by destruct v. Qed.

Lemma plain_escape_phone v : plain (escape_phone v).
Proof.
  unfold escape_phone. apply plain_bind; [apply plain_py_get | intros p].
  destruct (py_truthy p); [| done].
  destruct p; try done.
  destruct (Str.startswith _ _); [apply plain_py_setitem | done].
Qed.

Lemma plain_drop_slogan v : plain (drop_slogan v).
Proof.
  unfold drop_slogan. destruct v; simpl; try done.
  - by destruct (Str.contains _ _).
  - by destruct (existsb _ _).
  - destruct (bool_decide _); [| done]. simpl. by destruct (_ !! _).
Qed.

Lemma plain_finalize v : plain (finalize v).
Proof.
  unfold finalize.
  apply plain_bind; [apply plain_escape_phone | intros ?; apply plain_drop_slogan].
Qed.

(** A call to the generation capability adds its event and nothing else. *)
Lemma chat_run site req tr :
  chat w site req tr =
  (returned (openai_create w tr req),
   (tr ++ [EvChat site req (openai_create w tr req)])%list).
Proof. reflexivity. Qed.

(** A search adds its event and returns, whatever happens to it. *)
Lemma search_google_run site query n tr :
  exists http,
    search_google rt cfg w site query n tr =
    (Ok (search_returned rt http), (tr ++ [EvSearch site query n http])%list) /\
    (http = None <->
     option_truthy (GOOGLE_API_KEY cfg) && option_truthy (GOOGLE_CSE_ID cfg) = false).
Proof.
  unfold search_google.
  destruct (option_truthy (GOOGLE_API_KEY cfg)), (option_truthy (GOOGLE_CSE_ID cfg));
    simpl;
    [ exists (Some (requests_get w tr (default "" (GOOGLE_API_KEY cfg))
                      (default "" (GOOGLE_CSE_ID cfg)) query n))
    | exists None | exists None | exists None ];
    (split; [reflexivity |]); split; done.
Qed.

Lemma extraction_stage_inv a b tr r tr' :
  extraction_stage rt w a b tr = (r, tr') ->
  exists reply,
    tr' = (tr ++ [EvChat Extraction (extract_request a b) reply])%list /\
    r = (content <-? returned reply ;; parse_openai_json rt content).
Proof.
  unfold extraction_stage, bind. rewrite chat_run.
  exists (openai_create w tr (extract_request a b)).
  destruct (openai_create w tr (extract_request a b)); simpl in *;
    unfold lift in *; by simplify_eq.
Qed.

Lemma validation_search_inv ocr tr r tr' :
  validation_search rt cfg w ocr tr = (r, tr') ->
  match build_search_query rt ocr with
  | Raise e => r = Raise e /\ tr' = tr
  | Ok query =>
      if py_truthy query then
        exists http,
          r = Ok (search_returned rt http) /\
          tr' = (tr ++ [EvSearch ValidationSearch query 3 http])%list
      else r = Ok None /\ tr' = tr
  end.
Proof.
  unfold validation_search, bind, lift, ret.
  destruct (build_search_query rt ocr) as [query|e]; [| by intros [= <- <-]].
  destruct (py_truthy query); [| by intros [= <- <-]].
  destruct (search_google_run ValidationSearch query 3 tr) as (http & -> & _).
  intros [= <- <-]. eauto.
Qed.

Lemma validation_stage_inv ocr g tr r tr' :
  validation_stage rt w ocr g tr = (r, tr') ->
  exists reply,
    tr' = (tr ++ [EvChat Validation
                    (json_chat_request (validation_prompt rt ocr g)) reply])%list /\
    r = (content <-? returned reply ;; loads_content rt content).
Proof.
  unfold validation_stage, bind. rewrite chat_run.
  exists (openai_create w tr (json_chat_request (validation_prompt rt ocr g))).
  destruct (openai_create w tr _); simpl in *;
    unfold lift in *; by simplify_eq.
Qed.

Lemma py_get_dict v k d x :
  py_get v k d = Ok x -> exists m, v = VDict m.
Proof. destruct v; try done. eauto. Qed.

(** Steps 4 and 5 and the finalization, by the validated mapping. *)
Lemma enrichment_inv vd tr r tr' :
  enrichment rt cfg w vd tr = (r, tr') ->
  match py_get vd "is_validated" VNone with
  | Raise e => r = Raise e /\ tr' = tr
  | Ok is_validated =>
      if py_truthy is_validated then
        exists validated_company http,
          py_get vd "company" VNone = Ok validated_company /\
          let search :=
            EvSearch EnrichmentSearch
              (VStr (contact_query rt validated_company)) 3 http in
          let results := search_returned rt http in
          if option_value_truthy results then
            exists reply,
              tr' = (tr ++ [search;
                            EvChat Enrichment
                              (json_chat_request
                                 (final_merge_prompt rt vd (default VNone results)))
                              reply])%list /\
              r = (final_data <-? (content <-? returned reply ;;
                                   loads_content rt content) ;;
                   finalize final_data)
          else tr' = (tr ++ [search])%list /\ r = finalize vd
      else tr' = tr /\ r = finalize vd
  end.
Proof.
  unfold enrichment, enrichment_search, merge_stage, bind, lift, ret.
  destruct (py_get vd "is_validated" VNone) as [iv|e] eqn:Hiv;
    [| by intros [= <- <-]].
  destruct (py_truthy iv); [| by intros [= <- <-]].
  destruct (py_get_dict _ _ _ _ Hiv) as [m ->].
  assert (exists c, py_get (VDict m) "company" VNone = Ok c) as [c Hc].
  { simpl. destruct (m !! "company"); eauto. }
  rewrite Hc.
  destruct (search_google_run EnrichmentSearch (VStr (contact_query rt c)) 3 tr)
    as (http & -> & _).
  intros H. exists c, http. split; [done |]. cbv zeta.
  destruct (option_value_truthy (search_returned rt http)).
  - rewrite chat_run in H.
    match type of H with
    | context [openai_create w ?t ?q] =>
        exists (openai_create w t q); destruct (openai_create w t q) as [e|content]
    end; simpl in H; rewrite <- app_assoc in H.
    + by simplify_eq.
    + simpl. destruct (loads_content rt content); by simplify_eq.
  - by simplify_eq.
Qed.

Lemma enrichment_plain vd tr r tr' :
  enrichment rt cfg w vd tr = (r, tr') -> plain r.
Proof.
  intros H. apply enrichment_inv in H.
  destruct (py_get vd "is_validated" VNone) as [iv|e] eqn:Hiv.
  - destruct (py_truthy iv).
    + destruct H as (c & http & _ & H). simpl in H.
      destruct (option_value_truthy _).
      * destruct H as (reply & _ & ->).
        apply plain_bind; [| intros ?; apply plain_finalize].
        apply plain_bind; [apply plain_returned | intros ?; apply plain_loads_content].
      * destruct H as [_ ->]. apply plain_finalize.
    + destruct H as [_ ->]. apply plain_finalize.
  - destruct H as [-> _]. rewrite <- Hiv. apply plain_py_get.
Qed.

Lemma enrichment_trace vd tr r tr' :
  enrichment rt cfg w vd tr = (r, tr') ->
  exists post, tr' = (tr ++ post)%list /\ Forall after_validation post.
Proof.
  intros H. apply enrichment_inv in H.
  destruct (py_get vd "is_validated" VNone) as [iv|e].
  - destruct (py_truthy iv).
    + destruct H as (c & http & _ & H). simpl in H.
      destruct (option_value_truthy _).
      * destruct H as (reply & -> & _). eexists. split; [done |].
        repeat constructor.
      * destruct H as [-> _]. eexists. split; [done |]. repeat constructor.
    + destruct H as [-> _]. exists []. by rewrite app_nil_r.
  - destruct H as [_ ->]. exists []. by rewrite app_nil_r.
Qed.

End Stages.

(** ** The whole run *)

Section Runs.

Context (rt : Runtime) (cfg : Config) (w : World).

(** The second piece is there whenever the separator is. *)
Lemma index1_split (sep s : string) :
  sep <> "" -> Str.contains sep s = true ->
  exists piece, list_index (Str.split sep s) 1 = Ok piece.
Proof.
  intros Hsep Hs. destruct (StrFacts.cut_some sep s Hs) as (a & b & Hcut).
  rewrite StrFacts.split_unfold, Hcut by done.
  destruct (StrFacts.split_head sep b Hsep) as (piece & rest & ->).
  by exists piece.
Qed.

Lemma clean_image1_total (s : string) : exists image, clean_image1 s = Ok image.
Proof.
  unfold clean_image1. destruct (Str.contains "," s) eqn:Hs; [| eauto].
  by apply index1_split.
Qed.

Lemma clean_image2_total (o : option string) :
  exists image, clean_image2 o = Ok image.
Proof.
  destruct o as [[|c s]|]; [by exists "" | | by exists ""].
  rewrite clean_image2_nonempty by done. apply clean_image1_total.
Qed.

Lemma plain_raise (A : Type) (e : exn) :
  plain (@Raise A e) -> exists x, e = Exc x.
Proof. destruct e; [eauto | done]. Qed.

(** The run of the pipeline, call by call, down to steps 4 and 5. *)
Lemma pipeline_inv i1 i2 tr0 r tr :
  pipeline rt cfg w i1 i2 tr0 = (r, tr) ->
  exists reply1,
    let call1 := EvChat Extraction (extract_request i1 i2) reply1 in
    match content <-? returned reply1 ;; parse_openai_json rt content with
    | Raise e => r = Raise e /\ tr = (tr0 ++ [call1])%list
    | Ok ocr =>
        match build_search_query rt ocr with
        | Raise e => r = Raise e /\ tr = (tr0 ++ [call1])%list
        | Ok query =>
            exists found g reply,
              (if py_truthy query
               then exists http,
                   found = [EvSearch ValidationSearch query 3 http] /\
                   g = search_returned rt http
               else found = [] /\ g = None) /\
              let call :=
                EvChat Validation
                  (json_chat_request (validation_prompt rt ocr g)) reply in
              match content <-? returned reply ;; loads_content rt content with
              | Raise e =>
                  r = Raise e /\ tr = (tr0 ++ call1 :: found ++ [call])%list
              | Ok vd =>
                  enrichment rt cfg w vd (tr0 ++ call1 :: found ++ [call])%list
                  = (r, tr)
              end
        end
    end.
Proof.
  unfold pipeline. intros H.
  apply bind_inv in H as [(ocr & tr1 & H1 & H)|(e & H1 & ->)];
    apply extraction_stage_inv in H1 as (reply1 & -> & Hr1);
    exists reply1; cbv zeta; rewrite <- Hr1; [| done].
  apply bind_inv in H as [(g & tr2 & H2 & H)|(e & H2 & ->)];
    apply validation_search_inv in H2;
    destruct (build_search_query rt ocr) as [query|e'];
    try (by destruct H2 as [[= <-] ->]).
  2:{ destruct (py_truthy query); [by destruct H2 as (? & ? & ?) | by destruct H2]. }
  assert (exists found,
             (if py_truthy query
              then exists http,
                  found = [EvSearch ValidationSearch query 3 http] /\
                  g = search_returned rt http
              else found = [] /\ g = None) /\
             tr2 = (tr0 ++ EvChat Extraction (extract_request i1 i2) reply1
                    :: found)%list) as (found & Hfound & ->).
  { destruct (py_truthy query).
    - destruct H2 as (http & [= ->] & ->). eexists. split; [by eauto |].
      by rewrite <- app_assoc.
    - destruct H2 as [[= ->] ->]. by exists []. }
  apply bind_inv in H as [(vd & tr3 & H3 & H)|(e & H3 & ->)];
    apply validation_stage_inv in H3 as (reply & -> & Hr3);
    exists found, g, reply; (split; [done |]); cbv zeta; rewrite <- Hr3.
  - by rewrite <- app_assoc in H.
  - by rewrite <- app_assoc.
Qed.

Lemma pipeline_plain i1 i2 tr0 r tr :
  pipeline rt cfg w i1 i2 tr0 = (r, tr) -> plain r.
Proof.
  intros H. apply pipeline_inv in H as (reply1 & H). cbv zeta in H.
  pose proof (plain_bind (returned reply1) (parse_openai_json rt)
                (plain_returned reply1) (plain_parse rt)) as Hp1.
  destruct (content <-? returned reply1 ;; parse_openai_json rt content) as [ocr|];
    [| by destruct H as [-> _]].
  pose proof (plain_build_search_query rt ocr) as Hp2.
  destruct (build_search_query rt ocr); [| by destruct H as [-> _]].
  destruct H as (found & g & reply & _ & H). cbv zeta in H.
  pose proof (plain_bind (returned reply) (loads_content rt)
                (plain_returned reply) (plain_loads_content rt)) as Hp.
  destruct (content <-? returned reply ;; loads_content rt content).
  - by eapply enrichment_plain.
  - by destruct H as [-> _].
Qed.

(** The pipeline calls the generation and search capabilities only. *)
Lemma pipeline_trace i1 i2 tr0 r tr :
  pipeline rt cfg w i1 i2 tr0 = (r, tr) ->
  exists evs, tr = (tr0 ++ evs)%list /\ Forall (fun e => is_sink e = false) evs.
Proof.
  intros H. apply pipeline_inv in H as (reply1 & H). cbv zeta in H.
  destruct (content <-? returned reply1 ;; parse_openai_json rt content) as [ocr|];
    [| destruct H as [_ ->]; eexists; split; [done | by repeat constructor]].
  destruct (build_search_query rt ocr) as [query|];
    [| destruct H as [_ ->]; eexists; split; [done | by repeat constructor]].
  destruct H as (found & g & reply & Hfound & H). cbv zeta in H.
  assert (Forall (fun e => is_sink e = false) found) as Hf.
  { destruct (py_truthy query).
    - destruct Hfound as (http & -> & _). by repeat constructor.
    - destruct Hfound as [-> _]. constructor. }
  destruct (content <-? returned reply ;; loads_content rt content).
  - apply enrichment_trace in H as (post & -> & Hpost).
    eexists. split; [by rewrite <- app_assoc |].
    rewrite <- app_comm_cons. constructor; [done |].
    rewrite <- app_assoc.
    apply Forall_app; split; [done |]. constructor; [done |].
    eapply Forall_impl; [done |]. by intros [[]| |].
  - destruct H as [_ ->]. eexists. split; [done |]. constructor; [done |].
    apply Forall_app; split; [done |]. by repeat constructor.
Qed.

(** When the validation call of a run got an answer that parses, the run
    went on from it with steps 4 and 5, after calls that all come before
    the validation call. *)
Lemma pipeline_validated i1 i2 r tr vreq reply vd :
  pipeline rt cfg w i1 i2 [] = (r, tr) ->
  EvChat Validation vreq reply ∈ tr ->
  (content <-? returned reply ;; loads_content rt content) = Ok vd ->
  exists pre,
    Forall before_validation pre /\
    enrichment rt cfg w vd (pre ++ [EvChat Validation vreq reply])%list = (r, tr).
Proof.
  intros H Hin Hvd. apply pipeline_inv in H as (reply1 & H). cbv zeta in H.
  destruct (content <-? returned reply1 ;; parse_openai_json rt content) as [ocr|].
  2:{ destruct H as [_ ->]. by apply list_elem_of_singleton in Hin. }
  destruct (build_search_query rt ocr) as [query|].
  2:{ destruct H as [_ ->]. by apply list_elem_of_singleton in Hin. }
  destruct H as (found & g & reply' & Hfound & H). cbv zeta in H.
  assert (Forall before_validation found) as Hf.
  { destruct (py_truthy query).
    - destruct Hfound as (http & -> & _). by repeat constructor.
    - destruct Hfound as [-> _]. constructor. }
  set (call1 := EvChat Extraction (extract_request i1 i2) reply1) in *.
  set (call := EvChat Validation _ reply') in *.
  assert (EvChat Validation vreq reply ∈ ([] ++ call1 :: found ++ [call])%list ->
          EvChat Validation vreq reply = call) as Hcall.
  { simpl. rewrite elem_of_cons, elem_of_app, list_elem_of_singleton.
    intros [He|[He|He]]; [done | | done].
    rewrite Forall_forall in Hf. by apply Hf in He. }
  exists (call1 :: found).
  split; [by constructor |].
  destruct (content <-? returned reply' ;; loads_content rt content) as [vd'|] eqn:Hr.
  - pose proof H as Htr. apply enrichment_trace in Htr as (post & Htr & Hpost).
    assert (EvChat Validation vreq reply = call) as Heq.
    { rewrite Htr in Hin. apply elem_of_app in Hin as [Hin|Hin]; [by apply Hcall |].
      rewrite Forall_forall in Hpost. by apply Hpost in Hin. }
    unfold call in Heq. injection Heq as -> ->.
    rewrite Hvd in Hr. injection Hr as ->. exact H.
  - destruct H as [_ ->]. apply Hcall in Hin.
    unfold call in Hin. injection Hin as -> ->. congruence.
Qed.

(** The whole handler: the images, the pipeline, then one call to the
    sink when the pipeline gave a record. *)
Lemma perform_ocr_inv req tr0 r tr :
  perform_ocr rt cfg w req tr0 = (r, tr) ->
  exists i1 i2 pr ptr,
    clean_image1 (base64Image1 req) = Ok i1 /\
    clean_image2 (base64Image2 req) = Ok i2 /\
    pipeline rt cfg w i1 i2 tr0 = (pr, ptr) /\
    match pr with
    | Raise e => tr = ptr /\ r = to_http_exception (Raise e)
    | Ok final_data =>
        let data := json_dumps rt (apps_script_payload i1 i2 final_data) in
        let http := requests_post w ptr (APPS_SCRIPT_URL cfg) data in
        tr = (ptr ++ [EvSink (APPS_SCRIPT_URL cfg) data http])%list /\
        r = to_http_exception
              (_ <-? submission_failed rt (x <-? returned http ;; save_check rt x) ;;
               OCRResponse_init rt final_data)
    end.
Proof.
  unfold perform_ocr, perform_ocr_body, bind, lift, submit.
  destruct (clean_image1_total (base64Image1 req)) as [i1 ->].
  destruct (clean_image2_total (base64Image2 req)) as [i2 ->].
  destruct (pipeline rt cfg w i1 i2 tr0) as [[fd|e] ptr] eqn:Hp;
    intros H; exists i1, i2; eexists _, ptr;
    (split; [done |]); (split; [done |]); (split; [done |]).
  - cbv zeta. cbv beta iota.
    destruct (submission_failed rt _) as [u|e]; injection H as <- <-; done.
  - by simplify_eq.
Qed.

End Runs.

(** ** The response *)

Section Response.

Context (rt : Runtime) (cfg : Config) (w : World).

Lemma drop_slogan_dict (d : gmap string value) :
  drop_slogan (VDict d) = Ok (VDict (delete "slogan" d)).
Proof.
  unfold drop_slogan. simpl. case_bool_decide as Hs; simpl.
  - by destruct Hs as [x ->].
  - f_equal. f_equal. symmetry. apply delete_id. by apply eq_None_not_Some.
Qed.

Lemma escape_phone_ok v fd :
  escape_phone v = Ok fd -> exists d d', v = VDict d /\ fd = VDict d'.
Proof.
  unfold escape_phone. destruct v as [| | | | | |d]; try done.
  intros H. exists d. cbn [py_get bind_result] in H.
  destruct (d !! "phone") as [p|]; cbn [py_get bind_result py_truthy] in H;
    [| simplify_eq; by eauto].
  destruct (py_truthy p); [| simplify_eq; by eauto].
  destruct p; try done.
  destruct (Str.startswith _ _); cbn [py_setitem] in H; simplify_eq; by eauto.
Qed.

(** A finalized mapping is a dict without [slogan]. *)
Lemma finalize_ok v fd :
  finalize v = Ok fd -> exists d, fd = VDict d /\ d !! "slogan" = None.
Proof.
  unfold finalize. destruct (escape_phone v) as [x|] eqn:Hx; [| done].
  apply escape_phone_ok in Hx as (d & d' & -> & ->).
  simpl. rewrite drop_slogan_dict. intros [= <-].
  eexists. split; [done |]. apply lookup_delete_eq.
Qed.

Lemma enrichment_finalized vd tr r tr' :
  enrichment rt cfg w vd tr = (r, tr') ->
  forall fd, r = Ok fd -> exists v, finalize v = Ok fd.
Proof.
  intros H fd ->. apply enrichment_inv in H.
  destruct (py_get vd "is_validated" VNone) as [iv|e]; [| by destruct H].
  destruct (py_truthy iv).
  - destruct H as (c & http & _ & H). cbv zeta in H.
    destruct (option_value_truthy _).
    + destruct H as (reply & _ & H).
      destruct (content <-? returned reply ;; loads_content rt content) as [x|];
        [| done].
      by exists x.
    + destruct H as [_ H]. by exists vd.
  - destruct H as [_ H]. by exists vd.
Qed.

Lemma pipeline_finalized i1 i2 tr0 fd tr :
  pipeline rt cfg w i1 i2 tr0 = (Ok fd, tr) ->
  exists d, fd = VDict d /\ d !! "slogan" = None.
Proof.
  intros H. apply pipeline_inv in H as (reply1 & H). cbv zeta in H.
  destruct (content <-? returned reply1 ;; parse_openai_json rt content) as [ocr|];
    [| by destruct H].
  destruct (build_search_query rt ocr); [| by destruct H].
  destruct H as (found & g & reply & _ & H). cbv zeta in H.
  destruct (content <-? returned reply ;; loads_content rt content);
    [| by destruct H].
  destruct (enrichment_finalized _ _ _ _ H fd eq_refl) as [v Hv].
  by apply finalize_ok in Hv.
Qed.

Lemma str_field_missing (d : gmap string value) k :
  d !! k = None -> str_field rt d k = Some "".
Proof. unfold str_field. by intros ->. Qed.

(** The response built from a mapping: complete, and backfilled. *)
Lemma OCRResponse_init_ok (d : gmap string value) resp :
  OCRResponse_init rt (VDict d) = Ok resp ->
  complete_record (response_body resp) /\ backfilled d (response_body resp).
Proof.
  unfold OCRResponse_init, backfilled.
  destruct (str_field rt d "company") as [c|] eqn:Hc; [| done].
  destruct (str_field rt d "name") as [n|] eqn:Hn; [| done].
  destruct (str_field rt d "title") as [t|] eqn:Ht; [| done].
  destruct (str_field rt d "phone") as [p|] eqn:Hp; [| done].
  destruct (str_field rt d "email") as [e|] eqn:He; [| done].
  destruct (str_field rt d "address") as [a|] eqn:Ha; [| done].
  destruct (str_field rt d "website") as [ws|] eqn:Hws; [| done].
  destruct (str_field rt d "validation_source") as [vs|] eqn:Hvs; [| done].
  destruct (bool_field rt d "is_validated") as [iv|] eqn:Hiv; [| done].
  destruct (str_field rt d "about_the_company") as [ab|] eqn:Hab; [| done].
  destruct (str_field rt d "location") as [l|] eqn:Hl; [| done].
  simpl. intros [= <-]. split; [split; [| split; [| split]] | split].
  - reflexivity.
  - intros k Hk. unfold str_fields in Hk.
    repeat (apply elem_of_cons in Hk as [-> | Hk]; [by eexists |]).
    by apply elem_of_nil in Hk.
  - by eexists.
  - reflexivity.
  - intros k Hk Hnone. unfold str_fields in Hk.
    repeat (apply elem_of_cons in Hk as [-> | Hk];
            [rewrite (str_field_missing d _ Hnone) in *; by simplify_eq |]).
    by apply elem_of_nil in Hk.
  - intros Hnone. unfold bool_field in Hiv. rewrite Hnone in Hiv. by simplify_eq.
Qed.

(** A mapping is accepted when every field it holds is: a field it lacks
    asks for nothing. *)
Lemma OCRResponse_init_accepts (d : gmap string value) :
  (forall k v, k ∈ str_fields -> d !! k = Some v ->
               is_Some (pydantic_str rt v)) ->
  (forall v, d !! "is_validated" = Some v -> is_Some (pydantic_bool rt v)) ->
  exists resp, OCRResponse_init rt (VDict d) = Ok resp.
Proof.
  intros Hstr Hbool.
  assert (forall k, k ∈ str_fields -> is_Some (str_field rt d k)) as Hs.
  { intros k Hk. unfold str_field.
    destruct (d !! k) as [v|] eqn:Hv; [by apply (Hstr k) | by eexists]. }
  assert (is_Some (bool_field rt d "is_validated")) as Hb.
  { unfold bool_field.
    destruct (d !! "is_validated") as [v|] eqn:Hv; [by apply Hbool | by eexists]. }
  unfold OCRResponse_init, str_fields in *.
  destruct Hb as [iv ->].
  repeat match goal with
         | |- context [str_field rt d ?f ≫= _] =>
             let H := fresh in
             destruct (Hs f) as [? H];
             [repeat first [apply list_elem_of_here | apply list_elem_of_further]
             | rewrite H; cbn [mbind option_bind]]
         end.
  cbn [mbind option_bind]. by eexists.
Qed.

End Response.

(** ** The validation query *)

Section Query.

Context (rt : Runtime) (cfg : Config) (w : World).

Lemma validation_search_query (ocr_data : gmap string value) query tr :
  build_search_query rt (VDict ocr_data) = Ok query ->
  py_truthy query = true ->
  exists http,
    validation_search rt cfg w (VDict ocr_data) tr =
    (Ok (search_returned rt http),
     (tr ++ [EvSearch ValidationSearch query 3 http])%list).
Proof.
  intros Hq Ht. unfold validation_search, bind, lift. rewrite Hq, Ht.
  destruct (search_google_run rt cfg w ValidationSearch query 3 tr)
    as (http & -> & _).
  by exists http.
Qed.

Lemma build_search_query_dict (ocr_data : gmap string value) :
  let company := default (VStr "") (ocr_data !! "company") in
  let name := default (VStr "") (ocr_data !! "name") in
  let slogan := default (VStr "") (ocr_data !! "slogan") in
  build_search_query rt (VDict ocr_data) =
  Ok (if py_truthy company && py_truthy slogan
      then VStr (py_format rt company ++ " " ++ py_format rt slogan)
      else if py_truthy company && py_truthy name
      then VStr (py_format rt name ++ " " ++ py_format rt company)
      else if py_truthy company then company
      else if py_truthy slogan then slogan
      else if py_truthy name then name
      else VStr "").
Proof.
  unfold build_search_query. cbn [py_get].
  by destruct (ocr_data !! "company"), (ocr_data !! "name"),
    (ocr_data !! "slogan").
Qed.

Lemma joined_truthy (a b : string) : py_truthy (VStr (a ++ " " ++ b)) = true.
Proof. by destruct a. Qed.

(** C2. The query of the validation search, by what was extracted, a
    falsy value (the empty string above all) counting as absent: company
    and slogan give [company slogan]; failing that, company and name give
    [name company]; failing that, the company alone, else the slogan alone,
    else the name alone; and with none of the three no search is made: the
    trace stays as it was. The card of Acme, with its slogan and no name,
    is searched as [Acme Build the future]. *)
Theorem search_query_precedence (ocr_data : gmap string value)
    (tr : list event) :
  let company := default (VStr "") (ocr_data !! "company") in
  let name := default (VStr "") (ocr_data !! "name") in
  let slogan := default (VStr "") (ocr_data !! "slogan") in
  let searches query :=
    exists http,
      validation_search rt cfg w (VDict ocr_data) tr =
      (Ok (search_returned rt http),
       (tr ++ [EvSearch ValidationSearch query 3 http])%list) in
  (py_truthy company = true -> py_truthy slogan = true ->
   searches (VStr (py_format rt company ++ " " ++ py_format rt slogan))) /\
  (py_truthy company = true -> py_truthy slogan = false ->
   py_truthy name = true ->
   searches (VStr (py_format rt name ++ " " ++ py_format rt company))) /\
  (py_truthy company = true -> py_truthy slogan = false ->
   py_truthy name = false -> searches company) /\
  (py_truthy company = false -> py_truthy slogan = true -> searches slogan) /\
  (py_truthy company = false -> py_truthy slogan = false ->
   py_truthy name = true -> searches name) /\
  (py_truthy company = false -> py_truthy slogan = false ->
   py_truthy name = false ->
   validation_search rt cfg w (VDict ocr_data) tr = (Ok None, tr)) /\
  (ocr_data = {[ "company" := VStr "Acme"; "slogan" := VStr "Build the future";
                 "name" := VStr "" ]} ->
   searches (VStr "Acme Build the future")).
Proof.
  intros company name slogan searches.
  pose proof (build_search_query_dict ocr_data) as Hq. cbv zeta in Hq.
  fold company name slogan in Hq.
  repeat split.
  - intros Hc Hs. rewrite Hc, Hs in Hq.
    apply (validation_search_query _ _ _ Hq), joined_truthy.
  - intros Hc Hs Hn. rewrite Hc, Hs, Hn in Hq.
    apply (validation_search_query _ _ _ Hq), joined_truthy.
  - intros Hc Hs Hn. rewrite Hc, Hs, Hn in Hq.
    by apply (validation_search_query _ _ _ Hq).
  - intros Hc Hs. rewrite Hc, Hs in Hq.
    by apply (validation_search_query _ _ _ Hq).
  - intros Hc Hs Hn. rewrite Hc, Hs, Hn in Hq.
    by apply (validation_search_query _ _ _ Hq).
  - intros Hc Hs Hn. rewrite Hc, Hs, Hn in Hq.
    unfold validation_search, bind, lift. by rewrite Hq.
  - intros ->. by apply validation_search_query.
Qed.

End Query.

Lemma search_query_precedence_witness :
  exists http,
    validation_search Sample.rt Sample.cfg Sample.world_full
      (VDict {[ "company" := VStr "Acme"; "slogan" := VStr "Build the future";
                "name" := VStr "" ]}) [] =
    (Ok (search_returned Sample.rt http),
     [EvSearch ValidationSearch (VStr "Acme Build the future") 3 http]).
Proof.
  apply (search_query_precedence Sample.rt Sample.cfg Sample.world_full
           {[ "company" := VStr "Acme"; "slogan" := VStr "Build the future";
              "name" := VStr "" ]} []).
  reflexivity.
Defined.

(** ** Finalization *)

Lemma escape_phone_dict (d : gmap string value) :
  escape_phone (VDict d) =
  match d !! "phone" with
  | Some (VStr s) =>
      if Str.startswith "+" s
      then Ok (VDict (<["phone" := VStr ("'" ++ s)]> d))
      else Ok (VDict d)
  | Some phone_number =>
      if py_truthy phone_number
      then Raise (AttributeError phone_number "startswith")
      else Ok (VDict d)
  | None => Ok (VDict d)
  end.
Proof.
  unfold escape_phone. cbn [py_get].
  destruct (d !! "phone") as [p|]; [| done]. cbn [bind_result].
  destruct p as [| | | |s| |]; try reflexivity.
  destruct s as [|c s]; [reflexivity |]. cbn [py_truthy].
  by destruct (Str.startswith "+" (String c s)).
Qed.

(** The phone rule leaves every other key alone. *)
Lemma escape_phone_other (d escaped : gmap string value) k :
  escape_phone (VDict d) = Ok (VDict escaped) ->
  k <> "phone" -> escaped !! k = d !! k.
Proof.
  rewrite escape_phone_dict. intros H Hk.
  destruct (d !! "phone") as [p|]; [| by simplify_eq].
  destruct p as [| | | |s| |];
    try (destruct (py_truthy _); by simplify_eq).
  destruct (Str.startswith "+" s); simplify_eq; [| done].
  by rewrite lookup_insert_ne.
Qed.

(** C3. The phone rule of the finalization. A phone that starts with [+]
    gets one apostrophe in front; a phone that does not (the empty one
    included) and a missing phone leave the mapping as it is; the rule
    never touches another key; and the finalized mapping is what the rule
    gives, less its [slogan]. So [+14155551234] becomes ['+14155551234],
    and [4155551234] stays. (A phone that is no string, which the data
    model excludes, is left alone when falsy and stops the request
    otherwise.) *)
Theorem phone_escape (final_data : gmap string value) :
  (forall s, final_data !! "phone" = Some (VStr ("+" ++ s)) ->
             escape_phone (VDict final_data) =
             Ok (VDict (<["phone" := VStr ("'+" ++ s)]> final_data))) /\
  (forall s, final_data !! "phone" = Some (VStr s) ->
             Str.startswith "+" s = false ->
             escape_phone (VDict final_data) = Ok (VDict final_data)) /\
  (final_data !! "phone" = None ->
   escape_phone (VDict final_data) = Ok (VDict final_data)) /\
  (forall v, final_data !! "phone" = Some v -> (forall s, v <> VStr s) ->
             escape_phone (VDict final_data) =
             if py_truthy v
             then Raise (AttributeError v "startswith")
             else Ok (VDict final_data)) /\
  (forall escaped, escape_phone (VDict final_data) = Ok (VDict escaped) ->
                   (forall k, k <> "phone" -> escaped !! k = final_data !! k) /\
                   finalize (VDict final_data)
                   = Ok (VDict (delete "slogan" escaped))) /\
  (final_data !! "phone" = Some (VStr "+14155551234") ->
   finalize (VDict final_data) =
   Ok (VDict (delete "slogan"
                (<["phone" := VStr "'+14155551234"]> final_data)))) /\
  (final_data !! "phone" = Some (VStr "4155551234") ->
   finalize (VDict final_data) = Ok (VDict (delete "slogan" final_data))).
Proof.
  pose proof (escape_phone_dict final_data) as He.
  repeat split.
  - intros s Hs. by rewrite Hs in He.
  - intros s Hs Hplus. by rewrite Hs, Hplus in He.
  - intros Hs. by rewrite Hs in He.
  - intros v Hs Hv. rewrite Hs in He.
    destruct v as [| | | |s| |]; try done. by destruct (Hv s).
  - intros k Hk. by apply escape_phone_other.
  - unfold finalize. rewrite H. cbn [bind_result]. apply drop_slogan_dict.
  - intros Hs. unfold finalize. rewrite He, Hs. apply drop_slogan_dict.
  - intros Hs. unfold finalize. rewrite He, Hs. apply drop_slogan_dict.
Qed.

Lemma phone_escape_witness :
  finalize (Sample.dict_of Sample.ocr_fields) =
  Ok (VDict (delete "slogan"
               (<["phone" := VStr "'+14155551234"]>
                  (list_to_map Sample.ocr_fields)))).
Proof.
  apply (phone_escape (list_to_map Sample.ocr_fields)).
  reflexivity.
Defined.

(** ** After the validation reply *)

Section Enrichment.

Context (rt : Runtime) (cfg : Config) (w : World).

Lemma before_not_after (e : event) :
  before_validation e -> after_validation e = false.
Proof. by destruct e as [[]|[]|]. Qed.

(** What the handler does once the validation call of its run has an
    answer that parses. *)
Lemma perform_ocr_validated req r tr vreq reply vd :
  perform_ocr rt cfg w req [] = (r, tr) ->
  EvChat Validation vreq reply ∈ tr ->
  (content <-? returned reply ;; loads_content rt content) = Ok vd ->
  exists i1 i2 pre pr ptr,
    Forall before_validation pre /\
    enrichment rt cfg w vd (pre ++ [EvChat Validation vreq reply])%list
    = (pr, ptr) /\
    match pr with
    | Raise e => tr = ptr /\ r = to_http_exception (Raise e)
    | Ok final_data =>
        let data := json_dumps rt (apps_script_payload i1 i2 final_data) in
        let http := requests_post w ptr (APPS_SCRIPT_URL cfg) data in
        tr = (ptr ++ [EvSink (APPS_SCRIPT_URL cfg) data http])%list /\
        r = to_http_exception
              (_ <-? submission_failed rt (x <-? returned http ;; save_check rt x) ;;
               OCRResponse_init rt final_data)
    end.
Proof.
  intros H Hin Hvd.
  apply perform_ocr_inv in H as (i1 & i2 & pr & ptr & _ & _ & Hp & H).
  assert (EvChat Validation vreq reply ∈ ptr) as Hin'.
  { destruct pr; [| by destruct H as [-> _]].
    cbv zeta in H. destruct H as [-> _].
    apply elem_of_app in Hin as [Hin|Hin]; [done |].
    by apply list_elem_of_singleton in Hin. }
  destruct (pipeline_validated rt cfg w _ _ _ _ _ _ _ Hp Hin' Hvd)
    as (pre & Hpre & He).
  by exists i1, i2, pre, pr, ptr.
Qed.

(** A response is made of the fields of the final mapping. *)
Lemma OCRResponse_init_source (v : value) resp :
  OCRResponse_init rt v = Ok resp ->
  exists d, v = VDict d /\
            str_field rt d "validation_source" = Some (validation_source resp).
Proof.
  destruct v as [| | | | | |d]; try done. intros H. exists d. split; [done |].
  unfold OCRResponse_init in H.
  destruct (str_field rt d "company"); [| done].
  destruct (str_field rt d "name"); [| done].
  destruct (str_field rt d "title"); [| done].
  destruct (str_field rt d "phone"); [| done].
  destruct (str_field rt d "email"); [| done].
  destruct (str_field rt d "address"); [| done].
  destruct (str_field rt d "website"); [| done].
  destruct (str_field rt d "validation_source"); [| done].
  destruct (bool_field rt d "is_validated"); [| done].
  destruct (str_field rt d "about_the_company"); [| done].
  destruct (str_field rt d "location"); [| done].
  simpl in H. by injection H as <-.
Qed.

(** Finalization leaves every key but [phone] and [slogan] alone. *)
Lemma finalize_other (d fd : gmap string value) k :
  finalize (VDict d) = Ok (VDict fd) ->
  k <> "phone" -> k <> "slogan" -> fd !! k = d !! k.
Proof.
  intros H Hp Hs. unfold finalize in H.
  destruct (escape_phone (VDict d)) as [x|] eqn:Hx; [| done].
  destruct (escape_phone_ok _ _ Hx) as (d0 & escaped & [= <-] & ->).
  cbn [bind_result] in H. rewrite drop_slogan_dict in H. injection H as <-.
  rewrite lookup_delete_ne by done. by apply (escape_phone_other d).
Qed.

Lemma ok_to_http_exception {A} (x : result A) (a : A) :
  to_http_exception x = Ok a -> x = Ok a.
Proof. by destruct x as [|[]]. Qed.

(** The response of a run that went through is built from the final
    mapping of its pipeline. *)
Lemma response_of_final {A} (saved : result A) final_data resp :
  to_http_exception (_ <-? saved ;; OCRResponse_init rt final_data) = Ok resp ->
  OCRResponse_init rt final_data = Ok resp.
Proof. intros H. apply ok_to_http_exception in H. by destruct saved. Qed.

(** C4, amended. When the validation reply of a run says [is_validated]
    false (or leaves it out, or has it falsy), the run makes no second
    search and no enrichment call; its final mapping is the finalized
    validation reply, so the [validation_source] of the response is the one
    of that reply as the response model reads it: empty when the reply has
    none, and otherwise whatever the reply put there. *)
Theorem unvalidated_run_skips_enrichment (req : OCRRequest)
    (r : result OCRResponse) (tr : list event) (vreq : chat_request)
    (content : option string) (vd : gmap string value) :
  perform_ocr rt cfg w req [] = (r, tr) ->
  EvChat Validation vreq (inr content) ∈ tr ->
  loads_content rt content = Ok (VDict vd) ->
  py_truthy (default VNone (vd !! "is_validated")) = false ->
  (forall query n http, EvSearch EnrichmentSearch query n http ∉ tr) /\
  (forall mreq reply, EvChat Enrichment mreq reply ∉ tr) /\
  forall resp, r = Ok resp ->
    (exists final_data,
        finalize (VDict vd) = Ok final_data /\
        OCRResponse_init rt final_data = Ok resp) /\
    str_field rt vd "validation_source" = Some (validation_source resp) /\
    (vd !! "validation_source" = None -> validation_source resp = "").
Proof.
  intros H Hin Hvd Hfalsy.
  destruct (perform_ocr_validated _ _ _ _ _ _ H Hin Hvd)
    as (i1 & i2 & pre & pr & ptr & Hpre & He & Hr).
  apply enrichment_inv in He. cbn [py_get] in He.
  assert (Ok (default VNone (vd !! "is_validated"))
          = match vd !! "is_validated" with
            | Some x => Ok x
            | None => Ok VNone
            end) as Hget by (by destruct (vd !! "is_validated")).
  rewrite <- Hget, Hfalsy in He. destruct He as [-> ->].
  assert (Forall (fun e => after_validation e = false)
            (pre ++ [EvChat Validation vreq (inr content)])) as Hquiet.
  { apply Forall_app; split; [| by repeat constructor].
    eapply Forall_impl; [done |]. apply before_not_after. }
  assert (Forall (fun e => after_validation e = false) tr) as Hall.
  { destruct (finalize (VDict vd)); [| by destruct Hr as [-> _]].
    cbv zeta in Hr. destruct Hr as [-> _].
    apply Forall_app; split; [done |]. by repeat constructor. }
  rewrite Forall_forall in Hall.
  split; [| split].
  - intros query n http Hs. by apply Hall in Hs.
  - intros mreq reply Hs. by apply Hall in Hs.
  - intros resp ->.
    destruct (finalize (VDict vd)) as [fd|e] eqn:Hfin;
      [| by destruct e; destruct Hr].
    cbv zeta in Hr. destruct Hr as [_ Hr]. symmetry in Hr.
    apply response_of_final in Hr.
    destruct (OCRResponse_init_source _ _ Hr) as (d & -> & Hsource).
    assert (str_field rt vd "validation_source"
            = Some (validation_source resp)) as Hvs.
    { rewrite <- Hsource. unfold str_field.
      by rewrite (finalize_other vd d "validation_source" Hfin). }
    repeat split; [by eauto | done |].
    intros Hnone. unfold str_field in Hvs. rewrite Hnone in Hvs.
    by injection Hvs.
Qed.

(** C5. When the validation reply of a run says [is_validated] true and
    the second search of the run gives nothing back (no credentials, a
    failed request, no items), the run makes no enrichment call, and its
    final mapping, the one sent to the sink and turned into the response,
    is the finalized validation reply. *)
Theorem validated_run_without_results (req : OCRRequest)
    (r : result OCRResponse) (tr : list event) (vreq : chat_request)
    (content : option string) (vd : gmap string value) :
  perform_ocr rt cfg w req [] = (r, tr) ->
  EvChat Validation vreq (inr content) ∈ tr ->
  loads_content rt content = Ok (VDict vd) ->
  py_truthy (default VNone (vd !! "is_validated")) = true ->
  (forall query n http,
      EvSearch EnrichmentSearch query n http ∈ tr ->
      search_returned rt http = None) ->
  (forall mreq reply, EvChat Enrichment mreq reply ∉ tr) /\
  (forall url data http,
      EvSink url data http ∈ tr ->
      exists i1 i2 final_data,
        finalize (VDict vd) = Ok final_data /\
        data = json_dumps rt (apps_script_payload i1 i2 final_data)) /\
  (forall resp, r = Ok resp ->
      exists final_data,
        finalize (VDict vd) = Ok final_data /\
        OCRResponse_init rt final_data = Ok resp).
Proof.
  intros H Hin Hvd Htruthy Hnone.
  destruct (perform_ocr_validated _ _ _ _ _ _ H Hin Hvd)
    as (i1 & i2 & pre & pr & ptr & Hpre & He & Hr).
  apply enrichment_inv in He. cbn [py_get] in He.
  assert (Ok (default VNone (vd !! "is_validated"))
          = match vd !! "is_validated" with
            | Some x => Ok x
            | None => Ok VNone
            end) as Hget by (by destruct (vd !! "is_validated")).
  rewrite <- Hget, Htruthy in He.
  destruct He as (company & http & _ & He). cbv zeta in He.
  set (search := EvSearch EnrichmentSearch _ 3 http) in *.
  assert (search ∈ tr) as Hsearch.
  { destruct (option_value_truthy _).
    - destruct He as (reply & -> & _).
      destruct pr; [cbv zeta in Hr |]; destruct Hr as [-> _];
        rewrite ?elem_of_app, ?elem_of_cons; tauto.
    - destruct He as [-> _].
      destruct pr; [cbv zeta in Hr |]; destruct Hr as [-> _];
        rewrite ?elem_of_app, ?elem_of_cons; tauto. }
  rewrite (Hnone _ _ _ Hsearch) in He. cbn [option_value_truthy] in He.
  destruct He as [-> ->].
  assert (forall mreq reply,
             EvChat Enrichment mreq reply
             ∉ ((pre ++ [EvChat Validation vreq (inr content)]) ++ [search])%list)
    as Hquiet.
  { intros mreq reply Hm.
    rewrite !elem_of_app, !list_elem_of_singleton in Hm.
    destruct Hm as [[Hm|Hm]|Hm]; [| done | done].
    rewrite Forall_forall in Hpre. by apply Hpre in Hm. }
  destruct (finalize (VDict vd)) as [fd|e] eqn:Hfin.
  - cbv zeta in Hr. destruct Hr as [-> Hr]. repeat split.
    + intros mreq reply Hm. apply elem_of_app in Hm as [Hm|Hm];
        [by apply Hquiet in Hm | by apply list_elem_of_singleton in Hm].
    + intros url data shttp Hs. apply elem_of_app in Hs as [Hs|Hs].
      * rewrite !elem_of_app, !list_elem_of_singleton in Hs.
        destruct Hs as [[Hs|Hs]|Hs]; [| done | done].
        rewrite Forall_forall in Hpre. by apply Hpre in Hs.
      * apply list_elem_of_singleton in Hs. injection Hs as -> -> ->.
        by exists i1, i2, fd.
    + intros resp ->. symmetry in Hr. apply response_of_final in Hr. eauto.
  - destruct Hr as [-> ->]. repeat split.
    + done.
    + intros url data shttp Hs.
      rewrite !elem_of_app, !list_elem_of_singleton in Hs.
      destruct Hs as [[Hs|Hs]|Hs]; [| done | done].
      rewrite Forall_forall in Hpre. by apply Hpre in Hs.
    + intros resp. by destruct e.
Qed.

End Enrichment.

(** ** The extraction reply *)

Section Extraction.

Context (rt : Runtime) (cfg : Config) (w : World).




End Extraction.


(** ** The search *)

Section Search.

Context (rt : Runtime) (cfg : Config) (w : World).

Lemma search_items_some (rsp : response) items :
  search_items rt rsp = Ok (Some items) ->
  error_status (resp_status rsp) = false /\
  exists d : gmap string value,
    json_loads rt (resp_text rsp) = inr (VDict d) /\
    d !! "items" = Some items /\ py_truthy items = true.
Proof.
  unfold search_items, raise_for_status, loads.
  destruct (error_status (resp_status rsp)); [done |]. cbn [bind_result].
  destruct (json_loads rt (resp_text rsp)) as [e|results]; [done |].
  cbn [bind_result]. intros H. split; [done |].
  destruct results as [| | | |s|l|d]; try done.
  - cbn [py_in bind_result] in H. by destruct (Str.contains "items" s).
  - cbn [py_in bind_result] in H. by destruct (existsb _ l).
  - exists d. split; [done |]. cbn [py_in bind_result py_getitem] in H.
    case_bool_decide as Hi; [| done]. destruct Hi as [x Hx].
    rewrite Hx in H. cbn [bind_result] in H.
    destruct x as [| | | |s|l|m]; try done; cbn [py_len bind_result] in H.
    + destruct s; simpl in H; [done |]. by simplify_eq.
    + destruct l; simpl in H; [done |]. by simplify_eq.
    + destruct (Z.of_nat (size m) >? 0)%Z eqn:Hm; [| done]. simplify_eq.
      split; [done |]. cbn [py_truthy]. by destruct (size m).
Qed.

(** C8, amended. A search never raises: it adds its one event and
    returns. Without credentials it issues no request and returns [None];
    it returns [None] as well when the request fails, when the status is a
    4xx or a 5xx, when the body is no JSON, and when the JSON object has no
    [items] or an empty one. It returns items only from a response whose
    status is no 4xx or 5xx and whose body is a JSON object with a
    non-empty [items]. *)
Theorem search_failures_are_swallowed (site : search_site) (query : value)
    (n : Z) (tr : list event) :
  exists http,
    search_google rt cfg w site query n tr =
    (Ok (search_returned rt http), (tr ++ [EvSearch site query n http])%list) /\
    (http = None <->
     option_truthy (GOOGLE_API_KEY cfg) && option_truthy (GOOGLE_CSE_ID cfg)
     = false) /\
    search_returned rt None = None /\
    (forall e, search_returned rt (Some (inl e)) = None) /\
    (forall rsp, error_status (resp_status rsp) = true ->
                 search_returned rt (Some (inr rsp)) = None) /\
    (forall rsp e, json_loads rt (resp_text rsp) = inl e ->
                   search_returned rt (Some (inr rsp)) = None) /\
    (forall rsp (d : gmap string value),
        json_loads rt (resp_text rsp) = inr (VDict d) ->
        d !! "items" = None \/ d !! "items" = Some (VList []) ->
        search_returned rt (Some (inr rsp)) = None) /\
    (forall rsp items,
        search_returned rt (Some (inr rsp)) = Some items ->
        error_status (resp_status rsp) = false /\
        exists d : gmap string value,
          json_loads rt (resp_text rsp) = inr (VDict d) /\
          d !! "items" = Some items /\ py_truthy items = true).
Proof.
  destruct (search_google_run rt cfg w site query n tr) as (http & Hrun & Hkeys).
  exists http. split; [done |]. split; [done |].
  split; [done |]. split; [done |].
  split; [| split; [| split]].
  - intros rsp Hs. cbn. unfold search_items, raise_for_status. by rewrite Hs.
  - intros rsp e He. cbn. unfold search_items, raise_for_status, loads.
    rewrite He. by destruct (error_status _).
  - intros rsp d Hd Hitems. cbn.
    unfold search_items, raise_for_status, loads. rewrite Hd.
    destruct (error_status _); [done |].
    cbn [bind_result py_in py_getitem].
    destruct Hitems as [->| ->]; [by rewrite bool_decide_eq_false_2 |].
    by rewrite bool_decide_eq_true_2.
  - intros rsp items Hs. apply search_items_some.
    unfold search_returned, search_outcome in Hs.
    destruct (search_items rt rsp) as [[x|]|]; by simplify_eq.
Qed.

End Search.

(** A response with items under a status 300 is taken for a result. *)
Lemma search_300_returns_items :
  search_google Sample.rt Sample.cfg Sample.world_search_300 ValidationSearch
    (VStr "Acme Build the future") 3 [] =
  (Ok (Some (VList [Sample.dict_of Sample.search_item])),
   [EvSearch ValidationSearch (VStr "Acme Build the future") 3
      (Some (inr (Response 300 Sample.items_text)))]).
Proof. vm_compute. reflexivity. Qed.

(** ** The submission *)

Section Submission.

Context (rt : Runtime) (cfg : Config) (w : World).

(** Lines 275-280 let a response through when, and only when, the sink
    answered success. *)
Lemma save_check_saved (http : pyerror + response) :
  (x <-? returned http ;; save_check rt x) = Ok tt <-> sink_saved rt http.
Proof.
  unfold sink_saved. destruct http as [e|rsp]; cbn [returned bind_result].
  { split; [done | by intros (? & ? & ? & ? & _)]. }
  unfold save_check, raise_for_status, loads. split.
  - destruct (error_status (resp_status rsp)) eqn:Hstatus; [done |].
    cbn [bind_result].
    destruct (json_loads rt (resp_text rsp)) as [e|save_result] eqn:Hloads;
      [done |].
    cbn [bind_result].
    destruct save_result as [| | | | | |d]; try done. cbn [py_get].
    destruct (d !! "success") as [success|] eqn:Hs; cbn [bind_result].
    + destruct (py_truthy success) eqn:Ht.
      * intros _. by exists rsp, d, success.
      * by destruct (d !! "message").
    + cbn [py_truthy]. by destruct (d !! "message").
  - intros (rsp' & d & success & [= <-] & -> & -> & Hs & Ht).
    cbn [bind_result py_get]. rewrite Hs. cbn [bind_result]. by rewrite Ht.
Qed.

Lemma save_check_failed (http : pyerror + response) :
  ~ sink_saved rt http ->
  exists detail,
    submission_failed rt (x <-? returned http ;; save_check rt x)
    = Raise (HTTPException 502 detail).
Proof.
  intros Hnot. destruct (x <-? returned http ;; save_check rt x) as [[]|e] eqn:Hs.
  - by apply save_check_saved in Hs.
  - by eexists.
Qed.

(** C7, amended. A sink that fails makes the request fail with a 502,
    whatever went well before: a failed request, a 4xx or 5xx status, a
    body that is no JSON object, a [success] that is false or missing all
    count as failures. A record reaches the caller only after the sink
    answered success. And a request that fails before it reaches the sink
    fails with a 500: the two failures are told apart. *)
Theorem sink_failure_is_fatal (req : OCRRequest) (r : result OCRResponse)
    (tr : list event) :
  perform_ocr rt cfg w req [] = (r, tr) ->
  (forall url data http,
      EvSink url data http ∈ tr -> ~ sink_saved rt http ->
      exists detail, r = Raise (HTTPException 502 detail)) /\
  (forall resp, r = Ok resp ->
      exists url data http, EvSink url data http ∈ tr /\ sink_saved rt http) /\
  ((forall url data http, EvSink url data http ∉ tr) ->
   exists detail, r = Raise (HTTPException 500 detail)) /\
  (forall e, ~ sink_saved rt (inl e)) /\
  (forall rsp, error_status (resp_status rsp) = true ->
               ~ sink_saved rt (inr rsp)) /\
  (forall rsp e, json_loads rt (resp_text rsp) = inl e ->
                 ~ sink_saved rt (inr rsp)) /\
  (forall rsp (d : gmap string value),
      json_loads rt (resp_text rsp) = inr (VDict d) ->
      py_truthy (default VNone (d !! "success")) = false ->
      ~ sink_saved rt (inr rsp)).
Proof.
  intros H.
  apply perform_ocr_inv in H as (i1 & i2 & pr & ptr & _ & _ & Hp & H).
  pose proof (pipeline_plain _ _ _ _ _ _ _ _ Hp) as Hplain.
  destruct (pipeline_trace _ _ _ _ _ _ _ _ Hp) as (evs & Hevs & Hquiet).
  simpl in Hevs. subst evs.
  assert (forall url data http, EvSink url data http ∉ ptr) as Hnone.
  { intros url data http Hin. rewrite Forall_forall in Hquiet.
    by apply Hquiet in Hin. }
  split; [| split; [| split]].
  - intros url data http Hin Hnot.
    destruct pr as [fd|e]; [| destruct H as [-> _]; by apply Hnone in Hin].
    cbv zeta in H. destruct H as [-> ->].
    apply elem_of_app in Hin as [Hin|Hin]; [by apply Hnone in Hin |].
    apply list_elem_of_singleton in Hin. injection Hin as -> -> ->.
    destruct (save_check_failed _ Hnot) as [detail ->]. by exists detail.
  - intros resp ->.
    destruct pr as [fd|e]; [| by destruct e; destruct H].
    cbv zeta in H. destruct H as [-> H]. symmetry in H.
    apply ok_to_http_exception in H.
    eexists _, _, _. split; [apply elem_of_app; right; apply list_elem_of_here |].
    apply save_check_saved.
    by destruct (x <-? returned _ ;; save_check rt x) as [[]|].
  - intros Hno. destruct pr as [fd|e].
    + cbv zeta in H. destruct H as [-> _].
      exfalso. eapply Hno, elem_of_app. right. apply list_elem_of_here.
    + destruct H as [_ ->]. destruct e; [by eexists | done].
  - repeat split.
    + by intros e (? & ? & ? & ? & _).
    + intros rsp Hs (? & ? & ? & [= <-] & Hs' & _). congruence.
    + intros rsp e He (? & ? & ? & [= <-] & _ & He' & _). congruence.
    + intros rsp d Hd Hf (? & d' & success & [= <-] & _ & Hd' & Hs & Ht).
      rewrite Hd in Hd'. injection Hd' as <-. rewrite Hs in Hf.
      simpl in Hf. congruence.
Qed.

Lemma payload_image2 (i2 : string) :
  match i2 with
  | String _ _ => i2
  | EmptyString => ""
  end = i2.
Proof. by destruct i2. Qed.

(** C9. The handler calls the sink at most once, and exactly once when
    its pipeline gave a final mapping, as the last thing it does to the
    outside world. The call goes to the configured address with the JSON
    text of an object of four keys: [action] is [save], [photo1Base64] and
    [photo2Base64] are the two images as normalized (the second the empty
    string when the request has no back image), and [extractedData] is the
    finalized mapping, which has no [slogan]. *)
Theorem sink_receives_one_call (req : OCRRequest) (r : result OCRResponse)
    (tr : list event) :
  perform_ocr rt cfg w req [] = (r, tr) ->
  exists i1 i2,
    clean_image1 (base64Image1 req) = Ok i1 /\
    clean_image2 (base64Image2 req) = Ok i2 /\
    (base64Image2 req = None -> i2 = "") /\
    (forall final_data ptr,
        pipeline rt cfg w i1 i2 [] = (Ok final_data, ptr) ->
        exists http,
          tr = (ptr ++ [EvSink (APPS_SCRIPT_URL cfg)
                          (json_dumps rt (apps_script_payload i1 i2 final_data))
                          http])%list) /\
    (forall url data http,
        EvSink url data http ∈ tr ->
        exists (final_data : gmap string value) ptr (payload : gmap string value),
          pipeline rt cfg w i1 i2 [] = (Ok (VDict final_data), ptr) /\
          final_data !! "slogan" = None /\
          tr = (ptr ++ [EvSink url data http])%list /\
          Forall (fun e => is_sink e = false) ptr /\
          url = APPS_SCRIPT_URL cfg /\
          data = json_dumps rt (VDict payload) /\
          dom payload
          = {[ "action"; "photo1Base64"; "photo2Base64"; "extractedData" ]} /\
          payload !! "action" = Some (VStr "save") /\
          payload !! "photo1Base64" = Some (VStr i1) /\
          payload !! "photo2Base64" = Some (VStr i2) /\
          payload !! "extractedData" = Some (VDict final_data)).
Proof.
  intros H.
  apply perform_ocr_inv in H as (i1 & i2 & pr & ptr & Hc1 & Hc2 & Hp & H).
  destruct (pipeline_trace _ _ _ _ _ _ _ _ Hp) as (evs & Hevs & Hquiet).
  simpl in Hevs. subst evs.
  exists i1, i2. split; [done |]. split; [done |]. split; [| split].
  - intros Hnone. rewrite Hnone in Hc2. by injection Hc2.
  - intros fd ptr' Hp'. rewrite Hp in Hp'. injection Hp' as -> ->.
    cbv zeta in H. destruct H as [-> _]. by eexists.
  - intros url data http Hin.
    assert (EvSink url data http ∉ ptr) as Hnot.
    { intros Hin'. rewrite Forall_forall in Hquiet. by apply Hquiet in Hin'. }
    destruct pr as [fd|e]; [| by destruct H as [-> _]].
    cbv zeta in H. destruct H as [-> _].
    apply elem_of_app in Hin as [Hin|Hin]; [done |].
    apply list_elem_of_singleton in Hin. injection Hin as -> -> ->.
    destruct (pipeline_finalized _ _ _ _ _ _ _ _ Hp) as (d & -> & Hslogan).
    exists d, ptr. eexists.
    split; [done |]. split; [done |]. split; [done |]. split; [done |].
    split; [done |]. split; [reflexivity |].
    rewrite payload_image2. split; [| by repeat split].
    rewrite !dom_insert_L, dom_empty_L. set_solver.
Qed.

End Submission.

(** A record accepted under a status 300 is returned to the caller. *)
Lemma sink_300_returns_record :
  exists resp tr data,
    perform_ocr Sample.rt Sample.cfg Sample.world_saved_300 Sample.request []
    = (Ok resp, tr) /\
    EvSink "https://script.example/exec" data
      (inr (Response 300 (Sample.render_object Sample.saved_fields))) ∈ tr.
Proof.
  eexists _, _, _. split; [vm_compute; reflexivity |].
  do 3 apply list_elem_of_further. apply list_elem_of_here.
Qed.

(** ** The response of a request *)

Section Completion.

Context (rt : Runtime) (cfg : Config) (w : World).

(** C1. A request that completes is answered with a record that holds all
    eleven fields and nothing else (so no [slogan]), every text field a
    string and [is_validated] a boolean; it is built from the final mapping
    of the pipeline, which has no [slogan] either, and a field that this
    mapping lacks holds the empty string ([False] for [is_validated]). And
    a field that the final mapping lacks is no error: once the sink has
    saved the record the request completes, whatever fields are missing,
    as long as the model takes the values of the fields that are there. *)
Theorem response_is_complete (req : OCRRequest) (r : result OCRResponse)
    (tr : list event) :
  perform_ocr rt cfg w req [] = (r, tr) ->
  (forall resp, r = Ok resp ->
     complete_record (response_body resp) /\
     exists i1 i2 final_data ptr,
       clean_image1 (base64Image1 req) = Ok i1 /\
       clean_image2 (base64Image2 req) = Ok i2 /\
       pipeline rt cfg w i1 i2 [] = (Ok (VDict final_data), ptr) /\
       final_data !! "slogan" = None /\
       OCRResponse_init rt (VDict final_data) = Ok resp /\
       backfilled final_data (response_body resp)) /\
  (forall i1 i2 (final_data : gmap string value) ptr,
     clean_image1 (base64Image1 req) = Ok i1 ->
     clean_image2 (base64Image2 req) = Ok i2 ->
     pipeline rt cfg w i1 i2 [] = (Ok (VDict final_data), ptr) ->
     (exists url data http, EvSink url data http ∈ tr /\ sink_saved rt http) ->
     (forall k v, k ∈ str_fields -> final_data !! k = Some v ->
                  is_Some (pydantic_str rt v)) ->
     (forall v, final_data !! "is_validated" = Some v ->
                is_Some (pydantic_bool rt v)) ->
     exists resp,
       r = Ok resp /\
       OCRResponse_init rt (VDict final_data) = Ok resp /\
       complete_record (response_body resp) /\
       backfilled final_data (response_body resp)).
Proof.
  intros H.
  apply perform_ocr_inv in H as (i1 & i2 & pr & ptr & Hc1 & Hc2 & Hp & H).
  split.
  - intros resp ->.
    destruct pr as [fd|e]; [| by destruct e; destruct H].
    cbv zeta in H. destruct H as [_ H].
    destruct (submission_failed rt _) as [u|e]; [| by destruct e].
    simpl in H.
    destruct (pipeline_finalized _ _ _ _ _ _ _ _ Hp) as (d & -> & Hslogan).
    destruct (OCRResponse_init rt (VDict d)) as [resp'|e] eqn:Hinit;
      [| by destruct e].
    simpl in H. injection H as <-.
    destruct (OCRResponse_init_ok rt d resp Hinit) as [Hc Hb].
    split; [done |]. by exists i1, i2, d, ptr.
  - intros i1' i2' fd ptr' Hc1' Hc2' Hp' (url & data & http & Hin & Hsaved)
      Hstr Hbool.
    rewrite Hc1 in Hc1'. injection Hc1' as <-.
    rewrite Hc2 in Hc2'. injection Hc2' as <-.
    rewrite Hp in Hp'. injection Hp' as -> <-.
    cbv zeta in H. destruct H as [-> ->].
    destruct (pipeline_trace _ _ _ _ _ _ _ _ Hp) as (evs & -> & Hevs).
    rewrite Forall_forall in Hevs.
    apply elem_of_app in Hin as [Hin|Hin]; [by apply Hevs in Hin |].
    apply list_elem_of_singleton in Hin. injection Hin as -> -> ->.
    apply save_check_saved in Hsaved. rewrite app_nil_l, Hsaved.
    cbn [submission_failed bind_result].
    destruct (OCRResponse_init_accepts rt fd Hstr Hbool) as [resp Hinit].
    destruct (OCRResponse_init_ok rt fd resp Hinit) as [Hc Hb].
    rewrite Hinit. exists resp.
    split; [reflexivity |]. split; [reflexivity |]. by split.
Qed.

End Completion.

(** ** The properties on the sample runs *)

Lemma response_is_complete_witness :
  let run :=
    perform_ocr Edge.rt Sample.cfg Edge.world_sparse Sample.request [] in
  let final_data : gmap string value := list_to_map Edge.sparse_final_fields in
  pipeline Edge.rt Sample.cfg Edge.world_sparse "AAAA" "" []
  = (Ok (VDict final_data),
     (pipeline Edge.rt Sample.cfg Edge.world_sparse "AAAA" "" []).2) /\
  final_data !! "company" = None /\
  final_data !! "is_validated" = None /\
  exists resp,
    run.1 = Ok resp /\
    OCRResponse_init Edge.rt (VDict final_data) = Ok resp /\
    complete_record (response_body resp) /\
    backfilled final_data (response_body resp).
Proof.
  cbv zeta.
  assert (perform_ocr Edge.rt Sample.cfg Edge.world_sparse Sample.request []
          = ((perform_ocr Edge.rt Sample.cfg Edge.world_sparse
                Sample.request []).1,
             (perform_ocr Edge.rt Sample.cfg Edge.world_sparse
                Sample.request []).2)) as Hrun
    by (vm_compute; reflexivity).
  assert (pipeline Edge.rt Sample.cfg Edge.world_sparse "AAAA" "" []
          = (Ok (VDict (list_to_map Edge.sparse_final_fields)),
             (pipeline Edge.rt Sample.cfg Edge.world_sparse "AAAA" "" []).2))
    as Hp by (vm_compute; reflexivity).
  split; [exact Hp |]. split; [reflexivity |]. split; [reflexivity |].
  destruct (response_is_complete Edge.rt Sample.cfg Edge.world_sparse
              Sample.request _ _ Hrun) as [_ Hcompletes].
  apply (Hcompletes "AAAA" "" (list_to_map Edge.sparse_final_fields) _
           eq_refl eq_refl Hp).
  - exists "https://script.example/exec", "{}",
      (Sample.ok (Sample.render_object Sample.saved_fields)).
    split; [vm_compute; do 3 apply list_elem_of_further;
            apply list_elem_of_here |].
    exists (Response 200 (Sample.render_object Sample.saved_fields)),
      (list_to_map Sample.saved_fields), (VBool true).
    repeat split; vm_compute; reflexivity.
  - intros k v Hk Hv. unfold str_fields in Hk.
    repeat (apply elem_of_cons in Hk as [-> | Hk];
            [vm_compute in Hv; try discriminate Hv; injection Hv as <-;
             by eexists |]).
    by apply elem_of_nil in Hk.
  - intros v Hv. vm_compute in Hv. discriminate Hv.
Defined.

(** A validation reply that says [is_validated] false and names a source
    all the same: the response carries that source. *)
Lemma unvalidated_reply_names_source :
  exists resp tr vreq content vd,
    perform_ocr Sample.rt Sample.cfg Sample.world_unvalidated_with_source
      Sample.request [] = (Ok resp, tr) /\
    EvChat Validation vreq (inr content) ∈ tr /\
    loads_content Sample.rt content = Ok (VDict vd) /\
    py_truthy (default VNone (vd !! "is_validated")) = false /\
    validation_source resp = "https://acme.example".
Proof.
  eexists _, _, _, _, _. split; [vm_compute; reflexivity |].
  split; [do 2 apply list_elem_of_further; apply list_elem_of_here |].
  split; [vm_compute; reflexivity |].
  split; reflexivity.
Qed.

Lemma unvalidated_run_skips_enrichment_witness :
  let run :=
    perform_ocr Sample.rt Sample.cfg Sample.world_unvalidated Sample.request [] in
  let content := Some (Sample.render_object Sample.unvalidated_fields) in
  let vd : gmap string value := list_to_map Sample.unvalidated_fields in
  EvChat Validation (Sample.validation_request None) (inr content) ∈ run.2 /\
  loads_content Sample.rt content = Ok (VDict vd) /\
  py_truthy (default VNone (vd !! "is_validated")) = false /\
  (forall query n http, EvSearch EnrichmentSearch query n http ∉ run.2) /\
  (forall mreq reply, EvChat Enrichment mreq reply ∉ run.2) /\
  forall resp, run.1 = Ok resp ->
    (exists final_data,
        finalize (VDict vd) = Ok final_data /\
        OCRResponse_init Sample.rt final_data = Ok resp) /\
    str_field Sample.rt vd "validation_source" = Some (validation_source resp) /\
    (vd !! "validation_source" = None -> validation_source resp = "").
Proof.
  cbv zeta.
  assert (EvChat Validation (Sample.validation_request None)
            (inr (Some (Sample.render_object Sample.unvalidated_fields)))
          ∈ (perform_ocr Sample.rt Sample.cfg Sample.world_unvalidated
               Sample.request []).2) as Hin.
  { vm_compute. do 2 apply list_elem_of_further. apply list_elem_of_here. }
  assert (loads_content Sample.rt
            (Some (Sample.render_object Sample.unvalidated_fields))
          = Ok (VDict (list_to_map Sample.unvalidated_fields))) as Hvd
    by (vm_compute; reflexivity).
  assert (py_truthy
            (default VNone
               ((list_to_map Sample.unvalidated_fields : gmap string value)
                  !! "is_validated")) = false) as Hfalsy
    by reflexivity.
  split; [exact Hin |]. split; [exact Hvd |]. split; [exact Hfalsy |].
  apply (unvalidated_run_skips_enrichment Sample.rt Sample.cfg
           Sample.world_unvalidated Sample.request
           (perform_ocr Sample.rt Sample.cfg Sample.world_unvalidated
              Sample.request []).1
           (perform_ocr Sample.rt Sample.cfg Sample.world_unvalidated
              Sample.request []).2
           (Sample.validation_request None)
           (Some (Sample.render_object Sample.unvalidated_fields))
           (list_to_map Sample.unvalidated_fields));
    [vm_compute; reflexivity | exact Hin | exact Hvd | exact Hfalsy].
Defined.

Lemma validated_run_without_results_witness :
  let run :=
    perform_ocr Sample.rt Sample.cfg Sample.world_no_enrichment
      Sample.request [] in
  let content := Some (Sample.render_object Sample.validated_fields) in
  let vd : gmap string value := list_to_map Sample.validated_fields in
  EvChat Validation (Sample.validation_request (Some Sample.items_found))
    (inr content) ∈ run.2 /\
  loads_content Sample.rt content = Ok (VDict vd) /\
  py_truthy (default VNone (vd !! "is_validated")) = true /\
  (forall query n http,
      EvSearch EnrichmentSearch query n http ∈ run.2 ->
      search_returned Sample.rt http = None) /\
  (forall mreq reply, EvChat Enrichment mreq reply ∉ run.2) /\
  (forall url data http,
      EvSink url data http ∈ run.2 ->
      exists i1 i2 final_data,
        finalize (VDict vd) = Ok final_data /\
        data = json_dumps Sample.rt (apps_script_payload i1 i2 final_data)) /\
  (forall resp, run.1 = Ok resp ->
      exists final_data,
        finalize (VDict vd) = Ok final_data /\
        OCRResponse_init Sample.rt final_data = Ok resp).
Proof.
  cbv zeta.
  assert (EvChat Validation (Sample.validation_request (Some Sample.items_found))
            (inr (Some (Sample.render_object Sample.validated_fields)))
          ∈ (perform_ocr Sample.rt Sample.cfg Sample.world_no_enrichment
               Sample.request []).2) as Hin.
  { vm_compute. do 2 apply list_elem_of_further. apply list_elem_of_here. }
  assert (loads_content Sample.rt
            (Some (Sample.render_object Sample.validated_fields))
          = Ok (VDict (list_to_map Sample.validated_fields))) as Hvd
    by (vm_compute; reflexivity).
  assert (py_truthy
            (default VNone
               ((list_to_map Sample.validated_fields : gmap string value)
                  !! "is_validated")) = true) as Htruthy
    by reflexivity.
  assert (forall query n http,
             EvSearch EnrichmentSearch query n http
             ∈ (perform_ocr Sample.rt Sample.cfg Sample.world_no_enrichment
                  Sample.request []).2 ->
             search_returned Sample.rt http = None) as Hnone.
  { intros query n http H. vm_compute in H.
    repeat (apply elem_of_cons in H as [H|H]; [try discriminate H |]).
    - injection H as -> -> ->. vm_compute. reflexivity.
    - by apply elem_of_nil in H. }
  split; [exact Hin |]. split; [exact Hvd |]. split; [exact Htruthy |].
  split; [exact Hnone |].
  apply (validated_run_without_results Sample.rt Sample.cfg
           Sample.world_no_enrichment Sample.request
           (perform_ocr Sample.rt Sample.cfg Sample.world_no_enrichment
              Sample.request []).1
           (perform_ocr Sample.rt Sample.cfg Sample.world_no_enrichment
              Sample.request []).2
           (Sample.validation_request (Some Sample.items_found))
           (Some (Sample.render_object Sample.validated_fields))
           (list_to_map Sample.validated_fields));
    [vm_compute; reflexivity | exact Hin | exact Hvd | exact Htruthy
    | exact Hnone].
Defined.

Lemma sink_failure_is_fatal_witness :
  let run :=
    perform_ocr Sample.rt Sample.cfg Sample.world_rejected Sample.request [] in
  (forall url data http,
      EvSink url data http ∈ run.2 -> ~ sink_saved Sample.rt http ->
      exists detail, run.1 = Raise (HTTPException 502 detail)) /\
  (forall resp, run.1 = Ok resp ->
      exists url data http,
        EvSink url data http ∈ run.2 /\ sink_saved Sample.rt http) /\
  ((forall url data http, EvSink url data http ∉ run.2) ->
   exists detail, run.1 = Raise (HTTPException 500 detail)) /\
  (forall e, ~ sink_saved Sample.rt (inl e)) /\
  (forall rsp, error_status (resp_status rsp) = true ->
               ~ sink_saved Sample.rt (inr rsp)) /\
  (forall rsp e, json_loads Sample.rt (resp_text rsp) = inl e ->
                 ~ sink_saved Sample.rt (inr rsp)) /\
  (forall rsp (d : gmap string value),
      json_loads Sample.rt (resp_text rsp) = inr (VDict d) ->
      py_truthy (default VNone (d !! "success")) = false ->
      ~ sink_saved Sample.rt (inr rsp)).
Proof.
  apply (sink_failure_is_fatal Sample.rt Sample.cfg Sample.world_rejected
           Sample.request
           (perform_ocr Sample.rt Sample.cfg Sample.world_rejected
              Sample.request []).1
           (perform_ocr Sample.rt Sample.cfg Sample.world_rejected
              Sample.request []).2).
  vm_compute. reflexivity.
Defined.

Lemma sink_receives_one_call_witness :
  let run :=
    perform_ocr Sample.rt Sample.cfg Sample.world_full Sample.request [] in
  exists i1 i2,
    clean_image1 (base64Image1 Sample.request) = Ok i1 /\
    clean_image2 (base64Image2 Sample.request) = Ok i2 /\
    (base64Image2 Sample.request = None -> i2 = "") /\
    (forall final_data ptr,
        pipeline Sample.rt Sample.cfg Sample.world_full i1 i2 []
        = (Ok final_data, ptr) ->
        exists http,
          run.2 = (ptr ++ [EvSink (APPS_SCRIPT_URL Sample.cfg)
                             (json_dumps Sample.rt
                                (apps_script_payload i1 i2 final_data))
                             http])%list) /\
    (forall url data http,
        EvSink url data http ∈ run.2 ->
        exists (final_data : gmap string value) ptr (payload : gmap string value),
          pipeline Sample.rt Sample.cfg Sample.world_full i1 i2 []
          = (Ok (VDict final_data), ptr) /\
          final_data !! "slogan" = None /\
          run.2 = (ptr ++ [EvSink url data http])%list /\
          Forall (fun e => is_sink e = false) ptr /\
          url = APPS_SCRIPT_URL Sample.cfg /\
          data = json_dumps Sample.rt (VDict payload) /\
          dom payload
          = {[ "action"; "photo1Base64"; "photo2Base64"; "extractedData" ]} /\
          payload !! "action" = Some (VStr "save") /\
          payload !! "photo1Base64" = Some (VStr i1) /\
          payload !! "photo2Base64" = Some (VStr i2) /\
          payload !! "extractedData" = Some (VDict final_data)).
Proof.
  apply (sink_receives_one_call Sample.rt Sample.cfg Sample.world_full
           Sample.request
           (perform_ocr Sample.rt Sample.cfg Sample.world_full
              Sample.request []).1
           (perform_ocr Sample.rt Sample.cfg Sample.world_full
              Sample.request []).2).
  vm_compute. reflexivity.
Defined.

(** * More of the handler *)

(** ** What a computation adds to the trace *)

Section Emits.

Context (rt : Runtime) (cfg : Config) (w : World).

Lemma emits_lift {A} (P : event -> Prop) (x : result A) : emits P (lift x).
Proof. intros tr r tr' [= <- <-]. exists []. by rewrite app_nil_r. Qed.

Lemma emits_ret {A} (P : event -> Prop) (a : A) : emits P (ret a).
Proof. intros tr r tr' [= <- <-]. exists []. by rewrite app_nil_r. Qed.

Lemma emits_bind {A B} (P : event -> Prop) (c : M A) (k : A -> M B) :
  emits P c -> (forall a, emits P (k a)) -> emits P (bind c k).
Proof.
  intros Hc Hk tr r tr' H.
  apply bind_inv in H as [(a & tr1 & H1 & H)|(e & H1 & ->)].
  - apply Hc in H1 as (evs1 & -> & Hevs1).
    apply Hk in H as (evs2 & -> & Hevs2).
    exists (evs1 ++ evs2)%list. split; [by rewrite app_assoc |].
    by apply Forall_app.
  - by apply Hc in H1.
Qed.

Lemma emits_chat (P : event -> Prop) site req :
  (forall reply, P (EvChat site req reply)) -> emits P (chat w site req).
Proof.
  intros HP tr r tr'. rewrite chat_run. intros [= <- <-].
  eexists. split; [done |]. by repeat constructor.
Qed.

Lemma emits_search_google (P : event -> Prop) site query n :
  (forall http,
      (http = None <-> search_configured cfg = false) ->
      P (EvSearch site query n http)) ->
  emits P (search_google rt cfg w site query n).
Proof.
  intros HP tr r tr' H.
  destruct (search_google_run rt cfg w site query n tr) as (http & Hrun & Hkeys).
  rewrite Hrun in H. injection H as <- <-.
  eexists. split; [done |]. repeat constructor. by apply HP.
Qed.

Lemma contact_query_truthy v : py_truthy (VStr (contact_query rt v)) = true.
Proof. reflexivity. Qed.

(** The pipeline makes chat calls and searches only; each search asks for
    three results with a truthy query, and goes out on the network exactly
    when both credentials are set. *)
Lemma pipeline_emits (P : event -> Prop) i1 i2 :
  (forall site req reply, P (EvChat site req reply)) ->
  (forall site query http,
      py_truthy query = true ->
      (http = None <-> search_configured cfg = false) ->
      P (EvSearch site query 3 http)) ->
  emits P (pipeline rt cfg w i1 i2).
Proof.
  intros Hchat Hsearch. unfold pipeline.
  apply emits_bind.
  { unfold extraction_stage. apply emits_bind; [by apply emits_chat |].
    intros ?. apply emits_lift. }
  intros ocr. apply emits_bind.
  { unfold validation_search. apply emits_bind; [apply emits_lift |].
    intros query. destruct (py_truthy query) eqn:Hq; [| apply emits_ret].
    apply emits_search_google. intros http. by apply Hsearch. }
  intros g. apply emits_bind.
  { unfold validation_stage. apply emits_bind; [by apply emits_chat |].
    intros ?. apply emits_lift. }
  intros vd. unfold enrichment. apply emits_bind.
  { unfold enrichment_search. apply emits_bind; [apply emits_lift |].
    intros iv. destruct (py_truthy iv); [| apply emits_ret].
    apply emits_bind; [apply emits_lift |]. intros company.
    apply emits_search_google. intros http.
    apply Hsearch, contact_query_truthy. }
  intros results. apply emits_bind; [| intros ?; apply emits_lift].
  unfold merge_stage. destruct (option_value_truthy results); [| apply emits_ret].
  apply emits_bind; [by apply emits_chat |]. intros ?. apply emits_lift.
Qed.

(** Every run, case by case: the calls it made and how it ended. *)
Lemma run_cases req r tr :
  perform_ocr rt cfg w req [] = (r, tr) ->
  exists i1 i2 reply1,
    clean_image1 (base64Image1 req) = Ok i1 /\
    clean_image2 (base64Image2 req) = Ok i2 /\
    let call1 := EvChat Extraction (extract_request i1 i2) reply1 in
    match content <-? returned reply1 ;; parse_openai_json rt content with
    | Raise e => finishes rt cfg w i1 i2 [call1] (Raise e) r tr
    | Ok ocr =>
        match build_search_query rt ocr with
        | Raise e => finishes rt cfg w i1 i2 [call1] (Raise e) r tr
        | Ok query =>
            exists found g reply,
              (if py_truthy query
               then exists http,
                   found = [EvSearch ValidationSearch query 3 http] /\
                   g = search_returned rt http
               else found = [] /\ g = None) /\
              let call :=
                EvChat Validation
                  (json_chat_request (validation_prompt rt ocr g)) reply in
              let done := (call1 :: found ++ [call])%list in
              match content <-? returned reply ;; loads_content rt content with
              | Raise e => finishes rt cfg w i1 i2 done (Raise e) r tr
              | Ok vd =>
                  match py_get vd "is_validated" VNone with
                  | Raise e => finishes rt cfg w i1 i2 done (Raise e) r tr
                  | Ok is_validated =>
                      if py_truthy is_validated then
                        exists validated_company http,
                          py_get vd "company" VNone = Ok validated_company /\
                          let search :=
                            EvSearch EnrichmentSearch
                              (VStr (contact_query rt validated_company)) 3 http in
                          let results := search_returned rt http in
                          if option_value_truthy results then
                            exists mreply,
                              finishes rt cfg w i1 i2
                                (done ++ [search;
                                          EvChat Enrichment
                                            (json_chat_request
                                               (final_merge_prompt rt vd
                                                  (default VNone results)))
                                            mreply])%list
                                (final_data <-? (content <-? returned mreply ;;
                                                 loads_content rt content) ;;
                                 finalize final_data) r tr
                          else
                            finishes rt cfg w i1 i2 (done ++ [search])%list
                              (finalize vd) r tr
                      else finishes rt cfg w i1 i2 done (finalize vd) r tr
                  end
              end
        end
    end.
Proof.
  intros H.
  apply perform_ocr_inv in H as (i1 & i2 & pr & ptr & Hc1 & Hc2 & Hp & H).
  fold (finishes rt cfg w i1 i2 ptr pr r tr) in H.
  apply pipeline_inv in Hp as (reply1 & Hp). cbv zeta in Hp.
  exists i1, i2, reply1. split; [done |]. split; [done |]. cbv zeta.
  destruct (content <-? returned reply1 ;; parse_openai_json rt content) as [ocr|];
    [| by destruct Hp as [-> ->]].
  destruct (build_search_query rt ocr) as [query|]; [| by destruct Hp as [-> ->]].
  destruct Hp as (found & g & reply & Hfound & Hp). cbv zeta in Hp.
  exists found, g, reply. split; [done |]. simpl in Hp.
  destruct (content <-? returned reply ;; loads_content rt content) as [vd|];
    [| by destruct Hp as [-> ->]].
  apply enrichment_inv in Hp.
  destruct (py_get vd "is_validated" VNone) as [iv|]; [| by destruct Hp as [-> ->]].
  destruct (py_truthy iv); [| by destruct Hp as [-> ->]].
  destruct Hp as (company & http & Hcompany & Hp). cbv zeta in Hp.
  exists company, http. split; [done |]. cbv zeta.
  destruct (option_value_truthy (search_returned rt http)).
  - destruct Hp as (mreply & -> & ->). by exists mreply.
  - by destruct Hp as [-> ->].
Qed.

End Emits.

(** ** Start-up *)

(** X1. The module loads exactly when the OpenAI key and the address of
    the sink are set and not empty; the search credentials are never
    needed. A missing OpenAI key is reported first and before anything is
    printed; the warning about the search credentials is printed whenever
    the OpenAI key is there and one of the two credentials is not, even when
    the load then fails for the sink address. The configuration that comes
    out has the credentials as the environment has them and a sink address
    that is not empty. *)
Theorem startup_needs_key_and_sink (env : Environ) :
  ((exists cfg, (startup env).2 = Ok cfg) <->
   option_truthy (env_OPENAI_API_KEY env)
   && option_truthy (env_APPS_SCRIPT_URL env) = true) /\
  (option_truthy (env_OPENAI_API_KEY env) = false ->
   startup env = ([], Raise (ValueError "No OpenAI API key found."))) /\
  (option_truthy (env_OPENAI_API_KEY env) = true ->
   (startup env).1 =
   if option_truthy (env_GOOGLE_API_KEY env)
      && option_truthy (env_GOOGLE_CSE_ID env)
   then [] else [GOOGLE_WARNING]) /\
  (forall cfg, (startup env).2 = Ok cfg ->
               GOOGLE_API_KEY cfg = env_GOOGLE_API_KEY env /\
               GOOGLE_CSE_ID cfg = env_GOOGLE_CSE_ID env /\
               Some (APPS_SCRIPT_URL cfg) = env_APPS_SCRIPT_URL env /\
               APPS_SCRIPT_URL cfg <> "").
Proof.
  unfold startup.
  destruct (option_truthy (env_OPENAI_API_KEY env)); cbn [negb].
  { destruct (env_APPS_SCRIPT_URL env) as [[|c url]|];
      cbn [option_truthy negb andb orb fst snd default];
      destruct (option_truthy (env_GOOGLE_API_KEY env)),
        (option_truthy (env_GOOGLE_CSE_ID env));
      cbn [negb andb orb fst snd];
      (split; [split; [intros [cfg Hcfg]; by inversion Hcfg | try done; eauto] |]);
      (split; [done |]); (split; [done |]);
      intros cfg Hcfg; inversion Hcfg; done. }
  repeat split; try done. by intros [cfg ?].
Qed.

(** ** Input normalization, again *)

Lemma clean_image1_clean (s : string) :
  exists image,
    clean_image1 s = Ok image /\ Str.contains "," image = false.
Proof.
  unfold clean_image1. destruct (Str.contains "," s) eqn:Hs; [| by eauto].
  destruct (StrFacts.cut_some "," s Hs) as (a & b & Hcut).
  rewrite StrFacts.split_unfold, Hcut by done.
  change (list_index (a :: ?l) 1) with (list_index l 0).
  rewrite FenceFacts.index0_split by done.
  eexists. split; [done |]. by apply FenceFacts.head_split_clean.
Qed.

(** X2. Normalizing an image never fails (the second piece is always
    there when a comma is), what it gives holds no comma, and so
    normalizing twice changes nothing; the same for the back image, which
    is the empty string when missing or empty. *)
Theorem clean_image_is_total_and_idempotent :
  (forall s, exists image,
      clean_image1 s = Ok image /\
      Str.contains "," image = false /\
      clean_image1 image = Ok image) /\
  (forall o, exists image,
      clean_image2 o = Ok image /\
      Str.contains "," image = false /\
      clean_image2 (Some image) = Ok image) /\
  clean_image2 None = Ok "" /\
  clean_image2 (Some "") = Ok "".
Proof.
  assert (forall image, Str.contains "," image = false ->
                        clean_image1 image = Ok image) as Hfix.
  { intros image H. unfold clean_image1. by rewrite H. }
  split; [| split; [| done]].
  - intros s. destruct (clean_image1_clean s) as (image & Hs & Hclean).
    exists image. auto.
  - intros o.
    assert (forall image, Str.contains "," image = false ->
                          clean_image2 (Some image) = Ok image) as Hfix2.
    { intros [|c image] H; [done |].
      rewrite clean_image2_nonempty by done. by apply Hfix. }
    destruct o as [[|c s]|]; [by exists "" | | by exists ""].
    rewrite clean_image2_nonempty by done.
    destruct (clean_image1_clean (String c s)) as (image & Hs & Hclean).
    exists image. auto.
Qed.

(** ** The fenced reply, again *)

Lemma contains_app_l (p q s : string) :
  Str.contains (p ++ q) s = true -> Str.contains p s = true.
Proof.
  induction s as [|c s IH].
  - simpl. rewrite !orb_false_r. apply FenceFacts.startswith_app_l.
  - change (Str.contains (p ++ q) (String c s))
      with (Str.startswith (p ++ q) (String c s) || Str.contains (p ++ q) s).
    change (Str.contains p (String c s))
      with (Str.startswith p (String c s) || Str.contains p s).
    intros H. apply orb_true_iff in H as [H|H].
    + apply FenceFacts.startswith_app_l in H. by rewrite H.
    + rewrite (IH H). apply orb_true_r.
Qed.

(** X3. Lines 86-87 never fail, whatever the reply: a text always comes
    out (the indexing after [split] cannot miss), so that a reply is
    rejected only by [json.loads]; and the text that comes out is left as
    it is when put through the same lines again. *)
Theorem unfence_is_total_and_idempotent (rt : Runtime) (reply : string) :
  exists text,
    unfence reply = Ok text /\
    unfence text = Ok text /\
    parse_openai_json rt (Some reply) = loads rt text /\
    (forall e, parse_openai_json rt (Some reply) = Raise e ->
               exists e', json_loads rt text = inl e' /\ e = Exc e').
Proof.
  assert (exists text, unfence reply = Ok text /\ unfence text = Ok text)
    as (text & Htext & Hfix).
  { destruct (Str.contains JSON_FENCE reply) eqn:Hreply.
    - destruct (FenceFacts.unfence_clean reply Hreply) as (text & Htext & Hclean).
      exists text. split; [done |]. unfold unfence.
      destruct (Str.contains JSON_FENCE text) eqn:Hj; [| done].
      apply (contains_app_l FENCE "json") in Hj. congruence.
    - exists reply. unfold unfence. by rewrite Hreply. }
  exists text. split; [done |]. split; [done |].
  unfold parse_openai_json. rewrite Htext. cbn [bind_result].
  split; [done |]. unfold loads. intros e.
  destruct (json_loads rt text) as [e'|v]; [| done].
  intros [= <-]. by exists e'.
Qed.

(** ** Finalization, again *)

Lemma escaped_not_plus (s : string) : Str.startswith "+" ("'" ++ s) = false.
Proof. reflexivity. Qed.

(** X4. Finalizing a finalized mapping changes nothing: an escaped phone
    is not escaped again. And finalization keeps the keys of the mapping,
    [slogan] apart. *)
Theorem finalize_is_idempotent (d : gmap string value) (final_data : value) :
  finalize (VDict d) = Ok final_data ->
  exists d' : gmap string value,
    final_data = VDict d' /\
    finalize (VDict d') = Ok (VDict d') /\
    dom d' = dom d ∖ {[ "slogan" ]}.
Proof.
  unfold finalize. rewrite escape_phone_dict.
  assert (forall e : gmap string value,
             escape_phone (VDict e) = Ok (VDict e) ->
             (escaped <-? escape_phone (VDict (delete "slogan" e)) ;;
              drop_slogan escaped)
             = Ok (VDict (delete "slogan" e))) as Hagain.
  { intros e He. rewrite escape_phone_dict in *.
    rewrite lookup_delete_ne by done.
    destruct (e !! "phone") as [p|] eqn:Hp; cbn [bind_result];
      [| by rewrite drop_slogan_dict, delete_delete_eq].
    destruct p as [| | | |s| |];
      try (destruct (py_truthy _); [done |]; cbn [bind_result];
           by rewrite drop_slogan_dict, delete_delete_eq).
    destruct (Str.startswith "+" s) eqn:Hs; cbn [bind_result];
      [| by rewrite drop_slogan_dict, delete_delete_eq].
    injection He as He. rewrite <- He, lookup_insert_eq in Hp.
    injection Hp as Hp. apply (f_equal String.length) in Hp.
    rewrite StrFacts.length_app in Hp. simpl in Hp. lia. }
  destruct (d !! "phone") as [p|] eqn:Hp; cbn [bind_result].
  - destruct p as [| | | |s| |];
      try (destruct (py_truthy _) eqn:Ht; [done |]; cbn [bind_result];
           rewrite drop_slogan_dict; intros Hf; injection Hf as <-;
           eexists; split; [done |]; split;
           [apply Hagain; rewrite escape_phone_dict, Hp;
            cbn [py_truthy] in *; by rewrite ?Ht
           | by rewrite dom_delete_L]).
    destruct (Str.startswith "+" s) eqn:Hs; cbn [bind_result];
      rewrite drop_slogan_dict; intros [= <-]; eexists; (split; [done |]).
    + split.
      * apply Hagain. rewrite escape_phone_dict, lookup_insert_eq.
        by rewrite escaped_not_plus.
      * by rewrite dom_delete_L, dom_insert_lookup_L.
    + split; [| by rewrite dom_delete_L].
      apply Hagain. by rewrite escape_phone_dict, Hp, Hs.
  - rewrite drop_slogan_dict. intros [= <-]. eexists. split; [done |].
    split; [| by rewrite dom_delete_L].
    apply Hagain. by rewrite escape_phone_dict, Hp.
Qed.

Lemma finalize_is_idempotent_witness :
  finalize (Sample.dict_of Sample.ocr_fields)
  = Ok (VDict (delete "slogan"
                 (<["phone" := VStr "'+14155551234"]>
                    (list_to_map Sample.ocr_fields)))) /\
  exists d' : gmap string value,
    VDict (delete "slogan"
             (<["phone" := VStr "'+14155551234"]>
                (list_to_map Sample.ocr_fields))) = VDict d' /\
    finalize (VDict d') = Ok (VDict d') /\
    dom d' = dom (list_to_map Sample.ocr_fields : gmap string value)
             ∖ {[ "slogan" ]}.
Proof.
  assert (finalize (Sample.dict_of Sample.ocr_fields)
          = Ok (VDict (delete "slogan"
                         (<["phone" := VStr "'+14155551234"]>
                            (list_to_map Sample.ocr_fields))))) as H
    by reflexivity.
  split; [exact H |].
  exact (finalize_is_idempotent (list_to_map Sample.ocr_fields) _ H).
Defined.

(** ** The response model, again *)

Section Model.

Context (rt : Runtime).

Lemma OCRResponse_init_agree (d1 d2 : gmap string value) resp :
  (forall f, f ∈ "is_validated" :: str_fields -> d2 !! f = d1 !! f) ->
  OCRResponse_init rt (VDict d1) = Ok resp ->
  OCRResponse_init rt (VDict d2) = Ok resp.
Proof.
  intros H.
  assert (forall f, f ∈ "is_validated" :: str_fields ->
                    str_field rt d2 f = str_field rt d1 f) as Hs.
  { intros f Hf. unfold str_field. by rewrite H. }
  assert (bool_field rt d2 "is_validated" = bool_field rt d1 "is_validated")
    as Hb.
  { unfold bool_field. rewrite H; [done |]. apply list_elem_of_here. }
  unfold OCRResponse_init, str_fields in *.
  repeat (rewrite ?Hb, ?Hs
            by (repeat first [apply list_elem_of_here
                             | apply list_elem_of_further]);
          match goal with
          | |- context [str_field rt d1 ?f ≫= _] =>
              destruct (str_field rt d1 f); [cbn [mbind option_bind] | done]
          | |- context [bool_field rt d1 ?f ≫= _] =>
              destruct (bool_field rt d1 f); [cbn [mbind option_bind] | done]
          end).
  done.
Qed.

Lemma not_a_field (k f : string) :
  k ∉ record_fields -> f ∈ "is_validated" :: str_fields -> k <> f.
Proof.
  intros Hk Hf ->. apply Hk. unfold record_fields.
  by apply elem_of_list_to_set.
Qed.

(** X5. The response depends on the eleven fields of the mapping only:
    adding, changing or removing any other key ([slogan], say) leaves it as
    it is. *)
Theorem response_ignores_other_keys (d : gmap string value)
    (resp : OCRResponse) (k : string) :
  OCRResponse_init rt (VDict d) = Ok resp ->
  k ∉ record_fields ->
  (forall v, OCRResponse_init rt (VDict (<[k := v]> d)) = Ok resp) /\
  OCRResponse_init rt (VDict (delete k d)) = Ok resp.
Proof.
  intros H Hk. split; [intros v |]; apply (OCRResponse_init_agree d); try done;
    intros f Hf.
  - apply lookup_insert_ne. by apply not_a_field.
  - apply lookup_delete_ne. by apply not_a_field.
Qed.

(** X6. When the model takes a string for a text field and a boolean for
    a boolean field as they are, a response read back from its own JSON
    object is the same response. *)
Theorem response_round_trip (resp : OCRResponse) :
  (forall s, pydantic_str rt (VStr s) = Some s) ->
  (forall b, pydantic_bool rt (VBool b) = Some b) ->
  OCRResponse_init rt (VDict (response_body resp)) = Ok resp.
Proof.
  intros Hstr Hbool. unfold OCRResponse_init, str_field, bool_field.
  change (response_body resp !! "company") with (Some (VStr (company resp))).
  change (response_body resp !! "name") with (Some (VStr (name resp))).
  change (response_body resp !! "title") with (Some (VStr (title resp))).
  change (response_body resp !! "phone") with (Some (VStr (phone resp))).
  change (response_body resp !! "email") with (Some (VStr (email resp))).
  change (response_body resp !! "address") with (Some (VStr (address resp))).
  change (response_body resp !! "website") with (Some (VStr (website resp))).
  change (response_body resp !! "validation_source")
    with (Some (VStr (validation_source resp))).
  change (response_body resp !! "is_validated")
    with (Some (VBool (is_validated resp))).
  change (response_body resp !! "about_the_company")
    with (Some (VStr (about_the_company resp))).
  change (response_body resp !! "location") with (Some (VStr (location resp))).
  cbv beta iota. rewrite !Hstr, !Hbool. cbn [mbind option_bind].
  by destruct resp.
Qed.

Lemma OCRResponse_init_raise (v : value) e :
  OCRResponse_init rt v = Raise e ->
  (exists d, v = VDict d /\ e = Exc (validation_error rt d)) \/
  (forall d, v <> VDict d).
Proof.
  destruct v as [| | | | | |d]; try (intros _; by right).
  intros H. left. exists d. split; [done |].
  unfold OCRResponse_init in H.
  destruct (mbind _ _) in H; by simplify_eq.
Qed.

End Model.

Lemma response_ignores_other_keys_witness :
  let d := response_body Sample.response_full in
  OCRResponse_init Sample.rt (VDict d) = Ok Sample.response_full /\
  ("slogan" ∉ record_fields) /\
  (forall v, OCRResponse_init Sample.rt (VDict (<["slogan" := v]> d))
             = Ok Sample.response_full) /\
  OCRResponse_init Sample.rt (VDict (delete "slogan" d))
  = Ok Sample.response_full.
Proof.
  assert (OCRResponse_init Sample.rt
            (VDict (response_body Sample.response_full))
          = Ok Sample.response_full) as H.
  { vm_compute. reflexivity. }
  assert ("slogan" ∉ record_fields) as Hk.
  { apply (bool_decide_unpack _). vm_compute. exact I. }
  split; [exact H |]. split; [exact Hk |].
  exact (response_ignores_other_keys Sample.rt
           (response_body Sample.response_full)
           Sample.response_full "slogan" H Hk).
Defined.

Lemma response_round_trip_witness :
  (forall s, pydantic_str Sample.rt (VStr s) = Some s) /\
  (forall b, pydantic_bool Sample.rt (VBool b) = Some b) /\
  OCRResponse_init Sample.rt (VDict (response_body Sample.response_full))
  = Ok Sample.response_full.
Proof.
  split; [reflexivity |]. split; [reflexivity |].
  apply (response_round_trip Sample.rt Sample.response_full); reflexivity.
Defined.

(** ** The calls of a run *)

(** Every place where a run can stop, from [run_cases]: seven goals, each
    with [H : finishes ...]. *)
Ltac split_run H :=
  apply run_cases in H as (i1 & i2 & reply1 & Hc1 & Hc2 & H); cbv zeta in H;
  destruct (bind_result (returned reply1) _) as [ocr|e] eqn:Hocr;
  [destruct (build_search_query _ ocr) as [query|e] eqn:Hquery;
   [destruct H as (found & g & reply & Hfound & H); cbv zeta in H;
    destruct (bind_result (returned reply) _) as [vd|e] eqn:Hvd;
    [destruct (py_get vd "is_validated" VNone) as [iv|e] eqn:Hiv;
     [destruct (py_truthy iv) eqn:Hmatch;
      [destruct H as (validated_company & http & Hcompany & H); cbv zeta in H;
       destruct (option_value_truthy (search_returned _ http)) eqn:Hres;
       [destruct H as (mreply & H) |] |] |] |] |] |].

(** Membership in a trace that is written out. *)
Ltac in_trace H :=
  repeat first
    [ apply elem_of_app in H as [H|H]
    | apply elem_of_cons in H as [H|H]
    | apply elem_of_nil in H; destruct H ];
  try discriminate H.

(** An event is in a trace that is written out. *)
Ltac trace_mem :=
  repeat first [rewrite elem_of_app | rewrite elem_of_cons]; eauto 10.

Section Calls.

Context (rt : Runtime) (cfg : Config) (w : World).

Lemma finishes_trace i1 i2 ptr pr r tr :
  finishes rt cfg w i1 i2 ptr pr r tr ->
  (tr = ptr /\ exists e, pr = Raise e) \/
  (exists final_data http,
      pr = Ok final_data /\
      tr = (ptr ++ [EvSink (APPS_SCRIPT_URL cfg)
                      (json_dumps rt (apps_script_payload i1 i2 final_data))
                      http])%list).
Proof.
  destruct pr as [fd|e]; simpl.
  - intros [-> _]. right. by eexists _, _.
  - intros [-> _]. left. split; [done |]. by exists e.
Qed.

Lemma found_cases query (found : list event) (g : option value) :
  (if py_truthy query
   then exists http,
       found = [EvSearch ValidationSearch query 3 http] /\
       g = search_returned rt http
   else found = [] /\ g = None) ->
  found = [] \/ exists http, found = [EvSearch ValidationSearch query 3 http].
Proof.
  destruct (py_truthy query).
  - intros (http & -> & _). right. by exists http.
  - intros [-> _]. by left.
Qed.

(** X7. The calls of a run come in the order of the pipeline and each
    at most once: the extraction call first, then the validation search,
    the validation call, the enrichment search, the enrichment call and
    the sink. A run makes between one and six calls. *)
Theorem calls_follow_the_pipeline (req : OCRRequest) (r : result OCRResponse)
    (tr : list event) :
  perform_ocr rt cfg w req [] = (r, tr) ->
  (exists i1 i2 reply rest,
      clean_image1 (base64Image1 req) = Ok i1 /\
      clean_image2 (base64Image2 req) = Ok i2 /\
      tr = EvChat Extraction (extract_request i1 i2) reply :: rest) /\
  StronglySorted lt (phase <$> tr) /\
  (length tr <= 6)%nat.
Proof.
  intros H. split_run H;
    (split; [exists i1, i2, reply1 |]);
    try (apply found_cases in Hfound as [->|(vhttp & ->)]);
    apply finishes_trace in H as [[-> _]|(fd & shttp & _ & ->)];
    try (eexists; split; [done |]; split; [done |]; reflexivity);
    (split; [cbn; repeat constructor | cbn; lia]).
Qed.

(** What holds of every chat call, of every search the pipeline can make
    and of every sink call holds of every call of a run. *)
Lemma run_emits (P : event -> Prop) req r tr :
  (forall site creq reply, P (EvChat site creq reply)) ->
  (forall site query http,
      py_truthy query = true ->
      (http = None <-> search_configured cfg = false) ->
      P (EvSearch site query 3 http)) ->
  (forall url data http, P (EvSink url data http)) ->
  perform_ocr rt cfg w req [] = (r, tr) ->
  Forall P tr.
Proof.
  intros Hchat Hsearch Hsink H.
  apply perform_ocr_inv in H as (i1 & i2 & pr & ptr & _ & _ & Hp & H).
  fold (finishes rt cfg w i1 i2 ptr pr r tr) in H.
  assert (Forall P ptr) as Hall.
  { destruct (pipeline_emits rt cfg w P i1 i2) with (tr := @nil event)
      (r := pr) (tr' := ptr) as (evs & -> & Hevs); try done. }
  apply finishes_trace in H as [[-> _]|(fd & shttp & _ & ->)]; [done |].
  apply Forall_app. split; [done |]. by repeat constructor.
Qed.

(** X8. Every search of a run asks for three results with a query that
    is not empty, and it goes out on the network exactly when both search
    credentials are set. *)
Theorem searches_of_a_run (req : OCRRequest) (r : result OCRResponse)
    (tr : list event) (site : search_site) (query : value) (n : Z)
    (http : option (pyerror + response)) :
  perform_ocr rt cfg w req [] = (r, tr) ->
  EvSearch site query n http ∈ tr ->
  n = 3%Z /\ py_truthy query = true /\
  (http = None <-> search_configured cfg = false).
Proof.
  intros H Hin.
  pose (P := fun e => match e with
                      | EvSearch _ q k h =>
                          k = 3%Z /\ py_truthy q = true /\
                          (h = None <-> search_configured cfg = false)
                      | _ => True
                      end).
  assert (Forall P tr) as Hall by (by apply (run_emits P req r)).
  rewrite Forall_forall in Hall. exact (Hall _ Hin).
Qed.

Lemma bind_returned_ok {A B} (answer : pyerror + A) (k : A -> result B) b :
  (x <-? returned answer ;; k x) = Ok b ->
  exists a, answer = inr a /\ k a = Ok b.
Proof. destruct answer as [err|a]; [done |]. intros Hk. by exists a. Qed.

Lemma py_get_ok v k x :
  py_get v k VNone = Ok x ->
  exists m : gmap string value, v = VDict m /\ x = default VNone (m !! k).
Proof.
  destruct v as [| | | | | |m]; try done. simpl. intros Hx. exists m.
  split; [done |]. destruct (m !! k); by simplify_eq.
Qed.

Lemma option_value_truthy_some (o : option value) :
  option_value_truthy o = true ->
  exists v, o = Some v /\ py_truthy v = true.
Proof. destruct o as [v|]; [| done]. intros Hv. by exists v. Qed.

(** X9. The enrichment call is made only after a validation reply with a
    truthy [is_validated] and an enrichment search that gave results; its
    prompt carries that validated mapping and those results, and what
    goes to the sink afterwards is the finalized reply of this call. *)
Theorem enrichment_call_needs_match_and_results (req : OCRRequest)
    (r : result OCRResponse) (tr : list event) (enrich_req : chat_request)
    (enrich_reply : pyerror + option string) :
  perform_ocr rt cfg w req [] = (r, tr) ->
  EvChat Enrichment enrich_req enrich_reply ∈ tr ->
  exists vreq content (validated : gmap string value) squery shttp results,
    EvChat Validation vreq (inr content) ∈ tr /\
    loads_content rt content = Ok (VDict validated) /\
    py_truthy (default VNone (validated !! "is_validated")) = true /\
    EvSearch EnrichmentSearch squery 3 shttp ∈ tr /\
    search_returned rt shttp = Some results /\
    py_truthy results = true /\
    enrich_req
    = json_chat_request (final_merge_prompt rt (VDict validated) results) /\
    (forall url data sink_http,
        EvSink url data sink_http ∈ tr ->
        exists a b merged_text merged final_data,
          enrich_reply = inr merged_text /\
          loads_content rt merged_text = Ok merged /\
          finalize merged = Ok final_data /\
          data = json_dumps rt (apps_script_payload a b final_data)).
Proof.
  intros H Hin. split_run H;
    try (apply found_cases in Hfound as [->|(vhttp & ->)]);
    apply finishes_trace in H as [[-> He]|(fd & sink & Hfd & ->)];
    in_trace Hin.
  all: injection Hin as -> ->.
  all: apply bind_returned_ok in Hvd as (content & -> & Hvd).
  all: apply py_get_ok in Hiv as (validated & -> & ->).
  all: apply option_value_truthy_some in Hres as (results & Hres & Hresults).
  all: rewrite Hres; cbn [default].
  all: exists (json_chat_request (validation_prompt rt ocr g)), content,
         validated, (VStr (contact_query rt validated_company)), http, results.
  all: split; [| split; [exact Hvd |]; split; [exact Hmatch |];
                 split; [| split; [exact Hres |]; split; [exact Hresults |];
                           split; [reflexivity |]]].
  all: try (by trace_mem).
  all: intros url data sink_http Hsink; in_trace Hsink.
  all: try (destruct He; discriminate).
  all: injection Hsink as -> -> ->.
  all: destruct (bind_result (returned mreply) _) as [merged|] eqn:Hmerged;
    [| done].
  all: apply bind_returned_ok in Hmerged as (merged_text & -> & Hmerged).
  all: exists i1, i2, merged_text, merged, fd; done.
Qed.

(** X10. The enrichment search is made only for a validated mapping
    with a truthy [is_validated], and its query is the company of that
    mapping in double quotes followed by the fixed words; a mapping with
    no company, or a null one, is searched as [None]. *)
Theorem enrichment_search_query (req : OCRRequest) (r : result OCRResponse)
    (tr : list event) (squery : value) (n : Z)
    (shttp : option (pyerror + response)) :
  perform_ocr rt cfg w req [] = (r, tr) ->
  EvSearch EnrichmentSearch squery n shttp ∈ tr ->
  exists vreq content (validated : gmap string value),
    EvChat Validation vreq (inr content) ∈ tr /\
    loads_content rt content = Ok (VDict validated) /\
    py_truthy (default VNone (validated !! "is_validated")) = true /\
    squery
    = VStr (dq ++ py_format rt (default VNone (validated !! "company")) ++ dq
            ++ " about description location contact info email phone address") /\
    (validated !! "company" = None \/ validated !! "company" = Some VNone ->
     squery
     = VStr (dq ++ "None" ++ dq
             ++ " about description location contact info email phone address")).
Proof.
  intros H Hin. split_run H;
    try (apply found_cases in Hfound as [->|(vhttp & ->)]);
    apply finishes_trace in H as [[-> He]|(fd & sink & Hfd & ->)];
    in_trace Hin.
  all: injection Hin as -> -> ->.
  all: apply bind_returned_ok in Hvd as (content & -> & Hvd).
  all: apply py_get_ok in Hiv as (validated & -> & ->).
  all: apply py_get_ok in Hcompany as (validated' & [= <-] & ->).
  all: exists (json_chat_request (validation_prompt rt ocr g)), content,
         validated.
  all: split; [by trace_mem |].
  all: split; [exact Hvd |]; split; [exact Hmatch |]; split; [reflexivity |].
  all: by intros [-> | ->].
Qed.

(** X11. The validation call is made only after an extraction reply that
    parsed, and its prompt is built from the parsed extraction and from
    what the validation search returned; with nothing to search for there
    is no search and the prompt is built without results. *)
Theorem validation_call_carries_extraction (req : OCRRequest)
    (r : result OCRResponse) (tr : list event) (vreq : chat_request)
    (vreply : pyerror + option string) :
  perform_ocr rt cfg w req [] = (r, tr) ->
  EvChat Validation vreq vreply ∈ tr ->
  exists a b content extracted squery results,
    EvChat Extraction (extract_request a b) (inr content) ∈ tr /\
    parse_openai_json rt content = Ok extracted /\
    build_search_query rt extracted = Ok squery /\
    vreq = json_chat_request (validation_prompt rt extracted results) /\
    if py_truthy squery
    then exists shttp,
        EvSearch ValidationSearch squery 3 shttp ∈ tr /\
        results = search_returned rt shttp
    else results = None /\
         forall q k shttp, EvSearch ValidationSearch q k shttp ∉ tr.
Proof.
  intros H Hin. split_run H;
    apply finishes_trace in H as [[-> He]|(fd & sink & Hfd & ->)];
    in_trace Hin.
  all: try (destruct (py_truthy query);
            [destruct Hfound as (vhttp & -> & _) | destruct Hfound as [-> _]];
            in_trace Hin; fail).
  all: injection Hin as -> ->.
  all: apply bind_returned_ok in Hocr as (content & -> & Hocr).
  all: exists i1, i2, content, ocr, query, g.
  all: split; [apply list_elem_of_here |].
  all: split; [exact Hocr |]; split; [exact Hquery |]; split; [reflexivity |].
  all: destruct (py_truthy query);
    [destruct Hfound as (vhttp & -> & ->); exists vhttp;
     split; [| reflexivity];
     apply list_elem_of_further, list_elem_of_here
    | destruct Hfound as [-> ->]; split; [reflexivity |];
      intros q k shttp Hs; in_trace Hs].
Qed.

End Calls.

(** ** How a run ends *)

Section Endings.

Context (rt : Runtime) (cfg : Config) (w : World).

(** A sink call in a trace is its last call, made with the finalized
    mapping of the pipeline. *)
Lemma run_sink req r tr url data sink_http :
  perform_ocr rt cfg w req [] = (r, tr) ->
  EvSink url data sink_http ∈ tr ->
  exists i1 i2 (final_data : gmap string value) ptr,
    pipeline rt cfg w i1 i2 [] = (Ok (VDict final_data), ptr) /\
    tr = (ptr ++ [EvSink url data sink_http])%list /\
    data = json_dumps rt (apps_script_payload i1 i2 (VDict final_data)) /\
    r = to_http_exception
          (_ <-? submission_failed rt
                   (x <-? returned sink_http ;; save_check rt x) ;;
           OCRResponse_init rt (VDict final_data)).
Proof.
  intros H Hin.
  apply perform_ocr_inv in H as (i1 & i2 & pr & ptr & _ & _ & Hp & H).
  destruct (pipeline_trace _ _ _ _ _ _ _ _ Hp) as (evs & -> & Hevs).
  rewrite Forall_forall in Hevs.
  destruct pr as [fd|e].
  - destruct (pipeline_finalized _ _ _ _ _ _ _ _ Hp) as (d & -> & _).
    cbv zeta in H. destruct H as [-> ->].
    apply elem_of_app in Hin as [Hin|Hin]; [by apply Hevs in Hin |].
    apply list_elem_of_singleton in Hin. injection Hin as -> -> ->.
    by exists i1, i2, d, ([] ++ evs)%list.
  - destruct H as [-> _]. by apply Hevs in Hin.
Qed.

Lemma OCRResponse_init_dict (d : gmap string value) :
  (exists resp, OCRResponse_init rt (VDict d) = Ok resp) \/
  OCRResponse_init rt (VDict d) = Raise (Exc (validation_error rt d)).
Proof.
  unfold OCRResponse_init. destruct (mbind _ _) as [resp|]; [left | right];
    by eauto.
Qed.

(** A mapping that the model rejects holds a value that [pydantic] does not
    take for its field. *)
Lemma OCRResponse_init_rejects (d : gmap string value) e :
  OCRResponse_init rt (VDict d) = Raise e ->
  exists k v,
    d !! k = Some v /\
    (k = "is_validated" /\ pydantic_bool rt v = None \/
     k ∈ str_fields /\ pydantic_str rt v = None).
Proof.
  unfold OCRResponse_init, str_fields.
  repeat match goal with
         | |- context [str_field rt d ?f ≫= _] =>
             destruct (str_field rt d f) eqn:?; cbn [mbind option_bind]
         | |- context [bool_field rt d ?f ≫= _] =>
             destruct (bool_field rt d f) eqn:?; cbn [mbind option_bind]
         end;
    try done; intros _;
    match goal with
    | Hf : str_field rt d ?f = None |- _ =>
        unfold str_field in Hf; destruct (d !! f) as [v|] eqn:Hv; [| done];
        exists f, v; split; [done |]; right; split; [| done];
        repeat first [apply list_elem_of_here | apply list_elem_of_further]
    | Hf : bool_field rt d ?f = None |- _ =>
        unfold bool_field in Hf; destruct (d !! f) as [v|] eqn:Hv; [| done];
        exists f, v; split; [done |]; by left
    end.
Qed.

(** X12. What the caller is told when the sink fails, for each way to
    fail. The error raised for a [success] that is false carries the
    status 500 and the message of the sink, and it reaches the caller
    wrapped in a 502 like every other failure of the submission. *)
Theorem sink_failure_detail (req : OCRRequest) (r : result OCRResponse)
    (tr : list event) (url data : string) (sink_http : pyerror + response) :
  perform_ocr rt cfg w req [] = (r, tr) ->
  EvSink url data sink_http ∈ tr ->
  let failed detail :=
    r = Raise (HTTPException 502 ("Apps Script Submission Failed: " ++ detail)) in
  (forall err, sink_http = inl err -> failed (exc_msg err)) /\
  (forall rsp,
      sink_http = inr rsp -> error_status (resp_status rsp) = true ->
      failed (exc_msg (http_error rt rsp))) /\
  (forall rsp err,
      sink_http = inr rsp -> error_status (resp_status rsp) = false ->
      json_loads rt (resp_text rsp) = inl err ->
      failed (exc_msg err)) /\
  (forall rsp v,
      sink_http = inr rsp -> error_status (resp_status rsp) = false ->
      json_loads rt (resp_text rsp) = inr v ->
      (forall d, v <> VDict d) ->
      failed ("'" ++ type_name v ++ "' object has no attribute 'get'")) /\
  (forall rsp (d : gmap string value),
      sink_http = inr rsp -> error_status (resp_status rsp) = false ->
      json_loads rt (resp_text rsp) = inr (VDict d) ->
      py_truthy (default VNone (d !! "success")) = false ->
      failed (http_exception_str rt 500
                ("Google Script Error: "
                 ++ py_format rt (default VNone (d !! "message"))))).
Proof.
  intros H Hin failed. subst failed.
  apply (run_sink _ _ _ _ _ _ H) in Hin
    as (i1 & i2 & fd & ptr & _ & _ & _ & ->).
  unfold save_check, raise_for_status, loads.
  split; [| split; [| split; [| split]]].
  - by intros err ->.
  - intros rsp -> Hstatus. cbn [returned bind_result]. by rewrite Hstatus.
  - intros rsp err -> Hstatus Hloads. cbn [returned bind_result].
    by rewrite Hstatus, Hloads.
  - intros rsp v -> Hstatus Hloads Hv. cbn [returned bind_result].
    rewrite Hstatus, Hloads. cbn [bind_result].
    by destruct v as [| | | | | |d]; [..| destruct (Hv d)].
  - intros rsp d -> Hstatus Hloads Hfalsy. cbn [returned bind_result].
    rewrite Hstatus, Hloads. cbn [bind_result py_get].
    destruct (d !! "success") as [success|]; simpl in Hfalsy;
      cbn [bind_result]; [rewrite Hfalsy | cbn [py_truthy]];
      by destruct (d !! "message").
Qed.

(** X13. A 500 after the sink was called means that the record was
    saved and that the response model then rejected it: the saved mapping
    holds a value that is no string in a text field, or no boolean in
    [is_validated]. *)
Theorem saved_record_can_be_rejected (req : OCRRequest) (tr : list event)
    (detail url data : string) (sink_http : pyerror + response) :
  perform_ocr rt cfg w req [] = (Raise (HTTPException 500 detail), tr) ->
  EvSink url data sink_http ∈ tr ->
  sink_saved rt sink_http /\
  exists a b (final_data : gmap string value),
    data = json_dumps rt (apps_script_payload a b (VDict final_data)) /\
    OCRResponse_init rt (VDict final_data)
    = Raise (Exc (validation_error rt final_data)) /\
    detail = exc_msg (validation_error rt final_data) /\
    exists k v,
      final_data !! k = Some v /\
      (k = "is_validated" /\ pydantic_bool rt v = None \/
       k ∈ str_fields /\ pydantic_str rt v = None).
Proof.
  intros H Hin.
  apply (run_sink _ _ _ _ _ _ H) in Hin
    as (i1 & i2 & fd & ptr & _ & _ & -> & Hr).
  destruct (x <-? returned sink_http ;; save_check rt x) as [[]|e] eqn:Hsave;
    [| done].
  apply save_check_saved in Hsave. split; [done |].
  exists i1, i2, fd. split; [done |]. cbn [submission_failed bind_result] in Hr.
  destruct (OCRResponse_init_dict fd) as [[resp Hresp]|Hrej];
    rewrite ?Hresp, ?Hrej in Hr; [done |].
  injection Hr as ->. split; [done |]. split; [done |].
  by apply OCRResponse_init_rejects in Hrej.
Qed.

(** X14. A run ends in a response, in a 500 or in a 502, never in
    another status or exception. It ends in a 502 exactly when the sink
    was called and did not save: a sink that did not save always gives a
    502, and a 502 comes from nothing else. A run that ends in a response
    called the sink and the sink saved; in a 500 the sink was not called,
    or it saved. *)
Theorem errors_are_500_or_502 (req : OCRRequest) (r : result OCRResponse)
    (tr : list event) :
  perform_ocr rt cfg w req [] = (r, tr) ->
  ((exists resp url data sink_http,
       r = Ok resp /\
       EvSink url data sink_http ∈ tr /\ sink_saved rt sink_http) \/
   (exists detail,
       r = Raise (HTTPException 500 detail) /\
       forall url data sink_http,
         EvSink url data sink_http ∈ tr -> sink_saved rt sink_http) \/
   (exists detail url data sink_http,
       r = Raise (HTTPException 502 detail) /\
       EvSink url data sink_http ∈ tr /\
       ~ sink_saved rt sink_http)) /\
  ((exists detail, r = Raise (HTTPException 502 detail)) <->
   (exists url data sink_http,
       EvSink url data sink_http ∈ tr /\ ~ sink_saved rt sink_http)).
Proof.
  intros H.
  assert (forall url data sink_http,
             EvSink url data sink_http ∈ tr -> ~ sink_saved rt sink_http ->
             exists detail, r = Raise (HTTPException 502 detail)) as Hfails.
  { intros url data sink_http Hin Hnot.
    apply (run_sink _ _ _ _ _ _ H) in Hin
      as (i1 & i2 & fd & ptr & _ & _ & _ & ->).
    destruct (save_check_failed rt sink_http Hnot) as [detail ->].
    by exists detail. }
  assert ((exists resp url data sink_http,
              r = Ok resp /\
              EvSink url data sink_http ∈ tr /\ sink_saved rt sink_http) \/
          (exists detail,
              r = Raise (HTTPException 500 detail) /\
              forall url data sink_http,
                EvSink url data sink_http ∈ tr -> sink_saved rt sink_http) \/
          (exists detail url data sink_http,
              r = Raise (HTTPException 502 detail) /\
              EvSink url data sink_http ∈ tr /\
              ~ sink_saved rt sink_http)) as Hends.
  { destruct (perform_ocr_inv _ _ _ _ _ _ _ H)
      as (i1 & i2 & pr & ptr & _ & _ & Hp & Hend).
    destruct pr as [fd|e].
    - cbv zeta in Hend. destruct Hend as [Htr Hr].
      assert (EvSink (APPS_SCRIPT_URL cfg)
                (json_dumps rt (apps_script_payload i1 i2 fd))
                (requests_post w ptr (APPS_SCRIPT_URL cfg)
                   (json_dumps rt (apps_script_payload i1 i2 fd))) ∈ tr)
        as Hin.
      { rewrite Htr. apply elem_of_app. right. apply list_elem_of_here. }
      destruct (pipeline_finalized _ _ _ _ _ _ _ _ Hp) as (d & -> & _).
      destruct (x <-? returned
                        (requests_post w ptr (APPS_SCRIPT_URL cfg)
                           (json_dumps rt
                              (apps_script_payload i1 i2 (VDict d)))) ;;
                save_check rt x) as [[]|e] eqn:Hsave.
      + apply save_check_saved in Hsave.
        cbn [submission_failed bind_result] in Hr.
        destruct (OCRResponse_init_dict d) as [[resp Hresp]|Hrej];
          rewrite ?Hresp, ?Hrej in Hr;
          [left; by eexists resp, _, _, _ |].
        right. left. eexists. split; [exact Hr |].
        intros url data sink_http Hs. rewrite Htr in Hs.
        destruct (pipeline_trace _ _ _ _ _ _ _ _ Hp) as (evs & -> & Hevs).
        rewrite Forall_forall in Hevs.
        apply elem_of_app in Hs as [Hs|Hs]; [by apply Hevs in Hs |].
        apply list_elem_of_singleton in Hs. by injection Hs as -> -> ->.
      + right. right. eexists _, _, _, _. split; [exact Hr |].
        split; [exact Hin |]. intros Hsaved.
        apply save_check_saved in Hsaved. by rewrite Hsaved in Hsave.
    - destruct Hend as [-> ->]. right. left.
      destruct (plain_raise _ e (pipeline_plain _ _ _ _ _ _ _ _ Hp)) as [x ->].
      eexists. split; [reflexivity |].
      intros url data sink_http Hs.
      destruct (pipeline_trace _ _ _ _ _ _ _ _ Hp) as (evs & -> & Hevs).
      rewrite Forall_forall in Hevs. by apply Hevs in Hs. }
  split; [exact Hends |]. split.
  - intros [detail ->].
    destruct Hends as [(resp & ? & ? & ? & Hr & _)
                      |[(d500 & Hr & _)|(d502 & url & data & h & _ & Hin & Hnot)]];
      [discriminate Hr | discriminate Hr |].
    by exists url, data, h.
  - intros (url & data & h & Hin & Hnot). by apply (Hfails url data h).
Qed.

End Endings.

(** ** Two edges of the pipeline *)

Section Edges.

Context (rt : Runtime) (w : World).

(** X15. A service that started without a search credential printed the
    warning, and none of its runs reaches the search capability: the
    validation prompt is built without results and the enrichment call
    is never made. *)
Theorem run_without_search_credentials (env : Environ)
    (printed : list string) (config : Config) (req : OCRRequest)
    (r : result OCRResponse) (tr : list event) :
  startup env = (printed, Ok config) ->
  option_truthy (env_GOOGLE_API_KEY env)
  && option_truthy (env_GOOGLE_CSE_ID env) = false ->
  perform_ocr rt config w req [] = (r, tr) ->
  printed = [GOOGLE_WARNING] /\
  (forall site squery n shttp,
      EvSearch site squery n shttp ∈ tr -> shttp = None) /\
  (forall vreq vreply,
      EvChat Validation vreq vreply ∈ tr ->
      exists extracted,
        vreq = json_chat_request (validation_prompt rt extracted None)) /\
  (forall mreq answer, EvChat Enrichment mreq answer ∉ tr).
Proof.
  intros Hstart Hkeys H.
  assert (printed = [GOOGLE_WARNING] /\ search_configured config = false)
    as [-> Hcfg].
  { unfold startup in Hstart. unfold search_configured.
    destruct (option_truthy (env_OPENAI_API_KEY env)); [| done].
    destruct (option_truthy (env_APPS_SCRIPT_URL env)); [| done].
    cbn [negb] in Hstart. injection Hstart as <- <-. cbn [GOOGLE_API_KEY
      GOOGLE_CSE_ID]. split; [| done].
    by destruct (option_truthy (env_GOOGLE_API_KEY env)),
         (option_truthy (env_GOOGLE_CSE_ID env)). }
  assert (forall site squery n shttp,
             EvSearch site squery n shttp ∈ tr -> shttp = None) as Hnone.
  { pose (P := fun e => match e with
                        | EvSearch _ _ _ h => h = None
                        | _ => True
                        end).
    assert (Forall P tr) as Hall.
    { apply (run_emits rt config w P req r); try done.
      intros site query http _ Hhttp. by apply Hhttp. }
    rewrite Forall_forall in Hall. intros site squery n shttp Hin.
    exact (Hall _ Hin). }
  split; [done |]. split; [exact Hnone |]. split.
  - intros vreq vreply Hin. split_run H;
      apply finishes_trace in H as [[-> He]|(fd & sink & Hfd & ->)];
      in_trace Hin.
    all: try (destruct (py_truthy query);
              [destruct Hfound as (vhttp & -> & _) | destruct Hfound as [-> _]];
              in_trace Hin; fail).
    all: injection Hin as -> ->; exists ocr; do 2 f_equal.
    all: destruct (py_truthy query);
      [destruct Hfound as (vhttp & -> & ->) | by destruct Hfound].
    all: rewrite (Hnone ValidationSearch query 3%Z vhttp); [done |].
    all: by trace_mem.
  - intros mreq answer Hin. split_run H;
      try (apply found_cases in Hfound as [->|(vhttp & ->)]);
      apply finishes_trace in H as [[-> He]|(fd & sink & Hfd & ->)];
      in_trace Hin.
    all: rewrite (Hnone EnrichmentSearch
                    (VStr (contact_query rt validated_company)) 3%Z http)
      in Hres; [done |].
    all: by trace_mem.
Qed.

Lemma py_get_non_dict (v : value) k d :
  (forall m, v <> VDict m) -> py_get v k d = Raise (AttributeError v "get").
Proof. intros Hv. by destruct v as [| | | | | |m]; [..| destruct (Hv m)]. Qed.

Lemma build_search_query_non_dict (v : value) :
  (forall m, v <> VDict m) ->
  build_search_query rt v = Raise (AttributeError v "get").
Proof.
  intros Hv. unfold build_search_query. by rewrite py_get_non_dict.
Qed.

Lemma finalize_non_dict (v : value) :
  (forall m, v <> VDict m) -> finalize v = Raise (AttributeError v "get").
Proof.
  intros Hv. unfold finalize, escape_phone. by rewrite py_get_non_dict.
Qed.

(** X16. A reply of the generation capability that parses to JSON that
    is no object (a list, a string, a number) ends the run there, at
    any of the three calls: the caller gets a 500 that says the value has
    no [get], no further call is made and nothing is saved. *)
Theorem non_object_reply_is_fatal (cfg : Config) (req : OCRRequest)
    (r : result OCRResponse) (tr : list event) (site : chat_site)
    (creq : chat_request) (text : option string) (v : value) :
  perform_ocr rt cfg w req [] = (r, tr) ->
  EvChat site creq (inr text) ∈ tr ->
  match site with
  | Extraction => parse_openai_json rt text
  | _ => loads_content rt text
  end = Ok v ->
  (forall d, v <> VDict d) ->
  r = Raise (HTTPException 500
               ("'" ++ type_name v ++ "' object has no attribute 'get'")) /\
  last tr = Some (EvChat site creq (inr text)).
Proof.
  intros H Hin Hv Hnd.
  pose proof (build_search_query_non_dict v Hnd) as Hq.
  pose proof (py_get_non_dict v "is_validated" VNone Hnd) as Hg.
  pose proof (finalize_non_dict v Hnd) as Hf.
  split_run H;
    try (apply found_cases in Hfound as [->|(vhttp & ->)]);
    idtac.
  all: first
         [ destruct H as [-> ->]
         | match type of H with
           | finishes _ _ _ _ _ _ ?pr _ _ =>
               destruct pr as [fd|err] eqn:Hpr; destruct H as [-> ->]
           end ].
  all: in_trace Hin.
  all: injection Hin as -> -> <-.
  all: cbn [returned bind_result] in *.
  all: try rewrite Hv in Hpr; cbn [bind_result] in *; try congruence.
  all: match goal with
       | |- to_http_exception (Raise ?x) = _ /\ _ =>
           assert (x = AttributeError v "get") as -> by congruence
       end.
  all: split; reflexivity.
Qed.

End Edges.

(** ** The properties of the calls on the sample runs *)

Lemma calls_follow_the_pipeline_witness :
  let run :=
    perform_ocr Sample.rt Sample.cfg Sample.world_full Sample.request [] in
  (exists i1 i2 reply rest,
      clean_image1 (base64Image1 Sample.request) = Ok i1 /\
      clean_image2 (base64Image2 Sample.request) = Ok i2 /\
      run.2 = EvChat Extraction (extract_request i1 i2) reply :: rest) /\
  StronglySorted lt (phase <$> run.2) /\
  (length run.2 <= 6)%nat.
Proof.
  cbv zeta.
  apply (calls_follow_the_pipeline Sample.rt Sample.cfg Sample.world_full
           Sample.request
           (perform_ocr Sample.rt Sample.cfg Sample.world_full
              Sample.request []).1).
  vm_compute. reflexivity.
Defined.

Lemma searches_of_a_run_witness :
  let run :=
    perform_ocr Sample.rt Sample.cfg Sample.world_full Sample.request [] in
  let http := Some (Sample.ok Sample.items_text) in
  EvSearch ValidationSearch (VStr "Acme Build the future") 3 http ∈ run.2 /\
  3%Z = 3%Z /\
  py_truthy (VStr "Acme Build the future") = true /\
  (http = None <-> search_configured Sample.cfg = false).
Proof.
  cbv zeta.
  assert (EvSearch ValidationSearch (VStr "Acme Build the future") 3
            (Some (Sample.ok Sample.items_text))
          ∈ (perform_ocr Sample.rt Sample.cfg Sample.world_full
               Sample.request []).2) as Hin.
  { vm_compute. apply list_elem_of_further, list_elem_of_here. }
  split; [exact Hin |].
  apply (searches_of_a_run Sample.rt Sample.cfg Sample.world_full
           Sample.request
           (perform_ocr Sample.rt Sample.cfg Sample.world_full
              Sample.request []).1
           (perform_ocr Sample.rt Sample.cfg Sample.world_full
              Sample.request []).2
           ValidationSearch (VStr "Acme Build the future") 3
           (Some (Sample.ok Sample.items_text)));
    [vm_compute; reflexivity | exact Hin].
Defined.

Lemma enrichment_call_needs_match_and_results_witness :
  let run :=
    perform_ocr Sample.rt Sample.cfg Sample.world_full Sample.request [] in
  let enrich_req :=
    json_chat_request
      (final_merge_prompt Sample.rt (Sample.dict_of Sample.validated_fields)
         Sample.items_found) in
  let enrich_reply := Sample.says (Sample.render_object Sample.merged_fields) in
  EvChat Enrichment enrich_req enrich_reply ∈ run.2 /\
  exists vreq content (validated : gmap string value) squery shttp results,
    EvChat Validation vreq (inr content) ∈ run.2 /\
    loads_content Sample.rt content = Ok (VDict validated) /\
    py_truthy (default VNone (validated !! "is_validated")) = true /\
    EvSearch EnrichmentSearch squery 3 shttp ∈ run.2 /\
    search_returned Sample.rt shttp = Some results /\
    py_truthy results = true /\
    enrich_req
    = json_chat_request
        (final_merge_prompt Sample.rt (VDict validated) results) /\
    (forall url data sink_http,
        EvSink url data sink_http ∈ run.2 ->
        exists a b merged_text merged final_data,
          enrich_reply = inr merged_text /\
          loads_content Sample.rt merged_text = Ok merged /\
          finalize merged = Ok final_data /\
          data = json_dumps Sample.rt (apps_script_payload a b final_data)).
Proof.
  cbv zeta.
  assert (EvChat Enrichment
            (json_chat_request
               (final_merge_prompt Sample.rt
                  (Sample.dict_of Sample.validated_fields) Sample.items_found))
            (Sample.says (Sample.render_object Sample.merged_fields))
          ∈ (perform_ocr Sample.rt Sample.cfg Sample.world_full
               Sample.request []).2) as Hin.
  { vm_compute. do 4 apply list_elem_of_further. apply list_elem_of_here. }
  split; [exact Hin |].
  apply (enrichment_call_needs_match_and_results Sample.rt Sample.cfg
           Sample.world_full Sample.request
           (perform_ocr Sample.rt Sample.cfg Sample.world_full
              Sample.request []).1
           (perform_ocr Sample.rt Sample.cfg Sample.world_full
              Sample.request []).2);
    [vm_compute; reflexivity | exact Hin].
Defined.

Lemma enrichment_search_query_witness :
  let run :=
    perform_ocr Edge.rt Sample.cfg Edge.world_validated_no_company
      Sample.request [] in
  let squery :=
    VStr (dq ++ "None" ++ dq
          ++ " about description location contact info email phone address") in
  let shttp := Some (Sample.ok Sample.no_items_text) in
  EvSearch EnrichmentSearch squery 3 shttp ∈ run.2 /\
  exists vreq content (validated : gmap string value),
    EvChat Validation vreq (inr content) ∈ run.2 /\
    loads_content Edge.rt content = Ok (VDict validated) /\
    py_truthy (default VNone (validated !! "is_validated")) = true /\
    squery
    = VStr (dq ++ py_format Edge.rt (default VNone (validated !! "company"))
            ++ dq
            ++ " about description location contact info email phone address") /\
    (validated !! "company" = None \/ validated !! "company" = Some VNone ->
     squery
     = VStr (dq ++ "None" ++ dq
             ++ " about description location contact info email phone address")).
Proof.
  cbv zeta.
  assert (EvSearch EnrichmentSearch
            (VStr (dq ++ "None" ++ dq
                   ++ " about description location contact info email phone address"))
            3 (Some (Sample.ok Sample.no_items_text))
          ∈ (perform_ocr Edge.rt Sample.cfg Edge.world_validated_no_company
               Sample.request []).2) as Hin.
  { vm_compute. do 3 apply list_elem_of_further. apply list_elem_of_here. }
  split; [exact Hin |].
  apply (enrichment_search_query Edge.rt Sample.cfg
           Edge.world_validated_no_company Sample.request
           (perform_ocr Edge.rt Sample.cfg Edge.world_validated_no_company
              Sample.request []).1
           (perform_ocr Edge.rt Sample.cfg Edge.world_validated_no_company
              Sample.request []).2
           _ 3 (Some (Sample.ok Sample.no_items_text)));
    [vm_compute; reflexivity | exact Hin].
Defined.

Lemma validation_call_carries_extraction_witness :
  let run :=
    perform_ocr Sample.rt Sample.cfg Sample.world_full Sample.request [] in
  let vreq := Sample.validation_request (Some Sample.items_found) in
  let vreply := Sample.says (Sample.render_object Sample.validated_fields) in
  EvChat Validation vreq vreply ∈ run.2 /\
  exists a b content extracted squery results,
    EvChat Extraction (extract_request a b) (inr content) ∈ run.2 /\
    parse_openai_json Sample.rt content = Ok extracted /\
    build_search_query Sample.rt extracted = Ok squery /\
    vreq = json_chat_request (validation_prompt Sample.rt extracted results) /\
    if py_truthy squery
    then exists shttp,
        EvSearch ValidationSearch squery 3 shttp ∈ run.2 /\
        results = search_returned Sample.rt shttp
    else results = None /\
         forall q k shttp, EvSearch ValidationSearch q k shttp ∉ run.2.
Proof.
  cbv zeta.
  assert (EvChat Validation
            (Sample.validation_request (Some Sample.items_found))
            (Sample.says (Sample.render_object Sample.validated_fields))
          ∈ (perform_ocr Sample.rt Sample.cfg Sample.world_full
               Sample.request []).2) as Hin.
  { vm_compute. do 2 apply list_elem_of_further. apply list_elem_of_here. }
  split; [exact Hin |].
  apply (validation_call_carries_extraction Sample.rt Sample.cfg
           Sample.world_full Sample.request
           (perform_ocr Sample.rt Sample.cfg Sample.world_full
              Sample.request []).1
           (perform_ocr Sample.rt Sample.cfg Sample.world_full
              Sample.request []).2
           _ (Sample.says (Sample.render_object Sample.validated_fields)));
    [vm_compute; reflexivity | exact Hin].
Defined.

Lemma sink_failure_detail_witness :
  let run :=
    perform_ocr Sample.rt Sample.cfg Sample.world_rejected Sample.request [] in
  let sink_http := Sample.ok (Sample.render_object Sample.rejected_fields) in
  EvSink "https://script.example/exec" "{}" sink_http ∈ run.2 /\
  run.1
  = Raise (HTTPException 502
             "Apps Script Submission Failed: 500: Google Script Error: sheet is full").
Proof.
  cbv zeta.
  assert (EvSink "https://script.example/exec" "{}"
            (Sample.ok (Sample.render_object Sample.rejected_fields))
          ∈ (perform_ocr Sample.rt Sample.cfg Sample.world_rejected
               Sample.request []).2) as Hin.
  { vm_compute. do 3 apply list_elem_of_further. apply list_elem_of_here. }
  split; [exact Hin |].
  assert (perform_ocr Sample.rt Sample.cfg Sample.world_rejected
            Sample.request []
          = ((perform_ocr Sample.rt Sample.cfg Sample.world_rejected
                Sample.request []).1,
             (perform_ocr Sample.rt Sample.cfg Sample.world_rejected
                Sample.request []).2)) as Hrun
    by (vm_compute; reflexivity).
  destruct (sink_failure_detail Sample.rt Sample.cfg Sample.world_rejected
              Sample.request _ _ _ _ _ Hrun Hin) as (_ & _ & _ & _ & Hfalse).
  rewrite (Hfalse (Response 200 (Sample.render_object Sample.rejected_fields))
             (list_to_map Sample.rejected_fields));
    vm_compute; reflexivity.
Defined.

Lemma saved_record_can_be_rejected_witness :
  let run :=
    perform_ocr Edge.rt Sample.cfg Edge.world_null_company Sample.request [] in
  let sink_http := Sample.ok (Sample.render_object Sample.saved_fields) in
  run.1 = Raise (HTTPException 500 "validation error") /\
  EvSink "https://script.example/exec" "{}" sink_http ∈ run.2 /\
  sink_saved Edge.rt sink_http /\
  exists a b (final_data : gmap string value),
    "{}" = json_dumps Edge.rt (apps_script_payload a b (VDict final_data)) /\
    OCRResponse_init Edge.rt (VDict final_data)
    = Raise (Exc (validation_error Edge.rt final_data)) /\
    "validation error" = exc_msg (validation_error Edge.rt final_data) /\
    exists k v,
      final_data !! k = Some v /\
      (k = "is_validated" /\ pydantic_bool Edge.rt v = None \/
       k ∈ str_fields /\ pydantic_str Edge.rt v = None).
Proof.
  cbv zeta.
  assert (perform_ocr Edge.rt Sample.cfg Edge.world_null_company
            Sample.request []
          = (Raise (HTTPException 500 "validation error"),
             (perform_ocr Edge.rt Sample.cfg Edge.world_null_company
                Sample.request []).2)) as Hrun
    by (vm_compute; reflexivity).
  assert (EvSink "https://script.example/exec" "{}"
            (Sample.ok (Sample.render_object Sample.saved_fields))
          ∈ (perform_ocr Edge.rt Sample.cfg Edge.world_null_company
               Sample.request []).2) as Hin.
  { vm_compute. do 3 apply list_elem_of_further. apply list_elem_of_here. }
  split; [vm_compute; reflexivity |]. split; [exact Hin |].
  exact (saved_record_can_be_rejected Edge.rt Sample.cfg
           Edge.world_null_company Sample.request _ _ _ _ _ Hrun Hin).
Defined.

Lemma errors_are_500_or_502_witness :
  let run :=
    perform_ocr Sample.rt Sample.cfg Sample.world_rejected Sample.request [] in
  ((exists resp url data sink_http,
       run.1 = Ok resp /\
       EvSink url data sink_http ∈ run.2 /\ sink_saved Sample.rt sink_http) \/
   (exists detail,
       run.1 = Raise (HTTPException 500 detail) /\
       forall url data sink_http,
         EvSink url data sink_http ∈ run.2 -> sink_saved Sample.rt sink_http) \/
   (exists detail url data sink_http,
       run.1 = Raise (HTTPException 502 detail) /\
       EvSink url data sink_http ∈ run.2 /\
       ~ sink_saved Sample.rt sink_http)) /\
  ((exists detail, run.1 = Raise (HTTPException 502 detail)) <->
   (exists url data sink_http,
       EvSink url data sink_http ∈ run.2 /\ ~ sink_saved Sample.rt sink_http)).
Proof.
  cbv zeta.
  apply (errors_are_500_or_502 Sample.rt Sample.cfg Sample.world_rejected
           Sample.request).
  vm_compute. reflexivity.
Defined.

Lemma run_without_search_credentials_witness :
  let run :=
    perform_ocr Sample.rt Edge.cfg_no_search Sample.world_full
      Sample.request [] in
  startup Edge.env_no_search = ([GOOGLE_WARNING], Ok Edge.cfg_no_search) /\
  [GOOGLE_WARNING] = [GOOGLE_WARNING] /\
  (forall site squery n shttp,
      EvSearch site squery n shttp ∈ run.2 -> shttp = None) /\
  (forall vreq vreply,
      EvChat Validation vreq vreply ∈ run.2 ->
      exists extracted,
        vreq
        = json_chat_request (validation_prompt Sample.rt extracted None)) /\
  (forall mreq answer, EvChat Enrichment mreq answer ∉ run.2).
Proof.
  cbv zeta.
  assert (startup Edge.env_no_search
          = ([GOOGLE_WARNING], Ok Edge.cfg_no_search)) as Hstart
    by reflexivity.
  split; [exact Hstart |].
  apply (run_without_search_credentials Sample.rt Sample.world_full
           Edge.env_no_search [GOOGLE_WARNING] Edge.cfg_no_search
           Sample.request
           (perform_ocr Sample.rt Edge.cfg_no_search Sample.world_full
              Sample.request []).1
           (perform_ocr Sample.rt Edge.cfg_no_search Sample.world_full
              Sample.request []).2 Hstart);
    [reflexivity | vm_compute; reflexivity].
Defined.

Lemma non_object_reply_is_fatal_witness :
  let run :=
    perform_ocr Edge.rt Sample.cfg Edge.world_list_reply Sample.request [] in
  let vreq :=
    json_chat_request
      (validation_prompt Edge.rt (Sample.dict_of Edge.ocr_fields) None) in
  EvChat Validation vreq (inr (Some "[]")) ∈ run.2 /\
  loads_content Edge.rt (Some "[]") = Ok (VList []) /\
  run.1
  = Raise (HTTPException 500
             ("'" ++ type_name (VList []) ++ "' object has no attribute 'get'")) /\
  last run.2 = Some (EvChat Validation vreq (inr (Some "[]"))).
Proof.
  cbv zeta.
  assert (EvChat Validation
            (json_chat_request
               (validation_prompt Edge.rt (Sample.dict_of Edge.ocr_fields)
                  None))
            (inr (Some "[]"))
          ∈ (perform_ocr Edge.rt Sample.cfg Edge.world_list_reply
               Sample.request []).2) as Hin.
  { vm_compute. do 2 apply list_elem_of_further. apply list_elem_of_here. }
  assert (loads_content Edge.rt (Some "[]") = Ok (VList [])) as Hv
    by reflexivity.
  split; [exact Hin |]. split; [exact Hv |].
  apply (non_object_reply_is_fatal Edge.rt Edge.world_list_reply Sample.cfg
           Sample.request
           (perform_ocr Edge.rt Sample.cfg Edge.world_list_reply
              Sample.request []).1
           (perform_ocr Edge.rt Sample.cfg Edge.world_list_reply
              Sample.request []).2
           Validation _ (Some "[]") (VList []));
    [vm_compute; reflexivity | exact Hin | exact Hv | discriminate].
Defined.
